(** * NetworkEyes plugin lifecycle manager: a shallow embedding

    The development follows [lifecycle_manager_old.py].  The manager talks to
    two resources that do not share a transaction: a directory tree and a
    relational session.  Both are modelled explicitly, together with the log,
    and every call into the outside world may raise, as decided by an
    oracle that is part of the environment.

    What the model fixes:
    - a method is a function from a world to a result and a world; a
      result is a value or a raised exception, and every exception is an
      instance of [Exception];
    - a call that is made to raise has no effect of its own; in
      particular a removal that fails has removed nothing; the text of an
      [OSError] that the tree itself causes is a placeholder, and no
      statement depends on it;
    - paths are compared as written: [..] is not resolved and there are no
      symbolic links, so statements about the entries that a path names
      ask for a path without [..];
    - the session has the committed store and the store that its open
      transaction sees; no other session writes while an operation runs;
      the exception for a violated primary key is the one of the driver,
      which the environment gives;
    - the manifest is text: [json.dump] and [json.load] are a printer and a
      scanner over characters.  The scanner reads what the printer writes:
      no number with a fraction or an exponent.  For any other text
      [json.load] is what the environment says; a text that the
      interpreter refuses for its length or depth is a read that is made
      to raise. *)

From Stdlib Require Import ZArith Ascii String Decimal DecimalString DecimalPos DecimalFacts.
From stdpp Require Import gmap strings list fin_maps.

Local Open Scope string_scope.
Local Open Scope list_scope.

(** ** Python values that travel through [json] *)

Module Json.

(** [dict] keeps its items in insertion order; a key is looked up from the
    right, so a later binding of the same key wins as in Python.  Strings
    are sequences of code points below 256; floats are outside the model. *)
#[local] Unset Elimination Schemes.
Inductive json : Type :=
  | JNull
  | JBool (b : bool)
  | JInt (z : Z)
  | JStr (s : string)
  | JArr (items : list json)
  | JObj (members : list (string * json)).
#[local] Set Elimination Schemes.

Definition chars := list ascii.

Definition lit (s : string) : chars := list_ascii_of_string s.

Definition dquote : ascii := ascii_of_N 34.
Definition backslash : ascii := ascii_of_N 92.

(** [dict.get(key)] *)
Fixpoint assoc_last (key : string) (members : list (string * json)) : option json :=
  match members with
  | [] => None
  | (k, v) :: rest =>
      match assoc_last key rest with
      | Some v' => Some v'
      | None => if String.eqb k key then Some v else None
      end
  end.

Definition get (key : string) (v : json) : option json :=
  match v with
  | JObj members => assoc_last key members
  | _ => None
  end.

(** *** Encoder: [json.dump(obj, f, indent=2)] *)

Definition hex_digit (n : N) : ascii :=
  ascii_of_N (if (n <? 10)%N then 48 + n else 87 + n).

(** [ESCAPE_ASCII] / [ESCAPE_DCT] of [json.encoder] with [ensure_ascii]. *)
Definition escape_char (c : ascii) : chars :=
  let n := N_of_ascii c in
  if (n =? 34)%N then [backslash; dquote]
  else if (n =? 92)%N then lit "\\"
  else if (n =? 10)%N then lit "\n"
  else if (n =? 13)%N then lit "\r"
  else if (n =? 9)%N then lit "\t"
  else if (n =? 12)%N then lit "\f"
  else if (n =? 8)%N then lit "\b"
  else if ((32 <=? n) && (n <=? 126))%N then [c]
  else lit "\u00" ++ [hex_digit (n / 16); hex_digit (n mod 16)].

Definition encode_basestring_ascii (s : string) : chars :=
  dquote :: flat_map escape_char (list_ascii_of_string s) ++ [dquote].

Definition digit_char (d : N) : ascii := ascii_of_N (48 + d).

Fixpoint uint_chars (u : Decimal.uint) : chars :=
  match u with
  | Decimal.Nil => []
  | Decimal.D0 u => digit_char 0 :: uint_chars u
  | Decimal.D1 u => digit_char 1 :: uint_chars u
  | Decimal.D2 u => digit_char 2 :: uint_chars u
  | Decimal.D3 u => digit_char 3 :: uint_chars u
  | Decimal.D4 u => digit_char 4 :: uint_chars u
  | Decimal.D5 u => digit_char 5 :: uint_chars u
  | Decimal.D6 u => digit_char 6 :: uint_chars u
  | Decimal.D7 u => digit_char 7 :: uint_chars u
  | Decimal.D8 u => digit_char 8 :: uint_chars u
  | Decimal.D9 u => digit_char 9 :: uint_chars u
  end.

(** [int.__repr__] *)
Definition int_repr (z : Z) : chars :=
  match z with
  | Z0 => lit "0"
  | Zpos p => uint_chars (Pos.to_uint p)
  | Zneg p => lit "-" ++ uint_chars (Pos.to_uint p)
  end.

Definition newline_indent (level : nat) : chars :=
  ascii_of_N 10 :: repeat (ascii_of_N 32) (2 * level).

(** The body of a non-empty container: every chunk on its own line, one
    level deeper, and the closing bracket back on the outer level. *)
Definition bracket (opening closing : string) (level : nat) (chunks : list chars) : chars :=
  match chunks with
  | [] => lit opening ++ lit closing
  | c :: cs =>
      lit opening ++ newline_indent (S level) ++ c
      ++ flat_map (fun c' => lit "," ++ newline_indent (S level) ++ c') cs
      ++ newline_indent level ++ lit closing
  end.

(** [_make_iterencode] with [indent=2], item separator [","] and key
    separator [": "]. *)
Fixpoint iterencode (level : nat) (v : json) : chars :=
  match v with
  | JNull => lit "null"
  | JBool true => lit "true"
  | JBool false => lit "false"
  | JInt z => int_repr z
  | JStr s => encode_basestring_ascii s
  | JArr items => bracket "[" "]" level (map (iterencode (S level)) items)
  | JObj members =>
      bracket "{" "}" level
        (map (fun kv => encode_basestring_ascii (fst kv) ++ lit ": "
                        ++ iterencode (S level) (snd kv)) members)
  end.

Definition dumps_indent2 (v : json) : string := string_of_list_ascii (iterencode 0 v).

(** [json.dumps(obj)] with the default separators [", "] and [": "]. *)
Definition joined (sep : string) (chunks : list chars) : chars :=
  match chunks with
  | [] => []
  | c :: cs => c ++ flat_map (fun c' => lit sep ++ c') cs
  end.

Fixpoint encode (v : json) : chars :=
  match v with
  | JNull => lit "null"
  | JBool true => lit "true"
  | JBool false => lit "false"
  | JInt z => int_repr z
  | JStr s => encode_basestring_ascii s
  | JArr items => lit "[" ++ joined ", " (map encode items) ++ lit "]"
  | JObj members =>
      lit "{"
      ++ joined ", " (map (fun kv => encode_basestring_ascii (fst kv) ++ lit ": "
                                     ++ encode (snd kv)) members)
      ++ lit "}"
  end.

Definition dumps (v : json) : string := string_of_list_ascii (encode v).

(** Truth value of a Python object, as [if x:] tests it. *)
Definition truthy (v : json) : bool :=
  match v with
  | JNull => false
  | JBool b => b
  | JInt z => negb (z =? 0)%Z
  | JStr s => negb (String.eqb s "")
  | JArr items => match items with [] => false | _ => true end
  | JObj members => match members with [] => false | _ => true end
  end.

(** *** Decoder: [json.load(f)]

    A decoding error ([json.JSONDecodeError]) is [None]. *)

Definition is_ws (c : ascii) : bool :=
  let n := N_of_ascii c in
  ((n =? 32) || (n =? 9) || (n =? 10) || (n =? 13))%N.

Fixpoint skip_ws (s : chars) : chars :=
  match s with
  | c :: s' => if is_ws c then skip_ws s' else s
  | [] => []
  end.

Definition hex_value (c : ascii) : option N :=
  let n := N_of_ascii c in
  if ((48 <=? n) && (n <=? 57))%N then Some (n - 48)%N
  else if ((97 <=? n) && (n <=? 102))%N then Some (n - 87)%N
  else if ((65 <=? n) && (n <=? 70))%N then Some (n - 55)%N
  else None.

Definition hex4 (a b c d : ascii) : option N :=
  match hex_value a, hex_value b, hex_value c, hex_value d with
  | Some x, Some y, Some z, Some w => Some (((x * 16 + y) * 16 + z) * 16 + w)%N
  | _, _, _, _ => None
  end.

(** [py_scanstring] in strict mode, entered after the opening quote.  A
    [\u] escape that denotes a code point of 256 or more leaves the
    model and is reported as an error. *)
Fixpoint scanstring (s : chars) : option (chars * chars) :=
  match s with
  | [] => None
  | c :: s' =>
      let n := N_of_ascii c in
      if (n =? 34)%N then Some ([], s')
      else if (n =? 92)%N then
        match s' with
        | [] => None
        | e :: s'' =>
            let m := N_of_ascii e in
            let continue (x : ascii) :=
              match scanstring s'' with
              | Some (body, r) => Some (x :: body, r)
              | None => None
              end in
            if (m =? 34)%N then continue dquote
            else if (m =? 92)%N then continue backslash
            else if (m =? 47)%N then continue (ascii_of_N 47)
            else if (m =? 98)%N then continue (ascii_of_N 8)
            else if (m =? 102)%N then continue (ascii_of_N 12)
            else if (m =? 110)%N then continue (ascii_of_N 10)
            else if (m =? 114)%N then continue (ascii_of_N 13)
            else if (m =? 116)%N then continue (ascii_of_N 9)
            else if (m =? 117)%N then
              match s'' with
              | h1 :: h2 :: h3 :: h4 :: s4 =>
                  match hex4 h1 h2 h3 h4 with
                  | Some code =>
                      if (code <? 256)%N then
                        match scanstring s4 with
                        | Some (body, r) => Some (ascii_of_N code :: body, r)
                        | None => None
                        end
                      else None
                  | None => None
                  end
              | _ => None
              end
            else None
        end
      else if (n <? 32)%N then None
      else
        match scanstring s' with
        | Some (body, r) => Some (c :: body, r)
        | None => None
        end
  end.

Definition is_digit (c : ascii) : bool :=
  let n := N_of_ascii c in ((48 <=? n) && (n <=? 57))%N.

Definition digit_cons (c : ascii) (u : Decimal.uint) : Decimal.uint :=
  match (N_of_ascii c - 48)%N with
  | 0%N => Decimal.D0 u | 1%N => Decimal.D1 u | 2%N => Decimal.D2 u
  | 3%N => Decimal.D3 u | 4%N => Decimal.D4 u | 5%N => Decimal.D5 u
  | 6%N => Decimal.D6 u | 7%N => Decimal.D7 u | 8%N => Decimal.D8 u
  | _ => Decimal.D9 u
  end.

(** The longest run of decimal digits at the head. *)
Fixpoint scan_digits (s : chars) : Decimal.uint * chars :=
  match s with
  | c :: s' =>
      if is_digit c then
        let '(u, r) := scan_digits s' in (digit_cons c u, r)
      else (Decimal.Nil, s)
  | [] => (Decimal.Nil, [])
  end.

Definition starts_float_tail (s : chars) : bool :=
  match s with
  | c :: _ => let n := N_of_ascii c in ((n =? 46) || (n =? 101) || (n =? 69))%N
  | [] => false
  end.

(** [NUMBER_RE]: an optional sign, then [0] or a run of digits that does
    not start with [0].  A fraction or an exponent makes a float. *)
Definition scan_number (s : chars) : option (Z * chars) :=
  let '(negative, s1) :=
    match s with
    | c :: s' => if (N_of_ascii c =? 45)%N then (true, s') else (false, s)
    | [] => (false, [])
    end in
  match s1 with
  | c :: s2 =>
      let '(u, r) :=
        if (N_of_ascii c =? 48)%N then (Decimal.D0 Decimal.Nil, s2) else scan_digits s1 in
      match u with
      | Decimal.Nil => None
      | _ =>
          if starts_float_tail r then None
          else Some (if negative then Z.opp (Z.of_uint u) else Z.of_uint u, r)
      end
  | [] => None
  end.

Fixpoint strip_prefix (p s : chars) : option chars :=
  match p, s with
  | [], _ => Some s
  | a :: p', b :: s' => if Ascii.eqb a b then strip_prefix p' s' else None
  | _ :: _, [] => None
  end.

(** [scan_once], [JSONArray] and [JSONObject]; the fuel bounds the nesting
    and the number of items, and the length of the document is enough. *)
Fixpoint scan_once (fuel : nat) (s : chars) : option (json * chars) :=
  match fuel with
  | O => None
  | S n =>
      match s with
      | [] => None
      | c :: s' =>
          let k := N_of_ascii c in
          if (k =? 34)%N then
            match scanstring s' with
            | Some (body, r) => Some (JStr (string_of_list_ascii body), r)
            | None => None
            end
          else if (k =? 123)%N then
            match skip_ws s' with
            | d :: r =>
                if (N_of_ascii d =? 125)%N then Some (JObj [], r)
                else
                  match scan_members n (d :: r) with
                  | Some (members, r') => Some (JObj members, r')
                  | None => None
                  end
            | [] => None
            end
          else if (k =? 91)%N then
            match skip_ws s' with
            | d :: r =>
                if (N_of_ascii d =? 93)%N then Some (JArr [], r)
                else
                  match scan_items n (d :: r) with
                  | Some (items, r') => Some (JArr items, r')
                  | None => None
                  end
            | [] => None
            end
          else
            match strip_prefix (lit "null") s with
            | Some r => Some (JNull, r)
            | None =>
            match strip_prefix (lit "true") s with
            | Some r => Some (JBool true, r)
            | None =>
            match strip_prefix (lit "false") s with
            | Some r => Some (JBool false, r)
            | None =>
            match scan_number s with
            | Some (z, r) => Some (JInt z, r)
            | None => None
            end end end end
      end
  end
with scan_items (fuel : nat) (s : chars) : option (list json * chars) :=
  match fuel with
  | O => None
  | S n =>
      match scan_once n s with
      | Some (v, r) =>
          match skip_ws r with
          | d :: r' =>
              if (N_of_ascii d =? 93)%N then Some ([v], r')
              else if (N_of_ascii d =? 44)%N then
                match scan_items n (skip_ws r') with
                | Some (vs, r'') => Some (v :: vs, r'')
                | None => None
                end
              else None
          | [] => None
          end
      | None => None
      end
  end
with scan_members (fuel : nat) (s : chars) : option (list (string * json) * chars) :=
  match fuel with
  | O => None
  | S n =>
      match s with
      | q :: s1 =>
          if (N_of_ascii q =? 34)%N then
            match scanstring s1 with
            | Some (key, r) =>
                match skip_ws r with
                | colon :: r1 =>
                    if (N_of_ascii colon =? 58)%N then
                      match scan_once n (skip_ws r1) with
                      | Some (v, r2) =>
                          match skip_ws r2 with
                          | d :: r3 =>
                              if (N_of_ascii d =? 125)%N then
                                Some ([(string_of_list_ascii key, v)], r3)
                              else if (N_of_ascii d =? 44)%N then
                                match scan_members n (skip_ws r3) with
                                | Some (kvs, r4) =>
                                    Some ((string_of_list_ascii key, v) :: kvs, r4)
                                | None => None
                                end
                              else None
                          | [] => None
                          end
                      | None => None
                      end
                    else None
                | [] => None
                end
            | None => None
            end
          else None
      | [] => None
      end
  end.

(** [JSONDecoder.decode]: leading white space, one value, trailing white
    space, and nothing else. *)
Definition loads (doc : string) : option json :=
  let s := list_ascii_of_string doc in
  match scan_once (S (length s)) (skip_ws s) with
  | Some (v, r) => match skip_ws r with [] => Some v | _ :: _ => None end
  | None => None
  end.

(** *** Vocabulary of the round trip *)

(** Induction over a value and the values inside it. *)
Fixpoint json_ind (P : json → Prop)
    (f_null : P JNull) (f_bool : ∀ b, P (JBool b)) (f_int : ∀ z, P (JInt z))
    (f_str : ∀ s, P (JStr s))
    (f_arr : ∀ items, Forall P items → P (JArr items))
    (f_obj : ∀ members, Forall (fun kv => P kv.2) members → P (JObj members))
    (v : json) {struct v} : P v :=
  match v with
  | JNull => f_null
  | JBool b => f_bool b
  | JInt z => f_int z
  | JStr s => f_str s
  | JArr items =>
      f_arr items
        ((fix go (l : list json) : Forall P l :=
            match l with
            | [] => Forall_nil_2 P
            | x :: l' =>
                Forall_cons_2 P x l' (json_ind P f_null f_bool f_int f_str f_arr f_obj x) (go l')
            end) items)
  | JObj members =>
      f_obj members
        ((fix go (l : list (string * json)) : Forall (fun kv => P kv.2) l :=
            match l with
            | [] => Forall_nil_2 _
            | kv :: l' =>
                Forall_cons_2 (fun kv => P kv.2) kv l'
                  (json_ind P f_null f_bool f_int f_str f_arr f_obj kv.2) (go l')
            end) members)
  end.

(** A bound on the fuel that scanning the text of [v] takes. *)
Fixpoint fuel_of (v : json) : nat :=
  match v with
  | JArr items => S (list_sum (map (fun x => S (fuel_of x)) items))
  | JObj members => S (list_sum (map (fun kv => S (fuel_of kv.2)) members))
  | _ => 1
  end.

(** What may follow a number: the end, or a character that cannot extend
    it. *)
Definition delimited (s : chars) : bool :=
  match s with
  | [] => true
  | c :: _ => negb (is_digit c) && negb (starts_float_tail s)
  end.

(** The first character of an encoded value: not white space, and not the
    bracket that closes an array. *)
Definition value_head (c : ascii) : bool :=
  negb (is_ws c) && negb (N_of_ascii c =? 93)%N.

(** The text of [v], at any depth and followed by anything that a number
    may be followed by, scans back to [v] with enough fuel. *)
Definition roundtrips (v : json) : Prop :=
  ∀ level rest n, delimited rest = true → (fuel_of v ≤ n)%nat →
    scan_once n (iterencode level v ++ rest) = Some (v, rest).

(** A member of an object as the encoder writes it. *)
Definition member_chunk (level : nat) (kv : string * json) : chars :=
  encode_basestring_ascii kv.1 ++ lit ": " ++ iterencode (S level) kv.2.

End Json.

Import Json.

(** ** Exceptions, paths and the directory tree *)

Inductive exn_class : Type :=
  | OSError
  | DatabaseError
  | JSONDecodeError
  | KeyError
  | AttributeError.

(** Every class above derives from [Exception]; [str_exn] is [str(e)]. *)
Record exn : Type := Exn { exn_kind : exn_class; str_exn : string }.

Inductive result (A : Type) : Type :=
  | Ok (a : A)
  | Raise (e : exn).
Arguments Ok {A} a.
Arguments Raise {A} e.

(** A path is the tuple of its [pathlib] parts; an absolute path starts
    with its root, ["/"] or ["//"].  Paths are compared as written: [..]
    is a part like any other and symbolic links are outside the model, so
    a path names the entry that the file system resolves it to only when
    it is written without [..]; see [as_written]. *)
Abbreviation Path := (list string).

Definition slash : ascii := ascii_of_N 47.

Fixpoint segments (s : string) : list string :=
  match s with
  | EmptyString => [EmptyString]
  | String c s' =>
      if Ascii.eqb c slash then EmptyString :: segments s'
      else
        match segments s' with
        | seg :: rest => String c seg :: rest
        | [] => [String c EmptyString]
        end
  end.

Definition parts (s : string) : list string :=
  List.filter (fun seg => negb (String.eqb seg "") && negb (String.eqb seg ".")) (segments s).

Definition is_absolute (s : string) : bool :=
  match s with
  | String c _ => Ascii.eqb c slash
  | EmptyString => false
  end.

(** The root of an absolute path: [pathlib] keeps two slashes at the
    start, and collapses three or more to one. *)
Definition root_of (s : string) : string :=
  match s with
  | String a (String b rest) =>
      if Ascii.eqb a slash && Ascii.eqb b slash && negb (is_absolute rest)
      then "//" else "/"
  | _ => "/"
  end.

(** [p / s] *)
Definition joinpath (p : Path) (s : string) : Path :=
  if is_absolute s then root_of s :: parts s else p ++ parts s.

(** No part of the path is [..]. *)
Definition as_written (p : Path) : bool :=
  forallb (fun part => negb (String.eqb part "..")) p.

Definition parent (p : Path) : Path := removelast p.

Fixpoint join (sep : string) (l : list string) : string :=
  match l with
  | [] => ""
  | [x] => x
  | x :: rest => x ++ sep ++ join sep rest
  end.

(** [str(p)] *)
Definition str_path (p : Path) : string :=
  match p with
  | [] => "."
  | root :: rest =>
      if String.eqb root "/" || String.eqb root "//" then root ++ join "/" rest
      else join "/" p
  end.

Inductive node : Type :=
  | Dir
  | File (content : string).

Definition is_dir (tree : gmap Path node) (p : Path) : bool :=
  match p with
  | [] => true
  | _ => match tree !! p with Some Dir => true | _ => false end
  end.

Definition path_exists (tree : gmap Path node) (p : Path) : bool :=
  match p with
  | [] => true
  | _ => bool_decide (is_Some (tree !! p))
  end.

Definition under (p q : Path) : Prop := p `prefix_of` q.

(** What [shutil.rmtree(p)] leaves: nothing at [p] or below it. *)
Definition remove_tree (p : Path) (tree : gmap Path node) : gmap Path node :=
  filter (fun kv => ¬ under p kv.1) tree.

(** The non-empty prefixes of [p], shortest first. *)
Fixpoint ancestors_and_self (p : Path) : list Path :=
  match p with
  | [] => []
  | x :: rest => [x] :: map (cons x) (ancestors_and_self rest)
  end.

Definition make_dirs (ps : list Path) (tree : gmap Path node) : gmap Path node :=
  foldr (fun q t => <[q := Dir]> t) tree ps.

(** The entries of [src] and below, re-rooted at [dst]. *)
Definition rerooted (src dst : Path) (tree : gmap Path node) : list (Path * node) :=
  omap (fun kv => if decide (under src kv.1)
                  then Some (dst ++ drop (length src) kv.1, kv.2) else None)
       (map_to_list tree).

(** ** The relational session *)

Abbreviation Row := (gmap string json).

(** Both tables are keyed by their [id] column. *)
Record Store : Type := mkStore {
  plugin_table : gmap string Row;
  module_table : gmap string Row
}.

(** [committed] is what the database holds; [pending] is what the open
    transaction of the session sees, its own writes included. *)
Record Session : Type := mkSession {
  committed : Store;
  pending : Store
}.

Definition column (name : string) (row : Row) : json := default JNull (row !! name).

(** SQL [column = :text] *)
Definition column_is (name : string) (text : string) (row : Row) : bool :=
  match row !! name with
  | Some (JStr s) => String.eqb s text
  | _ => false
  end.

Inductive level : Type := INFO | ERROR.

Record World : Type := mkWorld {
  fs : gmap Path node;
  db : Session;
  log : list (level * string)
}.

Definition set_fs (tree : gmap Path node) (w : World) : World := mkWorld tree (db w) (log w).
Definition set_db (s : Session) (w : World) : World := mkWorld (fs w) s (log w).
Definition set_pending (st : Store) (w : World) : World :=
  set_db (mkSession (committed (db w)) st) w.

(** ** The environment and the monad of the manager *)

Inductive statement : Type :=
  | SelectPlugin
  | InsertPlugin
  | InsertModule (id : string)
  | DeleteModules
  | DeletePlugin
  | SelectModules.

(** The places where the manager calls out of its own code. *)
Inductive site : Type :=
  | AtExists (p : Path)
  | AtMkdir (p : Path)
  | AtCopy2 (src dst : Path)
  | AtCopytree (src dst : Path)
  | AtRmtree (p : Path)
  | AtOpenWrite (p : Path)
  | AtOpenRead (p : Path)
  | AtExecute (stmt : statement)
  | AtRollback
  | AtCommit.

(** [fault] says which outside calls raise, and what; a call that is not
    made to raise does what the directory tree and the session allow.
    [integrity_error] is the exception of the database driver for a
    statement that violates a primary key; the manager hands on its text.
    [load_other] is what [json.load] does with a text that the scanner of
    the model does not read: the decoding error that it raises or, for a
    text with numbers that have a fraction or an exponent, the value that
    it returns, as far as [json] can hold it. *)
Record Env : Type := mkEnv {
  plugins_base_dir : Path;
  source_dir : Path;                  (* [Path(__file__).parent] *)
  now_isoformat : string;             (* [datetime.datetime.now().isoformat()] *)
  now_strftime : string;              (* [... .strftime("%Y-%m-%d %H:%M:%S")] *)
  integrity_error : statement -> exn;
  load_other : string -> result json;
  fault : site -> option exn
}.

Definition M (A : Type) : Type := World -> result A * World.

Definition ret {A} (a : A) : M A := fun w => (Ok a, w).

Definition bind {A B} (m : M A) (k : A -> M B) : M B :=
  fun w =>
    match m w with
    | (Ok a, w') => k a w'
    | (Raise e, w') => (Raise e, w')
    end.

Definition raise {A} (e : exn) : M A := fun w => (Raise e, w).

(** [try: body / except Exception as e: handler] *)
Definition try_except {A} (body : M A) (handler : exn -> M A) : M A :=
  fun w =>
    match body w with
    | (Ok a, w') => (Ok a, w')
    | (Raise e, w') => handler e w'
    end.

(** [except (json.JSONDecodeError, KeyError) as e] *)
Definition try_except_decode {A} (body : M A) (handler : exn -> M A) : M A :=
  fun w =>
    match body w with
    | (Ok a, w') => (Ok a, w')
    | (Raise e, w') =>
        match exn_kind e with
        | JSONDecodeError | KeyError => handler e w'
        | _ => (Raise e, w')
        end
    end.

#[global] Instance M_ret : MRet M := @ret.
#[global] Instance M_bind : MBind M := fun A B k m => bind m k.

Fixpoint for_each {A S} (body : S -> A -> M S) (acc : S) (l : list A) : M S :=
  match l with
  | [] => ret acc
  | x :: rest => acc' ← body acc x; for_each body acc' rest
  end.

Definition logger (lvl : level) (msg : string) : M unit :=
  fun w => (Ok tt, mkWorld (fs w) (db w) (log w ++ [(lvl, msg)])).

Section Calls.
Context (env : Env).

(** An outside call: the oracle first, then the call itself. *)
Definition call {A} (s : site) (op : M A) : M A :=
  match fault env s with
  | Some e => raise e
  | None => op
  end.

(** [p.exists()] *)
Definition exists_ (p : Path) : M bool :=
  call (AtExists p) (fun w => (Ok (path_exists (fs w) p), w)).

(** [p.mkdir(parents=True, exist_ok=True)] *)
Definition mkdir_parents (p : Path) : M unit :=
  call (AtMkdir p) (fun w =>
    if forallb (fun q => match fs w !! q with Some (File _) => false | _ => true end)
               (ancestors_and_self p)
    then (Ok tt, set_fs (make_dirs (ancestors_and_self p) (fs w)) w)
    else (Raise (Exn OSError ("File exists: " ++ str_path p)), w)).

(** [p.mkdir(exist_ok=True)] *)
Definition mkdir (p : Path) : M unit :=
  call (AtMkdir p) (fun w =>
    if negb (is_dir (fs w) (parent p))
    then (Raise (Exn OSError ("No such file or directory: " ++ str_path p)), w)
    else match fs w !! p with
         | Some (File _) => (Raise (Exn OSError ("File exists: " ++ str_path p)), w)
         | _ => (Ok tt, set_fs (make_dirs [p] (fs w)) w)
         end).

(** Creating or truncating the regular file [p] with [content]. *)
Definition write_file (p : Path) (content : string) : M unit :=
  fun w =>
    if negb (is_dir (fs w) (parent p))
    then (Raise (Exn OSError ("No such file or directory: " ++ str_path p)), w)
    else match fs w !! p with
         | Some Dir => (Raise (Exn OSError ("Is a directory: " ++ str_path p)), w)
         | _ => (Ok tt, set_fs (<[p := File content]> (fs w)) w)
         end.

(** [shutil.copy2(src, dst)]; into [dst] when that is a directory. *)
Definition copy2 (src dst : Path) : M unit :=
  call (AtCopy2 src dst) (fun w =>
    match fs w !! src with
    | Some (File content) =>
        match fs w !! dst with
        | Some Dir => write_file (dst ++ drop (length (parent src)) src) content w
        | _ => write_file dst content w
        end
    | Some Dir => (Raise (Exn OSError ("Is a directory: " ++ str_path src)), w)
    | None => (Raise (Exn OSError ("No such file or directory: " ++ str_path src)), w)
    end).

(** [shutil.copytree(src, dst, dirs_exist_ok=True)]: [dst] is made with
    its parents, directories are merged, files are overwritten. *)
Definition copytree (src dst : Path) : M unit :=
  call (AtCopytree src dst) (fun w =>
    if negb (is_dir (fs w) src)
    then (Raise (Exn OSError ("Not a directory: " ++ str_path src)), w)
    else
      let entries := rerooted src dst (fs w) in
      if forallb (fun e => match e.2, fs w !! e.1 with
                           | Dir, Some (File _) | File _, Some Dir => false
                           | _, _ => true
                           end) entries
         && forallb (fun q => match fs w !! q with Some (File _) => false | _ => true end)
                    (ancestors_and_self dst)
      then (Ok tt,
            set_fs (list_to_map entries ∪ make_dirs (ancestors_and_self dst) (fs w)) w)
      else (Raise (Exn OSError ("File exists: " ++ str_path dst)), w)).

(** [shutil.rmtree(p)]; a failing removal is taken to fail before it
    removed anything. *)
Definition rmtree (p : Path) : M unit :=
  call (AtRmtree p) (fun w =>
    match fs w !! p with
    | Some Dir => (Ok tt, set_fs (remove_tree p (fs w)) w)
    | Some (File _) => (Raise (Exn OSError ("Not a directory: " ++ str_path p)), w)
    | None => (Raise (Exn OSError ("No such file or directory: " ++ str_path p)), w)
    end).

(** [with open(p, 'w') as f: json.dump(obj, f, indent=2)] *)
Definition open_write_json (p : Path) (obj : json) : M unit :=
  call (AtOpenWrite p) (write_file p (dumps_indent2 obj)).

(** [json.load] on the text of a file *)
Definition json_load (content : string) : result json :=
  match loads content with
  | Some v => Ok v
  | None => load_other env content
  end.

(** [with open(p, 'r') as f: json.load(f)] *)
Definition open_read_json (p : Path) : M json :=
  call (AtOpenRead p) (fun w =>
    match fs w !! p with
    | Some (File content) => (json_load content, w)
    | Some Dir => (Raise (Exn OSError ("Is a directory: " ++ str_path p)), w)
    | None => (Raise (Exn OSError ("No such file or directory: " ++ str_path p)), w)
    end).

(** [await db.execute(stmt, params)] *)
Definition execute {A} (stmt : statement) (run : Store -> result A * Store) : M A :=
  call (AtExecute stmt) (fun w =>
    let '(r, st) := run (pending (db w)) in (r, set_pending st w)).

(** [await db.rollback()] *)
Definition rollback : M unit :=
  call AtRollback (fun w =>
    (Ok tt, set_db (mkSession (committed (db w)) (committed (db w))) w)).

(** [await db.commit()] *)
Definition commit : M unit :=
  call AtCommit (fun w =>
    (Ok tt, set_db (mkSession (pending (db w)) (pending (db w))) w)).

End Calls.

(** ** The manager *)

(** [self.PLUGIN_DATA] *)
Definition PLUGIN_DATA : json :=
  JObj [
    ("name", JStr "BrainDriveNetwork");
    ("description",
      JStr "Network status monitoring and connectivity checking for BrainDrive services");
    ("version", JStr "1.0.6");
    ("type", JStr "frontend");
    ("icon", JStr "NetworkCheck");
    ("category", JStr "monitoring");
    ("official", JBool false);
    ("author", JStr "DJJones66");
    ("compatibility", JStr "1.0.0");
    ("scope", JStr "BrainDriveNetwork");
    ("bundle_method", JStr "webpack");
    ("bundle_location", JStr "dist/remoteEntry.js");
    ("is_local", JBool false);
    ("long_description",
      JStr "Monitor network connectivity and status of BrainDrive services with real-time monitoring capabilities");
    ("plugin_slug", JStr "BrainDriveNetwork");
    ("source_type", JStr "github");
    ("source_url", JStr "https://github.com/DJJones66/NetworkEyes");
    ("update_check_url",
      JStr "https://api.github.com/repos/DJJones66/NetworkEyes/releases/latest");
    ("last_update_check", JNull);
    ("update_available", JBool false);
    ("latest_version", JNull);
    ("installation_type", JStr "remote");
    ("permissions", JArr [JStr "network.read"; JStr "storage.read"; JStr "storage.write"])
  ].

(** [self.MODULE_DATA] *)
Definition MODULE_DATA : list json :=
  [ JObj [
      ("name", JStr "ComponentNetworkStatus");
      ("display_name", JStr "Network Status Monitor");
      ("description", JStr "Real-time network connectivity monitoring dashboard");
      ("icon", JStr "NetworkCheck");
      ("category", JStr "monitoring");
      ("priority", JInt 1);
      ("props", JObj []);
      ("config_fields", JObj [
        ("refresh_interval", JObj [
          ("type", JStr "number");
          ("description", JStr "Auto-refresh interval in seconds");
          ("default", JInt 30) ]);
        ("show_detailed_stats", JObj [
          ("type", JStr "boolean");
          ("description", JStr "Show detailed network statistics");
          ("default", JBool true) ]) ]);
      ("messages", JObj []);
      ("required_services", JObj [
        ("api", JObj [("methods", JArr [JStr "get"]); ("version", JStr "1.0.0")]);
        ("network", JObj [("methods", JArr [JStr "check"; JStr "monitor"]);
                          ("version", JStr "1.0.0")]) ]);
      ("dependencies", JArr []);
      ("layout", JObj [
        ("minWidth", JInt 3);
        ("minHeight", JInt 2);
        ("defaultWidth", JInt 4);
        ("defaultHeight", JInt 3) ]);
      ("tags", JArr [JStr "monitoring"; JStr "network"; JStr "status";
                     JStr "connectivity"; JStr "eyes"])
    ] ].

(** [d[key]] on the two constants above, which hold every key that the
    manager asks for. *)
Definition item (key : string) (d : json) : json := default JNull (Json.get key d).

(** The value as it is spliced into an f-string or a path. *)
Definition text (v : json) : string :=
  match v with
  | JStr s => s
  | _ => ""
  end.

Definition plugin_slug : string := text (item "plugin_slug" PLUGIN_DATA).

(** [str(n)] for a count *)
Definition str_nat (n : nat) : string := string_of_list_ascii (int_repr (Z.of_nat n)).

(** *** Results of the helper methods *)

Record PluginInfo : Type := mkPluginInfo {
  info_id : string;
  info_name : json;
  info_version : json;
  info_enabled : json;
  info_created_at : json;
  info_updated_at : json
}.

(** [{'exists': True, 'plugin_id': .., 'plugin_info': ..}] or
    [{'exists': False}], the latter with an ['error'] when the query raised *)
Inductive ExistingCheck : Type :=
  | Existing (plugin_id : string) (plugin_info : PluginInfo)
  | NotExisting (error : option string).

Definition exists_flag (c : ExistingCheck) : bool :=
  match c with
  | Existing _ _ => true
  | NotExisting _ => false
  end.

(** [{'success': True, 'copied_files': ..}] or [{'success': False, 'error': ..}] *)
Inductive CopyResult : Type :=
  | Copied (copied_files : list string)
  | CopyFailed (error : string).

(** [{'success': True, 'plugin_id': .., 'modules_created': ..}] or a failure *)
Inductive CreateResult : Type :=
  | Created (plugin_id : string) (modules_created : list string)
  | CreateFailed (error : string).

(** [{'success': True, 'deleted_modules': ..}] or a failure *)
Inductive DeleteRecordsResult : Type :=
  | RecordsDeleted (deleted_modules : nat)
  | RecordsNotDeleted (error : string).

(** [{'valid': True}] or [{'valid': False, 'error': ..}] *)
Inductive Validation : Type :=
  | Valid
  | Invalid (error : string).

Record ModulesStatus : Type := mkModulesStatus {
  expected_count : nat;
  actual_count : nat;
  enabled_count : nat;
  all_loaded : bool;
  all_enabled : option bool;                       (* absent when the query raised *)
  modules : option (list (string * json * json))   (* id, name, enabled *)
}.

(** *** Results of the three operations *)

(** The result dictionaries of the three operations; a failure also names
    the [return] statement that built it, which the dictionary of the
    source does not record. *)
Inductive install_return : Type :=
  | ReturnConflict          (* line 104 *)
  | ReturnNoDirectory       (* line 112 *)
  | ReturnCopyFailed        (* line 117 *)
  | ReturnRecordsFailed     (* line 122 *)
  | ReturnInvalid           (* line 128 *)
  | ReturnInstallException. (* line 144 *)

Inductive InstallResult : Type :=
  | InstallFailed (returned_at : install_return) (error : string) (plugin_id : option string)
  | Installed (plugin_id slug : string) (modules_created : list string)
              (plugin_directory : string).

Inductive delete_return : Type :=
  | ReturnNotFound          (* line 153 *)
  | ReturnRecordsNotDeleted (* line 159 *)
  | ReturnDeleteException.  (* line 176 *)

Inductive DeleteResult : Type :=
  | DeleteFailed (returned_at : delete_return) (error : string)
  | PluginDeleted (plugin_id : string) (deleted_modules : nat).

Inductive StatusResult : Type :=
  | NotInstalled
  | StatusReport (status : string) (plugin_id : string) (plugin_info : PluginInfo)
                 (files_exist : bool) (modules_status : ModulesStatus)
                 (plugin_directory : string)
  | StatusError (error : string).

(** The ['exists'], ['status'] and ['error'] entries of a status result. *)
Definition status_exists (r : StatusResult) : bool :=
  match r with
  | StatusReport _ _ _ _ _ _ => true
  | _ => false
  end.

Definition status_of (r : StatusResult) : string :=
  match r with
  | NotInstalled => "not_installed"
  | StatusReport status _ _ _ _ _ => status
  | StatusError _ => "error"
  end.

Definition status_error (r : StatusResult) : option string :=
  match r with
  | StatusError error => Some error
  | _ => None
  end.

(** *** The SQL statements on the pending store *)

Definition owned_by (slug user_id : string) (row : Row) : bool :=
  column_is "user_id" user_id row && column_is "plugin_slug" slug row.

Definition module_of (plugin_id user_id : string) (row : Row) : bool :=
  column_is "plugin_id" plugin_id row && column_is "user_id" user_id row.

(** [SELECT .. FROM plugin WHERE user_id = .. AND plugin_slug = ..] *)
Definition select_plugin (user_id slug : string) (st : Store)
  : result (list (string * Row)) * Store :=
  (Ok (List.filter (fun kv => owned_by slug user_id kv.2) (map_to_list (plugin_table st))), st).

(** [INSERT INTO plugin ..]; the primary key rejects a second row with the
    same id, with the exception [refusal] of the driver. *)
Definition insert_plugin (refusal : exn) (id : string) (row : Row) (st : Store)
  : result unit * Store :=
  match plugin_table st !! id with
  | Some _ => (Raise refusal, st)
  | None => (Ok tt, mkStore (<[id := row]> (plugin_table st)) (module_table st))
  end.

(** [INSERT INTO module ..] *)
Definition insert_module (refusal : exn) (id : string) (row : Row) (st : Store)
  : result unit * Store :=
  match module_table st !! id with
  | Some _ => (Raise refusal, st)
  | None => (Ok tt, mkStore (plugin_table st) (<[id := row]> (module_table st)))
  end.

(** [DELETE FROM module WHERE plugin_id = .. AND user_id = ..]; the value
    is [rowcount]. *)
Definition delete_modules (plugin_id user_id : string) (st : Store) : result nat * Store :=
  (Ok (size (filter (fun kv => module_of plugin_id user_id kv.2 = true) (module_table st))),
   mkStore (plugin_table st)
           (filter (fun kv => module_of plugin_id user_id kv.2 ≠ true) (module_table st))).

(** [DELETE FROM plugin WHERE id = .. AND user_id = ..]; the value is
    [rowcount]. *)
Definition delete_plugin_row (plugin_id user_id : string) (st : Store) : result nat * Store :=
  match plugin_table st !! plugin_id with
  | Some row =>
      if column_is "user_id" user_id row
      then (Ok 1, mkStore (delete plugin_id (plugin_table st)) (module_table st))
      else (Ok 0, st)
  | None => (Ok 0, st)
  end.

(** [SELECT id, name, enabled FROM module WHERE plugin_id = .. AND user_id = ..] *)
Definition select_modules (plugin_id user_id : string) (st : Store)
  : result (list (string * Row)) * Store :=
  (Ok (List.filter (fun kv => module_of plugin_id user_id kv.2) (map_to_list (module_table st))),
   st).

Section Manager.
Context (env : Env).

(** [self.plugins_base_dir / user_id / self.PLUGIN_DATA['plugin_slug']] *)
Definition user_plugin_dir (user_id : string) : Path :=
  joinpath (joinpath (plugins_base_dir env) user_id) plugin_slug.

Definition plugin_info_of (id : string) (row : Row) : PluginInfo :=
  mkPluginInfo id (column "name" row) (column "version" row) (column "enabled" row)
               (column "created_at" row) (column "updated_at" row).

Definition _check_existing_plugin (user_id : string) : M ExistingCheck :=
  try_except
    (rows ← execute env SelectPlugin (select_plugin user_id plugin_slug);
     match rows with
     | (id, plugin_row) :: _ =>                              (* [result.fetchone()] *)
         mret (Existing id (plugin_info_of id plugin_row))
     | [] => mret (NotExisting None)
     end)
    (fun e =>
       logger ERROR ("Error checking existing plugin: " ++ str_exn e);;
       mret (NotExisting (Some (str_exn e)))).

Definition _create_user_plugin_directory (user_id : string) : M (option Path) :=
  try_except
    (let user_dir := joinpath (plugins_base_dir env) user_id in
     let plugin_dir := joinpath user_dir plugin_slug in
     mkdir_parents env plugin_dir;;
     mkdir env (joinpath plugin_dir "dist");;
     mkdir env (joinpath plugin_dir "assets");;
     logger INFO ("Created plugin directory: " ++ str_path plugin_dir);;
     mret (Some plugin_dir))
    (fun e =>
       logger ERROR ("Error creating user plugin directory: " ++ str_exn e);;
       mret None).

Definition files_to_copy : list string := ["package.json"; "README.md"].
Definition dirs_to_copy : list string := ["dist"; "src"; "public"].

(** What the manifest holds for [user_id]. *)
Definition manifest (user_id : string) : json :=
  JObj [ ("plugin_data", PLUGIN_DATA);
         ("module_data", JArr MODULE_DATA);
         ("installed_for_user", JStr user_id);
         ("installed_at", JStr (now_isoformat env)) ].

Definition _copy_plugin_files (user_id : string) (target_dir : Path) (update : bool)
  : M CopyResult :=
  try_except
    (let source_dir := source_dir env in
     copied_files ← for_each (fun copied_files file_path =>
         let source_file := joinpath source_dir file_path in
         let target_file := joinpath target_dir file_path in
         present ← exists_ env source_file;
         if (present : bool) then
           mkdir_parents env (parent target_file);;
           copy2 env source_file target_file;;
           mret (copied_files ++ [file_path])
         else mret copied_files) [] files_to_copy;
     copied_files ← for_each (fun copied_files dir_path =>
         let source_dir_path := joinpath source_dir dir_path in
         let target_dir_path := joinpath target_dir dir_path in
         present ← exists_ env source_dir_path;
         if (present : bool) then
           there ← exists_ env target_dir_path;
           (if (there : bool) && update then rmtree env target_dir_path else mret tt);;
           copytree env source_dir_path target_dir_path;;
           mret (copied_files ++ [dir_path +:+ "/"])
         else mret copied_files) copied_files dirs_to_copy;
     let metadata_file := joinpath target_dir "plugin_metadata.json" in
     open_write_json env metadata_file (manifest user_id);;
     let copied_files := copied_files ++ ["plugin_metadata.json"] in
     logger INFO ("Copied " ++ str_nat (length copied_files) ++ " files/directories to "
                  ++ str_path target_dir);;
     mret (Copied copied_files))
    (fun e =>
       logger ERROR ("Error copying plugin files: " ++ str_exn e);;
       mret (CopyFailed (str_exn e))).

Definition plugin_row_params (user_id plugin_id current_time : string) : Row :=
  list_to_map [
    ("id", JStr plugin_id);
    ("name", item "name" PLUGIN_DATA);
    ("description", item "description" PLUGIN_DATA);
    ("version", item "version" PLUGIN_DATA);
    ("type", item "type" PLUGIN_DATA);
    ("enabled", JBool true);
    ("icon", item "icon" PLUGIN_DATA);
    ("category", item "category" PLUGIN_DATA);
    ("status", JStr "activated");
    ("official", item "official" PLUGIN_DATA);
    ("author", item "author" PLUGIN_DATA);
    ("last_updated", JStr current_time);
    ("compatibility", item "compatibility" PLUGIN_DATA);
    ("downloads", JInt 0);
    ("scope", item "scope" PLUGIN_DATA);
    ("bundle_method", item "bundle_method" PLUGIN_DATA);
    ("bundle_location", item "bundle_location" PLUGIN_DATA);
    ("is_local", item "is_local" PLUGIN_DATA);
    ("long_description", item "long_description" PLUGIN_DATA);
    ("config_fields", JStr (dumps (JObj [])));
    ("messages", JNull);
    ("dependencies", JNull);
    ("created_at", JStr current_time);
    ("updated_at", JStr current_time);
    ("user_id", JStr user_id);
    ("plugin_slug", JStr plugin_slug);
    ("source_type", item "source_type" PLUGIN_DATA);
    ("source_url", item "source_url" PLUGIN_DATA);
    ("update_check_url", item "update_check_url" PLUGIN_DATA);
    ("last_update_check", item "last_update_check" PLUGIN_DATA);
    ("update_available", item "update_available" PLUGIN_DATA);
    ("latest_version", item "latest_version" PLUGIN_DATA);
    ("installation_type", item "installation_type" PLUGIN_DATA);
    ("permissions", JStr (dumps (item "permissions" PLUGIN_DATA)))
  ].

Definition module_row_params (user_id plugin_id module_id current_time : string)
    (module_data : json) : Row :=
  list_to_map [
    ("id", JStr module_id);
    ("plugin_id", JStr plugin_id);
    ("name", item "name" module_data);
    ("display_name", item "display_name" module_data);
    ("description", item "description" module_data);
    ("icon", item "icon" module_data);
    ("category", item "category" module_data);
    ("enabled", JBool true);
    ("priority", item "priority" module_data);
    ("props", JStr (dumps (item "props" module_data)));
    ("config_fields", JStr (dumps (item "config_fields" module_data)));
    ("messages", JStr (dumps (item "messages" module_data)));
    ("required_services", JStr (dumps (item "required_services" module_data)));
    ("dependencies", JStr (dumps (item "dependencies" module_data)));
    ("layout", JStr (dumps (item "layout" module_data)));
    ("tags", JStr (dumps (item "tags" module_data)));
    ("created_at", JStr current_time);
    ("updated_at", JStr current_time);
    ("user_id", JStr user_id)
  ].

Definition _create_database_records (user_id : string) : M CreateResult :=
  try_except
    (let current_time := now_strftime env in
     let plugin_id := user_id +:+ "_" +:+ plugin_slug in
     execute env InsertPlugin
       (insert_plugin (integrity_error env InsertPlugin) plugin_id
          (plugin_row_params user_id plugin_id current_time));;
     modules_created ← for_each (fun modules_created module_data =>
         let module_id :=
           user_id +:+ "_" +:+ plugin_slug +:+ "_" +:+ text (item "name" module_data) in
         execute env (InsertModule module_id)
           (insert_module (integrity_error env (InsertModule module_id)) module_id
              (module_row_params user_id plugin_id module_id current_time module_data));;
         mret (modules_created ++ [module_id])) [] MODULE_DATA;
     logger INFO ("Created database records for plugin " ++ plugin_id ++ " with "
                  ++ str_nat (length modules_created) ++ " modules");;
     mret (Created plugin_id modules_created))
    (fun e =>
       logger ERROR ("Error creating database records: " ++ str_exn e);;
       mret (CreateFailed (str_exn e))).

Definition _delete_database_records (user_id plugin_id : string) : M DeleteRecordsResult :=
  try_except
    (deleted_modules ← execute env DeleteModules (delete_modules plugin_id user_id);
     rowcount ← execute env DeletePlugin (delete_plugin_row plugin_id user_id);
     if (rowcount =? 0)%nat then
       mret (RecordsNotDeleted "Plugin not found or not owned by user")
     else
       logger INFO ("Deleted database records for plugin " ++ plugin_id ++ " ("
                    ++ str_nat deleted_modules ++ " modules)");;
       mret (RecordsDeleted deleted_modules))
    (fun e =>
       logger ERROR ("Error deleting database records: " ++ str_exn e);;
       mret (RecordsNotDeleted (str_exn e))).

Definition required_files : list string := ["package.json"; "plugin_metadata.json"].

(** [type(v).__name__] *)
Definition type_name (v : json) : string :=
  match v with
  | JNull => "NoneType"
  | JBool _ => "bool"
  | JInt _ => "int"
  | JStr _ => "str"
  | JArr _ => "list"
  | JObj _ => "dict"
  end.

(** [metadata.get('installed_for_user')]; only a [dict] has [get]. *)
Definition metadata_get (key : string) (metadata : json) : M (option json) :=
  match metadata with
  | JObj members => mret (assoc_last key members)
  | _ => raise (Exn AttributeError ("'" ++ type_name metadata
                                    ++ "' object has no attribute 'get'"))
  end.

(** [value != user_id], where [value] is [None] for a missing key *)
Definition differs_from (user_id : string) (value : option json) : bool :=
  match value with
  | Some (JStr s) => negb (String.eqb s user_id)
  | _ => true
  end.

Definition _validate_installation (user_id : string) (plugin_dir : Path) : M Validation :=
  try_except
    (missing_files ← for_each (fun missing_files file_path =>
         present ← exists_ env (joinpath plugin_dir file_path);
         if (present : bool) then mret missing_files
         else mret (missing_files ++ [file_path])) [] required_files;
     match missing_files with
     | _ :: _ =>
         mret (Invalid ("Missing required files: " ++ join ", " missing_files))
     | [] =>
         let metadata_file := joinpath plugin_dir "plugin_metadata.json" in
         try_except_decode
           (metadata ← open_read_json env metadata_file;
            installed_for ← metadata_get "installed_for_user" metadata;
            if differs_from user_id installed_for
            then mret (Invalid "Metadata file has incorrect user ID")
            else mret Valid)
           (fun e => mret (Invalid ("Invalid metadata file: " ++ str_exn e)))
     end)
    (fun e =>
       logger ERROR ("Error validating installation: " ++ str_exn e);;
       mret (Invalid (str_exn e))).

Definition _check_modules_status (user_id plugin_id : string) : M ModulesStatus :=
  try_except
    (modules ← execute env SelectModules (select_modules plugin_id user_id);
     let expected_modules := length MODULE_DATA in
     let actual_modules := length modules in
     let enabled_modules :=
       length (List.filter (fun m => truthy (column "enabled" m.2)) modules) in
     mret (mkModulesStatus expected_modules actual_modules enabled_modules
             (actual_modules =? expected_modules)%nat
             (Some (enabled_modules =? actual_modules)%nat)
             (Some (map (fun m => (m.1, column "name" m.2, column "enabled" m.2)) modules))))
    (fun e =>
       logger ERROR ("Error checking modules status: " ++ str_exn e);;
       mret (mkModulesStatus 0 0 0 false None None)).

Definition _cleanup_user_directory (plugin_dir : Path) : M unit :=
  try_except
    (present ← exists_ env plugin_dir;
     if (present : bool) then
       rmtree env plugin_dir;;
       logger INFO ("Cleaned up plugin directory: " ++ str_path plugin_dir)
     else mret tt)
    (fun e => logger ERROR ("Error cleaning up plugin directory: " ++ str_exn e)).

(** Lines 110-139 of [install_plugin]: no plugin row was found. *)
Definition install_missing (user_id : string) : M InstallResult :=
  user_plugin_dir ← _create_user_plugin_directory user_id;
  match user_plugin_dir with
  | None => mret (InstallFailed ReturnNoDirectory "Failed to create user plugin directory" None)
  | Some user_plugin_dir =>
      copy_result ← _copy_plugin_files user_id user_plugin_dir false;
      match copy_result with
      | CopyFailed error =>
          _cleanup_user_directory user_plugin_dir;;
          mret (InstallFailed ReturnCopyFailed error None)
      | Copied _ =>
          db_result ← _create_database_records user_id;
          match db_result with
          | CreateFailed error =>
              _cleanup_user_directory user_plugin_dir;;
              mret (InstallFailed ReturnRecordsFailed error None)
          | Created plugin_id modules_created =>
              validation ← _validate_installation user_id user_plugin_dir;
              match validation with
              | Invalid error =>
                  rollback env;;
                  _cleanup_user_directory user_plugin_dir;;
                  mret (InstallFailed ReturnInvalid error None)
              | Valid =>
                  commit env;;
                  logger INFO ("NetworkEyes plugin installed successfully for user "
                               ++ user_id);;
                  mret (Installed plugin_id plugin_slug modules_created
                                  (str_path user_plugin_dir))
              end
          end
      end
  end.

Definition install_plugin (user_id : string) : M InstallResult :=
  try_except
    (logger INFO ("Installing NetworkEyes plugin for user " ++ user_id);;
     existing_check ← _check_existing_plugin user_id;
     match existing_check with
     | Existing plugin_id _ =>
         mret (InstallFailed ReturnConflict
                 ("Plugin already installed for user " ++ user_id) (Some plugin_id))
     | NotExisting _ => install_missing user_id
     end)
    (fun e =>
       logger ERROR ("Plugin installation failed for user " ++ user_id ++ ": " ++ str_exn e);;
       rollback env;;
       mret (InstallFailed ReturnInstallException (str_exn e) None)).

(** Lines 157-171 of [delete_plugin]: the plugin row [plugin_id] was found. *)
Definition delete_existing (user_id plugin_id : string) : M DeleteResult :=
  delete_result ← _delete_database_records user_id plugin_id;
  match delete_result with
  | RecordsNotDeleted error => mret (DeleteFailed ReturnRecordsNotDeleted error)
  | RecordsDeleted deleted_modules =>
      let user_plugin_dir := user_plugin_dir user_id in
      _cleanup_user_directory user_plugin_dir;;
      commit env;;
      logger INFO ("NetworkEyes plugin deleted successfully for user " ++ user_id);;
      mret (PluginDeleted plugin_id deleted_modules)
  end.

Definition delete_plugin (user_id : string) : M DeleteResult :=
  try_except
    (logger INFO ("Deleting NetworkEyes plugin for user " ++ user_id);;
     existing_check ← _check_existing_plugin user_id;
     match existing_check with
     | NotExisting _ => mret (DeleteFailed ReturnNotFound "Plugin not found for user")
     | Existing plugin_id _ => delete_existing user_id plugin_id
     end)
    (fun e =>
       logger ERROR ("Plugin deletion failed for user " ++ user_id ++ ": " ++ str_exn e);;
       rollback env;;
       mret (DeleteFailed ReturnDeleteException (str_exn e))).

(** Lines 190-197 of [get_plugin_status]. *)
Definition classify (files_exist all_loaded : bool) : string :=
  if files_exist && all_loaded then "healthy"
  else if negb files_exist then "files_missing"
  else if negb all_loaded then "modules_corrupted"
  else "unknown".

Definition get_plugin_status (user_id : string) : M StatusResult :=
  try_except
    (existing_check ← _check_existing_plugin user_id;
     match existing_check with
     | NotExisting _ => mret NotInstalled
     | Existing plugin_id plugin_info =>
         let user_plugin_dir := user_plugin_dir user_id in
         files_exist ← exists_ env user_plugin_dir;
         modules_status ← _check_modules_status user_id plugin_id;
         let status := classify files_exist (all_loaded modules_status) in
         mret (StatusReport status plugin_id plugin_info files_exist modules_status
                            (str_path user_plugin_dir))
     end)
    (fun e =>
       logger ERROR ("Error checking plugin status for user " ++ user_id ++ ": "
                     ++ str_exn e);;
       mret (StatusError (str_exn e))).

End Manager.

(** ** Vocabulary of the statements *)

(** [m] never raises: from every world it returns a value. *)
Definition returns {A} (m : M A) : Prop :=
  ∀ w, ∃ a w', m w = (Ok a, w').

(** Every run of [m] relates the world it starts in to the one it leaves. *)
Definition keeps {A} (R : relation World) (m : M A) : Prop :=
  ∀ w r w', m w = (r, w') → R w w'.

Definition same_fs : relation World := fun w w' => fs w' = fs w.
Definition same_db : relation World := fun w w' => db w' = db w.
Definition same_committed : relation World :=
  fun w w' => committed (db w') = committed (db w).
Definition still_dir (d : Path) : relation World :=
  fun w w' => fs w !! d = Some Dir → fs w' !! d = Some Dir.

(** A relation between worlds that composes along a run and does not look
    at the log. *)
Class Frame (R : relation World) : Prop := {
  frame_refl : ∀ w, R w w;
  frame_trans : ∀ w1 w2 w3, R w1 w2 → R w2 w3 → R w1 w3;
  frame_log : ∀ w l, R w (mkWorld (fs w) (db w) l)
}.

(** Nothing at [d] or below it. *)
Definition absent (d : Path) (tree : gmap Path node) : Prop :=
  ∀ q, under d q → tree !! q = None.

(** The store holds no plugin row and no module row of [user_id]. *)
Definition no_rows_of (user_id : string) (st : Store) : Prop :=
  (∀ id row, plugin_table st !! id = Some row → column_is "user_id" user_id row = false)
  ∧ (∀ id row, module_table st !! id = Some row → column_is "user_id" user_id row = false).

(** The plugin row that the existence check of [user_id] finds. *)
Definition found_plugin (user_id : string) (st : Store) : option (string * Row) :=
  head (List.filter (fun kv => owned_by plugin_slug user_id kv.2)
                    (map_to_list (plugin_table st))).

(** The module rows that the module query counts. *)
Definition module_rows (user_id plugin_id : string) (st : Store) : list (string * Row) :=
  List.filter (fun kv => module_of plugin_id user_id kv.2) (map_to_list (module_table st)).

(** The classification as the specification words it. *)
Definition spec_classify (directory_present : bool) (actual expected : nat) : string :=
  if directory_present && (actual =? expected)%nat then "healthy"
  else if negb directory_present then "files_missing"
  else if negb (actual =? expected)%nat then "modules_corrupted"
  else "unknown".

(** ** Sample environments and worlds *)

Definition quiet : site → option exn := fun _ => None.

(** The driver of the samples words the violated key as [sqlite3] does;
    the decoder of the samples refuses every text that the scanner of the
    model does not read. *)
Definition sample_integrity_error (stmt : statement) : exn :=
  match stmt with
  | InsertModule _ => Exn DatabaseError "UNIQUE constraint failed: module.id"
  | _ => Exn DatabaseError "UNIQUE constraint failed: plugin.id"
  end.

Definition sample_load_other (content : string) : result json :=
  Raise (Exn JSONDecodeError "Expecting value: line 1 column 1 (char 0)").

Definition sample_env (faults : site → option exn) : Env :=
  mkEnv ["/"; "srv"; "plugins"] ["/"; "opt"; "NetworkEyes"]
        "2024-01-01T00:00:00" "2024-01-01 00:00:00"
        sample_integrity_error sample_load_other faults.

(** The release as unpacked next to the script. *)
Definition release_tree : gmap Path node :=
  list_to_map [
    (["/"], Dir);
    (["/"; "opt"], Dir);
    (["/"; "opt"; "NetworkEyes"], Dir);
    (["/"; "opt"; "NetworkEyes"; "package.json"], File "{}");
    (["/"; "opt"; "NetworkEyes"; "dist"], Dir);
    (["/"; "opt"; "NetworkEyes"; "dist"; "remoteEntry.js"], File "js") ].

Definition empty_store : Store := mkStore ∅ ∅.

Definition fresh_world : World :=
  mkWorld release_tree (mkSession empty_store empty_store) [].

(** The world after a successful install for ["alice"]. *)
Definition installed_world : World :=
  (install_plugin (sample_env quiet) "alice" fresh_world).2.

Definition alice_dir : Path := ["/"; "srv"; "plugins"; "alice"; "BrainDriveNetwork"].

(** The plugin query cannot reach the database. *)
Definition select_plugin_fails (s : site) : option exn :=
  match s with
  | AtExecute SelectPlugin => Some (Exn DatabaseError "connection lost")
  | _ => None
  end.

(** The module query cannot reach the database. *)
Definition select_modules_fails (s : site) : option exn :=
  match s with
  | AtExecute SelectModules => Some (Exn DatabaseError "connection lost")
  | _ => None
  end.

(** The directory probe is refused. *)
Definition probe_fails (s : site) : option exn :=
  match s with
  | AtExists _ => Some (Exn OSError "Permission denied")
  | _ => None
  end.

(** The insert of a module row is rejected. *)
Definition module_insert_fails (s : site) : option exn :=
  match s with
  | AtExecute (InsertModule _) => Some (Exn DatabaseError "disk I/O error")
  | _ => None
  end.

(** The disk is full when the manifest is written, and the cleanup is not
    allowed to remove the directory. *)
Definition manifest_and_removal_fail (s : site) : option exn :=
  match s with
  | AtOpenWrite _ => Some (Exn OSError "No space left on device")
  | AtRmtree _ => Some (Exn OSError "Permission denied")
  | _ => None
  end.

(** The delete of the plugin row is rejected. *)
Definition plugin_delete_fails (s : site) : option exn :=
  match s with
  | AtExecute DeletePlugin => Some (Exn DatabaseError "FOREIGN KEY constraint failed")
  | _ => None
  end.

(** The removal of a directory is refused. *)
Definition removal_fails (s : site) : option exn :=
  match s with
  | AtRmtree _ => Some (Exn OSError "Permission denied")
  | _ => None
  end.

(** The world in which the delete of ["alice"] arrives at line 157 after
    another session has removed her plugin row and committed: the module
    row is still there, the plugin row is not. *)
Definition plugin_row_gone : World :=
  let st := committed (db installed_world) in
  let st' := mkStore (delete "alice_BrainDriveNetwork" (plugin_table st)) (module_table st) in
  mkWorld (fs installed_world) (mkSession st' st') (log installed_world).

Definition alice_plugin : string := "alice_BrainDriveNetwork".
Definition alice_module : string := "alice_BrainDriveNetwork_ComponentNetworkStatus".

(** The world after the directory step of an install for ["alice"]. *)
Definition directory_world : World :=
  (_create_user_plugin_directory (sample_env quiet) "alice" fresh_world).2.

Definition is_copied (r : CopyResult) : bool :=
  match r with
  | Copied _ => true
  | CopyFailed _ => false
  end.

(** A test on the value that a run returns; a run that raises fails it. *)
Definition returned {A} (test : A → bool) (run : result A * World) : bool :=
  match run.1 with
  | Ok a => test a
  | Raise _ => false
  end.

Definition is_some {A} (o : option A) : bool :=
  match o with
  | Some _ => true
  | None => false
  end.

Definition is_not_installed (r : StatusResult) : bool :=
  match r with
  | NotInstalled => true
  | _ => false
  end.

Definition is_installed (r : InstallResult) : bool :=
  match r with
  | Installed _ _ _ _ => true
  | InstallFailed _ _ _ => false
  end.

Definition failed_at (r : InstallResult) : option install_return :=
  match r with
  | InstallFailed returned_at _ _ => Some returned_at
  | Installed _ _ _ _ => None
  end.

Definition is_records_failure (r : InstallResult) : bool :=
  match r with
  | InstallFailed ReturnRecordsFailed _ _ => true
  | _ => false
  end.

(** ** Further vocabulary and samples *)

(** The ids that the record step gives to the rows of [user_id]
    (lines 318 and 376). *)
Definition plugin_id_of (user_id : string) : string := user_id +:+ "_" +:+ plugin_slug.

Definition module_id_of (user_id : string) (module_data : json) : string :=
  user_id +:+ "_" +:+ plugin_slug +:+ "_" +:+ text (item "name" module_data).

(** The one entry of [MODULE_DATA]. *)
Definition the_module : json := default JNull (head MODULE_DATA).

(** The store after the records of [u] were inserted. *)
Definition with_records (env : Env) (u : string) (st : Store) : Store :=
  mkStore
    (<[plugin_id_of u := plugin_row_params u (plugin_id_of u) (now_strftime env)]>
       (plugin_table st))
    (<[module_id_of u the_module :=
         module_row_params u (plugin_id_of u) (module_id_of u the_module)
                           (now_strftime env) the_module]>
       (module_table st)).

(** Where the copy step writes the manifest of the directory [d]. *)
Definition manifest_path (d : Path) : Path := joinpath d "plugin_metadata.json".

(** The store after the records of plugin [pid] of [u] were deleted. *)
Definition without_records (u pid : string) (st : Store) : Store :=
  mkStore (delete pid (plugin_table st))
          (filter (fun kv => module_of pid u kv.2 ≠ true) (module_table st)).

(** Every run of [m] leaves [R] between the world it starts in and the one
    it ends in, unless it returns a value that passes [good]. *)
Definition keeps_unless {A} (R : relation World) (good : A → Prop) (m : M A) : Prop :=
  ∀ w r w', m w = (r, w') → R w w' ∨ ∃ a, r = Ok a ∧ good a.

(** The commit is refused. *)
Definition commit_fails (s : site) : option exn :=
  match s with
  | AtCommit => Some (Exn DatabaseError "database is locked")
  | _ => None
  end.

(** Tests on the results of install and delete. *)
Definition is_deleted (r : DeleteResult) : bool :=
  match r with
  | PluginDeleted _ _ => true
  | DeleteFailed _ _ => false
  end.

Definition install_failed_at (at_ : install_return) (r : InstallResult) : bool :=
  match r, at_ with
  | InstallFailed ReturnConflict _ _, ReturnConflict
  | InstallFailed ReturnNoDirectory _ _, ReturnNoDirectory
  | InstallFailed ReturnCopyFailed _ _, ReturnCopyFailed
  | InstallFailed ReturnRecordsFailed _ _, ReturnRecordsFailed
  | InstallFailed ReturnInvalid _ _, ReturnInvalid
  | InstallFailed ReturnInstallException _ _, ReturnInstallException => true
  | _, _ => false
  end.

Definition delete_failed_at (at_ : delete_return) (r : DeleteResult) : bool :=
  match r, at_ with
  | DeleteFailed ReturnNotFound _, ReturnNotFound
  | DeleteFailed ReturnRecordsNotDeleted _, ReturnRecordsNotDeleted
  | DeleteFailed ReturnDeleteException _, ReturnDeleteException => true
  | _, _ => false
  end.

(** The required files that are not there, in the order of the list. *)
Definition missing_files (tree : gmap Path node) (d : Path) : list string :=
  List.filter (fun file_path => negb (path_exists tree (joinpath d file_path))) required_files.

Definition is_valid (v : Validation) : bool :=
  match v with
  | Valid => true
  | Invalid _ => false
  end.

(** The tree of [installed_world] without the [package.json] of alice. *)
Definition package_json_lost : World :=
  set_fs (delete (joinpath alice_dir "package.json") (fs installed_world)) installed_world.

(** Every entry of the tree before is an entry of the tree after. *)
Definition grows : relation World := fun w w' => fs w ⊆ fs w'.

(** The entries that are not at [d] or below it stay as they are. *)
Definition keeps_outside (d : Path) : relation World :=
  fun w w' => ∀ q n, ¬ under d q → fs w !! q = Some n → fs w' !! q = Some n.

(** Nothing is created, and nothing changes that is not at [d] or below. *)
Definition removes_within (d : Path) : relation World :=
  fun w w' => fs w' ⊆ fs w ∧ ∀ q, ¬ under d q → fs w' !! q = fs w !! q.

(** The plugin directory of bob, and a world in which it holds a file
    that no install has put there. *)
Definition bob_dir : Path := ["/"; "srv"; "plugins"; "bob"; "BrainDriveNetwork"].

Definition with_bob_file : World :=
  set_fs (<[bob_dir ++ ["notes.txt"] := File "keep"]> (fs fresh_world)) fresh_world.

(** The entry at [q] stays. *)
Definition keeps_entry (q : Path) (n : node) : relation World :=
  fun w w' => fs w !! q = Some n → fs w' !! q = Some n.

(** None of the paths is a file. *)
Definition no_file_at (tree : gmap Path node) (ps : list Path) : bool :=
  forallb (fun q => match tree !! q with Some (File _) => false | _ => true end) ps.

(** The tree lets the directory step make [d] with its parents, and [dist]
    and [assets] in it. *)
Definition directory_possible (tree : gmap Path node) (d : Path) : bool :=
  no_file_at tree (ancestors_and_self d)
  && no_file_at tree [joinpath d "dist"; joinpath d "assets"].

(** No outside call but the one at [s0] is made to raise. *)
Definition fails_only_at (s0 : site) (env : Env) : Prop :=
  ∀ s, s ≠ s0 → fault env s = None.

(** ** Basic facts about the monad *)

#[export] Instance same_fs_frame : Frame same_fs.
Proof. split; unfold same_fs; simpl; congruence. Qed.

#[export] Instance same_db_frame : Frame same_db.
Proof. split; unfold same_db; simpl; congruence. Qed.

#[export] Instance same_committed_frame : Frame same_committed.
Proof. split; unfold same_committed; simpl; congruence. Qed.

#[export] Instance still_dir_frame d : Frame (still_dir d).
Proof. split; unfold still_dir; simpl; auto. Qed.

Section Rules.
Context (R : relation World) `{!Frame R}.

Lemma keeps_ret {A} (a : A) : keeps R (mret a).
Proof. intros w r w' [= <- <-]. apply frame_refl. Qed.

Lemma keeps_raise {A} e : keeps R (@raise A e).
Proof. intros w r w' [= <- <-]. apply frame_refl. Qed.

Lemma keeps_bind {A B} (m : M A) (k : A → M B) :
  keeps R m → (∀ a, keeps R (k a)) → keeps R (m ≫= k).
Proof.
  intros Hm Hk w r w'. unfold mbind, M_bind, bind.
  destruct (m w) as [[a|e] w1] eqn:E; intros H.
  - eapply frame_trans; [eapply Hm, E | eapply Hk, H].
  - injection H as <- <-. eapply Hm, E.
Qed.

Lemma keeps_try_except {A} (body : M A) handler :
  keeps R body → (∀ e, keeps R (handler e)) → keeps R (try_except body handler).
Proof.
  intros Hm Hk w r w'. unfold try_except.
  destruct (body w) as [[a|e] w1] eqn:E; intros H.
  - injection H as <- <-. eapply Hm, E.
  - eapply frame_trans; [eapply Hm, E | eapply Hk, H].
Qed.

Lemma keeps_try_except_decode {A} (body : M A) handler :
  keeps R body → (∀ e, keeps R (handler e)) → keeps R (try_except_decode body handler).
Proof.
  intros Hm Hk w r w'. unfold try_except_decode.
  destruct (body w) as [[a|e] w1] eqn:E; intros H.
  - injection H as <- <-. eapply Hm, E.
  - destruct (exn_kind e);
      first [ injection H as <- <-; eapply Hm, E
            | eapply frame_trans; [eapply Hm, E | eapply Hk, H] ].
Qed.

Lemma keeps_for_each {A S} (body : S → A → M S) l :
  (∀ acc x, keeps R (body acc x)) → ∀ acc, keeps R (for_each body acc l).
Proof.
  intros Hb. induction l as [|x l IH]; intros acc; simpl.
  - apply keeps_ret.
  - apply keeps_bind; auto.
Qed.

Lemma keeps_logger lvl msg : keeps R (logger lvl msg).
Proof. intros w r w' [= <- <-]. apply frame_log. Qed.

Lemma keeps_call env {A} s (op : M A) : keeps R op → keeps R (call env s op).
Proof. unfold call. destruct (fault env s); auto using keeps_raise. Qed.
End Rules.

Lemma returns_ret {A} (a : A) : returns (mret a).
Proof. intros w. by exists a, w. Qed.

Lemma returns_logger lvl msg : returns (logger lvl msg).
Proof. intros w. by eexists _, _. Qed.

Lemma returns_bind {A B} (m : M A) (k : A → M B) :
  returns m → (∀ a, returns (k a)) → returns (m ≫= k).
Proof.
  intros Hm Hk w. unfold mbind, M_bind, bind.
  destruct (Hm w) as (a & w1 & ->). apply Hk.
Qed.

(** A handler that returns makes the whole [try] return. *)
Lemma returns_try_except {A} (body : M A) handler :
  (∀ e, returns (handler e)) → returns (try_except body handler).
Proof.
  intros Hh w. unfold try_except.
  destruct (body w) as [[a|e] w1]; [by eexists _, _ | apply Hh].
Qed.

(** One step of a frame proof: follow the shape of the program. *)
Ltac frame_step :=
  lazymatch goal with
  | |- keeps _ (mret _) => apply keeps_ret; try apply _
  | |- keeps _ (ret _) => apply (keeps_ret _); try apply _
  | |- keeps _ (raise _) => apply keeps_raise; try apply _
  | |- keeps _ (logger _ _) => apply keeps_logger; try apply _
  | |- keeps _ (_ ≫= _) => apply keeps_bind; [apply _ | | intros ?]
  | |- keeps _ (try_except _ _) => apply keeps_try_except; [apply _ | | intros ?]
  | |- keeps _ (try_except_decode _ _) =>
      apply keeps_try_except_decode; [apply _ | | intros ?]
  | |- keeps _ (for_each _ _ _) => apply keeps_for_each; [apply _ | intros ? ?]
  | |- keeps _ (call _ _ _) => apply keeps_call; [apply _ | ]
  | |- keeps _ (if ?b then _ else _) => destruct b
  | |- keeps _ (match ?x with _ => _ end) => destruct x
  | |- keeps _ (let _ := _ in _) => cbv zeta
  end.

Create HintDb frame discriminated.
#[export] Hint Resolve same_fs_frame same_db_frame same_committed_frame still_dir_frame : frame.

Ltac frame := repeat first [ frame_step | solve [eauto with frame] ].

(** *** The outside calls *)

Lemma pure_call_keeps R `{!Frame R} env {A} s (f : World → result A) :
  keeps R (call env s (fun w => (f w, w))).
Proof. apply keeps_call; [apply _|]. intros w r w' [= <- <-]. apply frame_refl. Qed.

Lemma exists_keeps R `{!Frame R} env p : keeps R (exists_ env p).
Proof. apply pure_call_keeps, _. Qed.

Lemma open_read_json_keeps R `{!Frame R} env p : keeps R (open_read_json env p).
Proof.
  apply keeps_call; [apply _|]. intros w r w' H.
  repeat case_match; simplify_eq; apply frame_refl.
Qed.

Lemma write_file_same_db p content : keeps same_db (write_file p content).
Proof. intros w r w' H. unfold write_file in H. by repeat case_match; simplify_eq. Qed.

Lemma mkdir_parents_same_db env p : keeps same_db (mkdir_parents env p).
Proof.
  apply keeps_call; [apply _|]. intros w r w' H. by repeat case_match; simplify_eq.
Qed.

Lemma mkdir_same_db env p : keeps same_db (mkdir env p).
Proof.
  apply keeps_call; [apply _|]. intros w r w' H. by repeat case_match; simplify_eq.
Qed.

Lemma copy2_same_db env src dst : keeps same_db (copy2 env src dst).
Proof.
  apply keeps_call; [apply _|]. intros w r w' H.
  repeat case_match; first [ by simplify_eq | by eapply write_file_same_db ].
Qed.

Lemma copytree_same_db env src dst : keeps same_db (copytree env src dst).
Proof.
  apply keeps_call; [apply _|]. intros w r w' H. cbv zeta in H.
  by repeat case_match; simplify_eq.
Qed.

Lemma rmtree_same_db env p : keeps same_db (rmtree env p).
Proof.
  apply keeps_call; [apply _|]. intros w r w' H. by repeat case_match; simplify_eq.
Qed.

Lemma open_write_json_same_db env p v : keeps same_db (open_write_json env p v).
Proof. apply keeps_call; [apply _|]. apply write_file_same_db. Qed.

Lemma execute_same_fs env {A} stmt (run : Store → result A * Store) :
  keeps same_fs (execute env stmt run).
Proof.
  apply keeps_call; [apply _|]. intros w r w' H.
  destruct (run _) as [r1 st]. by injection H as <- <-.
Qed.

Lemma execute_same_committed env {A} stmt (run : Store → result A * Store) :
  keeps same_committed (execute env stmt run).
Proof.
  apply keeps_call; [apply _|]. intros w r w' H.
  destruct (run _) as [r1 st]. by injection H as <- <-.
Qed.

(** A statement that only reads leaves the session as it was. *)
Lemma execute_same_db env {A} stmt (run : Store → result A * Store) :
  (∀ st, (run st).2 = st) → keeps same_db (execute env stmt run).
Proof.
  intros Hrun. apply keeps_call; [apply _|]. intros w r w' H.
  specialize (Hrun (pending (db w))). destruct (run _) as [r1 st]. simpl in Hrun. subst st.
  injection H as <- <-. unfold same_db. simpl. by destruct (db w).
Qed.

Lemma rollback_same_fs env : keeps same_fs (rollback env).
Proof. apply keeps_call; [apply _|]. by intros w r w' [= <- <-]. Qed.

Lemma rollback_same_committed env : keeps same_committed (rollback env).
Proof. apply keeps_call; [apply _|]. by intros w r w' [= <- <-]. Qed.

Lemma commit_same_fs env : keeps same_fs (commit env).
Proof. apply keeps_call; [apply _|]. by intros w r w' [= <- <-]. Qed.

#[export] Hint Resolve exists_keeps open_read_json_keeps write_file_same_db
  mkdir_parents_same_db mkdir_same_db copy2_same_db copytree_same_db rmtree_same_db
  open_write_json_same_db execute_same_fs execute_same_committed rollback_same_fs
  rollback_same_committed commit_same_fs : frame.

(** *** The helper methods: what they leave alone *)

Lemma check_existing_same_fs env u : keeps same_fs (_check_existing_plugin env u).
Proof. unfold _check_existing_plugin. frame. Qed.

Lemma check_existing_same_db env u : keeps same_db (_check_existing_plugin env u).
Proof. unfold _check_existing_plugin. frame. by apply execute_same_db. Qed.

Lemma check_existing_returns env u : returns (_check_existing_plugin env u).
Proof.
  apply returns_try_except. intros e.
  apply returns_bind; [apply returns_logger | intros; apply returns_ret].
Qed.

Lemma create_directory_same_db env u : keeps same_db (_create_user_plugin_directory env u).
Proof. unfold _create_user_plugin_directory. frame. Qed.

Lemma create_directory_returns env u : returns (_create_user_plugin_directory env u).
Proof.
  apply returns_try_except. intros e.
  apply returns_bind; [apply returns_logger | intros; apply returns_ret].
Qed.

Lemma copy_files_same_db env u d update : keeps same_db (_copy_plugin_files env u d update).
Proof. unfold _copy_plugin_files. frame. Qed.

Lemma copy_files_returns env u d update : returns (_copy_plugin_files env u d update).
Proof.
  apply returns_try_except. intros e.
  apply returns_bind; [apply returns_logger | intros; apply returns_ret].
Qed.

Lemma create_records_same_fs env u : keeps same_fs (_create_database_records env u).
Proof. unfold _create_database_records. frame. Qed.

Lemma create_records_same_committed env u :
  keeps same_committed (_create_database_records env u).
Proof. unfold _create_database_records. frame. Qed.

Lemma create_records_returns env u : returns (_create_database_records env u).
Proof.
  apply returns_try_except. intros e.
  apply returns_bind; [apply returns_logger | intros; apply returns_ret].
Qed.

Lemma delete_records_same_fs env u pid : keeps same_fs (_delete_database_records env u pid).
Proof. unfold _delete_database_records. frame. Qed.

Lemma delete_records_same_committed env u pid :
  keeps same_committed (_delete_database_records env u pid).
Proof. unfold _delete_database_records. frame. Qed.

Lemma delete_records_returns env u pid : returns (_delete_database_records env u pid).
Proof.
  apply returns_try_except. intros e.
  apply returns_bind; [apply returns_logger | intros; apply returns_ret].
Qed.

Lemma metadata_get_keeps R `{!Frame R} key v : keeps R (metadata_get key v).
Proof. unfold metadata_get. frame. Qed.

#[export] Hint Resolve metadata_get_keeps : frame.

Lemma validate_same_fs env u d : keeps same_fs (_validate_installation env u d).
Proof. unfold _validate_installation. frame. Qed.

Lemma validate_same_db env u d : keeps same_db (_validate_installation env u d).
Proof. unfold _validate_installation. frame. Qed.

Lemma validate_returns env u d : returns (_validate_installation env u d).
Proof.
  apply returns_try_except. intros e.
  apply returns_bind; [apply returns_logger | intros; apply returns_ret].
Qed.

Lemma check_modules_same_fs env u pid : keeps same_fs (_check_modules_status env u pid).
Proof. unfold _check_modules_status. frame. Qed.

Lemma check_modules_same_db env u pid : keeps same_db (_check_modules_status env u pid).
Proof. unfold _check_modules_status. frame. by apply execute_same_db. Qed.

Lemma check_modules_returns env u pid : returns (_check_modules_status env u pid).
Proof.
  apply returns_try_except. intros e.
  apply returns_bind; [apply returns_logger | intros; apply returns_ret].
Qed.

Lemma cleanup_same_db env d : keeps same_db (_cleanup_user_directory env d).
Proof. unfold _cleanup_user_directory. frame. Qed.

Lemma cleanup_returns env d : returns (_cleanup_user_directory env d).
Proof. apply returns_try_except. intros e. apply returns_logger. Qed.

(** *** Paths of the plugin directory *)

Lemma joinpath_relative p s : is_absolute s = false → joinpath p s = p ++ parts s.
Proof. unfold joinpath. by intros ->. Qed.

Lemma user_plugin_dir_eq env u :
  user_plugin_dir env u = joinpath (plugins_base_dir env) u ++ ["BrainDriveNetwork"].
Proof. reflexivity. Qed.

Lemma user_plugin_dir_nonempty env u : user_plugin_dir env u ≠ [].
Proof. rewrite user_plugin_dir_eq. by destruct (joinpath _ _). Qed.

Lemma not_under_child (d : Path) x : ¬ under (d ++ [x]) d.
Proof.
  intros [k Hk]. apply (f_equal length) in Hk. rewrite !length_app in Hk. simpl in Hk. lia.
Qed.

Lemma path_exists_lookup tree (p : Path) :
  p ≠ [] → path_exists tree p = bool_decide (is_Some (tree !! p)).
Proof. by destruct p. Qed.

(** *** The directory tree *)

Lemma make_dirs_cons p ps tree : make_dirs (p :: ps) tree = <[p := Dir]> (make_dirs ps tree).
Proof. reflexivity. Qed.

Lemma make_dirs_member ps tree (q : Path) : q ∈ ps → make_dirs ps tree !! q = Some Dir.
Proof.
  induction ps as [|p ps IH]; [by intros ?%elem_of_nil|].
  rewrite make_dirs_cons. intros [->|Hin]%elem_of_cons.
  - apply lookup_insert_eq.
  - destruct (decide (p = q)) as [->|Hne]; [apply lookup_insert_eq|].
    rewrite lookup_insert_ne by done. auto.
Qed.

Lemma make_dirs_still_dir ps tree (q : Path) :
  tree !! q = Some Dir → make_dirs ps tree !! q = Some Dir.
Proof.
  intros Hq. induction ps as [|p ps IH]; [done|].
  rewrite make_dirs_cons. destruct (decide (p = q)) as [->|Hne]; [apply lookup_insert_eq|].
  by rewrite lookup_insert_ne.
Qed.

Lemma ancestors_and_self_last (p : Path) : p ≠ [] → p ∈ ancestors_and_self p.
Proof.
  induction p as [|x p IH]; [done|]. intros _. simpl.
  destruct p as [|y p]; [by left|].
  right. apply list_elem_of_fmap. exists (y :: p). split; [done|]. by apply IH.
Qed.

Lemma remove_tree_absent p tree : absent p (remove_tree p tree).
Proof.
  intros q Hq. unfold remove_tree. apply map_lookup_filter_None. right.
  intros x _ Hn. by apply Hn.
Qed.

Lemma remove_tree_elsewhere p tree (q : Path) :
  ¬ under p q → remove_tree p tree !! q = tree !! q.
Proof.
  intros Hq. unfold remove_tree. destruct (tree !! q) as [n|] eqn:E.
  - by apply map_lookup_filter_Some.
  - apply map_lookup_filter_None. by left.
Qed.

Lemma write_file_still_dir d p content : keeps (still_dir d) (write_file p content).
Proof.
  intros w r w' H Hd. unfold write_file in H.
  repeat case_match; simplify_eq; simpl; try done.
  all: destruct (decide (p = d)) as [->|Hne]; [congruence|by rewrite lookup_insert_ne].
Qed.

Lemma mkdir_parents_still_dir env d p : keeps (still_dir d) (mkdir_parents env p).
Proof.
  apply keeps_call; [apply _|]. intros w r w' H Hd.
  repeat case_match; simplify_eq; simpl; try done. by apply make_dirs_still_dir.
Qed.

Lemma mkdir_still_dir env d p : keeps (still_dir d) (mkdir env p).
Proof.
  apply keeps_call; [apply _|]. intros w r w' H Hd.
  repeat case_match; simplify_eq; try done; by apply (make_dirs_still_dir [p]).
Qed.

Lemma copy2_still_dir env d src dst : keeps (still_dir d) (copy2 env src dst).
Proof.
  apply keeps_call; [apply _|]. intros w r w' H.
  repeat case_match; first [ by simplify_eq; intros ? | by eapply write_file_still_dir ].
Qed.

Lemma open_write_json_still_dir env d p v : keeps (still_dir d) (open_write_json env p v).
Proof. apply keeps_call; [apply _|]. apply write_file_still_dir. Qed.

Lemma rmtree_still_dir env d p : ¬ under p d → keeps (still_dir d) (rmtree env p).
Proof.
  intros Hp. apply keeps_call; [apply _|]. intros w r w' H Hd.
  repeat case_match; simplify_eq; simpl; try done. by rewrite remove_tree_elsewhere.
Qed.

Lemma copytree_still_dir env d src dst : keeps (still_dir d) (copytree env src dst).
Proof.
  apply keeps_call; [apply _|]. intros w r w' H Hd. cbv zeta in H.
  repeat case_match; simplify_eq; simpl; try done.
  match goal with H : _ && _ = true |- _ => apply andb_true_iff in H as [Hall _] end.
  destruct ((list_to_map (rerooted src dst (fs w)) : gmap Path node) !! d) as [n|] eqn:E.
  - pose proof (elem_of_list_to_map_2 _ _ _ E) as Hin.
    rewrite forallb_forall in Hall. apply list_elem_of_In, Hall in Hin. simpl in Hin.
    rewrite Hd in Hin. destruct n; [|done].
    apply lookup_union_Some_raw. by left.
  - apply lookup_union_Some_raw. right. split; [done|]. by apply make_dirs_still_dir.
Qed.

#[export] Hint Resolve write_file_still_dir mkdir_parents_still_dir mkdir_still_dir
  copy2_still_dir open_write_json_still_dir copytree_still_dir : frame.

(** *** Inversion of a run *)

Lemma bind_Ok_inv {A B} (m : M A) (k : A → M B) w b w' :
  (m ≫= k) w = (Ok b, w') → ∃ a w1, m w = (Ok a, w1) ∧ k a w1 = (Ok b, w').
Proof.
  unfold mbind, M_bind, bind. destruct (m w) as [[a|e] w1]; [eauto|done].
Qed.

Lemma try_except_inv {A} (body : M A) handler w r w' :
  try_except body handler w = (r, w') →
  (∃ a, body w = (Ok a, w') ∧ r = Ok a) ∨ (∃ e w1, body w = (Raise e, w1) ∧ handler e w1 = (r, w')).
Proof.
  unfold try_except. destruct (body w) as [[a|e] w1]; intros H; [left|right].
  - injection H as <- <-. eauto.
  - eauto.
Qed.

Lemma logger_run lvl msg w :
  logger lvl msg w = (Ok tt, mkWorld (fs w) (db w) (log w ++ [(lvl, msg)])).
Proof. reflexivity. Qed.

(** *** Creating and removing the plugin directory *)

Lemma mkdir_parents_Ok env (p : Path) w w' :
  p ≠ [] → mkdir_parents env p w = (Ok tt, w') → fs w' !! p = Some Dir.
Proof.
  intros Hp. unfold mkdir_parents, call. intros H.
  repeat case_match; simplify_eq. simpl. by apply make_dirs_member, ancestors_and_self_last.
Qed.

(** When the directory step hands back a path, it is the plugin directory
    of the user and it is a directory. *)
Lemma create_directory_post env u w d w' :
  _create_user_plugin_directory env u w = (Ok (Some d), w') →
  d = user_plugin_dir env u ∧ fs w' !! d = Some Dir.
Proof.
  intros H. apply try_except_inv in H as [(a & H & [= <-])|(e & w1 & _ & H)].
  - cbv zeta in H. fold (user_plugin_dir env u) in H.
    apply bind_Ok_inv in H as ([] & w1 & H1 & H).
    apply bind_Ok_inv in H as ([] & w2 & H2 & H).
    apply bind_Ok_inv in H as ([] & w3 & H3 & H).
    apply bind_Ok_inv in H as ([] & w4 & H4 & H).
    injection H as <- <-. split; [done|].
    apply mkdir_parents_Ok in H1; [|apply user_plugin_dir_nonempty].
    rewrite logger_run in H4. injection H4 as <-. simpl.
    eapply mkdir_still_dir; [exact H3|]. eapply mkdir_still_dir; [exact H2|]. done.
  - apply bind_Ok_inv in H as ([] & w2 & _ & H). by injection H.
Qed.

Lemma copy_files_still_dir env u d update :
  keeps (still_dir d) (_copy_plugin_files env u d update).
Proof.
  unfold _copy_plugin_files, dirs_to_copy. cbn [for_each]. frame.
  all: apply rmtree_still_dir;
       rewrite joinpath_relative by reflexivity; apply not_under_child.
Qed.

(** The cleanup when neither the probe nor the removal is made to raise. *)
Lemma cleanup_removes env d w :
  fault env (AtExists d) = None → fault env (AtRmtree d) = None →
  fs w !! d = Some Dir →
  ∃ w', _cleanup_user_directory env d w = (Ok tt, w') ∧ fs w' = remove_tree d (fs w).
Proof.
  intros He Hr Hd. unfold _cleanup_user_directory, try_except, mbind, M_bind, bind.
  unfold exists_, rmtree, call. rewrite He, Hr.
  assert (path_exists (fs w) d = true) as ->.
  { destruct d; [done|]. simpl. apply bool_decide_eq_true. by rewrite Hd. }
  rewrite Hd. simpl. eauto.
Qed.

Lemma cleanup_absent_noop env d w :
  fault env (AtExists d) = None → d ≠ [] → fs w !! d = None →
  _cleanup_user_directory env d w = (Ok tt, w).
Proof.
  intros He Hd Hn. unfold _cleanup_user_directory, try_except, mbind, M_bind, bind.
  unfold exists_, call. rewrite He.
  assert (path_exists (fs w) d = false) as ->; [|done].
  rewrite path_exists_lookup by done. apply bool_decide_eq_false. rewrite Hn.
  by intros [? ?].
Qed.

(** *** The queries *)

Lemma set_pending_same w : set_pending (pending (db w)) w = w.
Proof. by destruct w as [tree [c p] l]. Qed.

Lemma same_db_committed w w' : same_db w w' → same_committed w w'.
Proof. unfold same_db, same_committed. by intros ->. Qed.

Lemma check_existing_found env u w id row :
  fault env (AtExecute SelectPlugin) = None →
  found_plugin u (pending (db w)) = Some (id, row) →
  _check_existing_plugin env u w = (Ok (Existing id (plugin_info_of id row)), w).
Proof.
  intros Hf Hrow. unfold _check_existing_plugin, try_except, mbind, M_bind, bind.
  unfold execute, call. rewrite Hf. cbn [select_plugin]. rewrite set_pending_same.
  unfold found_plugin in Hrow.
  destruct (List.filter _ _) as [|[id' row'] rest]; simpl in Hrow; simplify_eq; reflexivity.
Qed.

Lemma check_existing_not_found env u w :
  fault env (AtExecute SelectPlugin) = None →
  found_plugin u (pending (db w)) = None →
  _check_existing_plugin env u w = (Ok (NotExisting None), w).
Proof.
  intros Hf Hrow. unfold _check_existing_plugin, try_except, mbind, M_bind, bind.
  unfold execute, call. rewrite Hf. cbn [select_plugin]. rewrite set_pending_same.
  unfold found_plugin in Hrow.
  destruct (List.filter _ _) as [|[id' row'] rest]; simpl in Hrow; simplify_eq; reflexivity.
Qed.

Lemma check_existing_raised env u w e :
  fault env (AtExecute SelectPlugin) = Some e →
  _check_existing_plugin env u w
  = (Ok (NotExisting (Some (str_exn e))),
     mkWorld (fs w) (db w)
             (log w ++ [(ERROR, "Error checking existing plugin: " +:+ str_exn e)])).
Proof.
  intros Hf. unfold _check_existing_plugin, try_except, mbind, M_bind, bind.
  unfold execute, call. by rewrite Hf.
Qed.

(** Without a row for the user the check says so, whether or not the
    query raises. *)
Lemma check_existing_missing env u w :
  found_plugin u (pending (db w)) = None →
  ∃ err w', _check_existing_plugin env u w = (Ok (NotExisting err), w').
Proof.
  intros Hrow. destruct (fault env (AtExecute SelectPlugin)) as [e|] eqn:Hf.
  - rewrite (check_existing_raised _ _ _ e) by done. eauto.
  - rewrite check_existing_not_found by done. eauto.
Qed.

(** The row that the check finds is a row of the plugin table that belongs
    to the user. *)
Lemma found_plugin_row u st id row :
  found_plugin u st = Some (id, row) →
  plugin_table st !! id = Some row ∧ owned_by plugin_slug u row = true.
Proof.
  unfold found_plugin. intros H. apply head_Some_elem_of in H.
  apply list_elem_of_In, filter_In in H as [H Hown]. split; [|done].
  by apply elem_of_map_to_list, list_elem_of_In.
Qed.

Lemma check_modules_run env u pid w :
  ∃ ms w', _check_modules_status env u pid w = (Ok ms, w')
    ∧ all_loaded ms = (actual_count ms =? length MODULE_DATA)%nat
    ∧ (fault env (AtExecute SelectModules) = None →
       actual_count ms = length (module_rows u pid (pending (db w)))
       ∧ expected_count ms = length MODULE_DATA).
Proof.
  unfold _check_modules_status, try_except, mbind, M_bind, bind, execute, call.
  destruct (fault env (AtExecute SelectModules)) as [e|]; simpl.
  - eexists _, _. split; [done|]. split; [done|]. done.
  - eexists _, _. split; [done|]. split; [done|]. done.
Qed.

(** ** The operations *)

(** *** Install on top of an existing plugin row *)

(** C2: when the existence check finds a plugin row for the user, install
    returns the conflict failure with the id of that row, and leaves the
    directory tree and the session exactly as they were: no directory is
    created and no row is inserted. *)
Theorem install_existing_conflict env u w id row :
  fault env (AtExecute SelectPlugin) = None →
  found_plugin u (pending (db w)) = Some (id, row) →
  ∃ w', install_plugin env u w
        = (Ok (InstallFailed ReturnConflict ("Plugin already installed for user " +:+ u)
                             (Some id)), w')
    ∧ plugin_table (pending (db w)) !! id = Some row
    ∧ owned_by plugin_slug u row = true
    ∧ fs w' = fs w ∧ db w' = db w.
Proof.
  intros Hf Hrow. unfold install_plugin, try_except, mbind, M_bind, bind.
  rewrite logger_run. erewrite check_existing_found by (simpl; eauto).
  eexists. split; [reflexivity|]. apply found_plugin_row in Hrow as [? ?]. done.
Qed.

Lemma install_existing_conflict_witness :
  fault (sample_env quiet) (AtExecute SelectPlugin) = None
  ∧ ∃ id row w',
      found_plugin "alice" (pending (db installed_world)) = Some (id, row)
      ∧ install_plugin (sample_env quiet) "alice" installed_world
        = (Ok (InstallFailed ReturnConflict "Plugin already installed for user alice"
                             (Some id)), w')
      ∧ fs w' = fs installed_world ∧ db w' = db installed_world.
Proof.
  split; [reflexivity|].
  assert (is_some (found_plugin "alice" (pending (db installed_world))) = true) as Hs
    by (vm_compute; reflexivity).
  destruct (found_plugin "alice" (pending (db installed_world))) as [[id row]|] eqn:Hrow;
    [|discriminate Hs].
  destruct (install_existing_conflict (sample_env quiet) "alice" installed_world id row
              eq_refl Hrow) as (w' & H & _ & _ & Hfs & Hdb).
  exists id, row, w'. split; [reflexivity|]. split; [exact H|]. split; assumption.
Defined.

(** *** Delete without a plugin row *)

(** C6: for a user without a plugin row, delete fails with the not-found
    error, and neither the directory tree nor the session changes: no file
    is touched and no record is deleted. *)
Theorem delete_missing_not_found env u w :
  found_plugin u (pending (db w)) = None →
  ∃ w', delete_plugin env u w = (Ok (DeleteFailed ReturnNotFound "Plugin not found for user"), w')
    ∧ fs w' = fs w ∧ db w' = db w.
Proof.
  intros Hrow. unfold delete_plugin, try_except, mbind, M_bind, bind.
  rewrite logger_run.
  set (w1 := mkWorld _ _ _).
  destruct (check_existing_missing env u w1 Hrow) as (err & w2 & Hc).
  pose proof (check_existing_same_fs _ _ _ _ _ Hc) as Hfs.
  pose proof (check_existing_same_db _ _ _ _ _ Hc) as Hdb.
  rewrite Hc. eexists. split; [reflexivity|]. done.
Qed.

Lemma delete_missing_not_found_witness :
  found_plugin "bob" (pending (db installed_world)) = None
  ∧ ∃ w', delete_plugin (sample_env quiet) "bob" installed_world
          = (Ok (DeleteFailed ReturnNotFound "Plugin not found for user"), w')
      ∧ fs w' = fs installed_world ∧ db w' = db installed_world.
Proof.
  assert (found_plugin "bob" (pending (db installed_world)) = None) as Hrow
    by (vm_compute; reflexivity).
  split; [exact Hrow|].
  exact (delete_missing_not_found (sample_env quiet) "bob" installed_world Hrow).
Defined.

(** *** Status *)

Lemma classify_spec files_exist ms :
  all_loaded ms = (actual_count ms =? length MODULE_DATA)%nat →
  classify files_exist (all_loaded ms)
  = spec_classify files_exist (actual_count ms) (length MODULE_DATA).
Proof. intros ->. reflexivity. Qed.

Lemma classify_cases files_exist loaded :
  classify files_exist loaded
  = if files_exist then if loaded then "healthy" else "modules_corrupted"
    else "files_missing".
Proof. by destruct files_exist, loaded. Qed.

(** The run of the status operation once the existence check has found a
    row and the directory probe answers. *)
Lemma status_found_run env u w id row :
  fault env (AtExecute SelectPlugin) = None →
  found_plugin u (pending (db w)) = Some (id, row) →
  fault env (AtExists (user_plugin_dir env u)) = None →
  ∃ ms w',
    get_plugin_status env u w
    = (Ok (StatusReport (classify (path_exists (fs w) (user_plugin_dir env u)) (all_loaded ms))
                        id (plugin_info_of id row)
                        (path_exists (fs w) (user_plugin_dir env u)) ms
                        (str_path (user_plugin_dir env u))), w')
    ∧ all_loaded ms = (actual_count ms =? length MODULE_DATA)%nat
    ∧ (fault env (AtExecute SelectModules) = None →
       actual_count ms = length (module_rows u id (pending (db w)))
       ∧ expected_count ms = length MODULE_DATA).
Proof.
  intros Hf Hrow He. unfold get_plugin_status, try_except, mbind, M_bind, bind.
  rewrite (check_existing_found _ _ _ _ _ Hf Hrow).
  unfold exists_ at 1. unfold call. rewrite He.
  destruct (check_modules_run env u id w) as (ms & w' & Hm & Hl & Hc).
  rewrite Hm. eauto 10.
Qed.

(** C4: for a user whose plugin row is found, the status is read off the
    directory probe and the module count exactly as the specification
    lists it: healthy when the directory is there and the actual count is
    the length of the static module list, files_missing whenever the
    directory is absent, modules_corrupted when the directory is there and
    the counts differ, unknown otherwise.  The actual count is the number
    of module rows of the plugin whenever the module query answers. *)
Theorem status_classification env u w id row :
  fault env (AtExecute SelectPlugin) = None →
  found_plugin u (pending (db w)) = Some (id, row) →
  fault env (AtExists (user_plugin_dir env u)) = None →
  ∃ ms w' info directory,
    get_plugin_status env u w
    = (Ok (StatusReport
             (spec_classify (path_exists (fs w) (user_plugin_dir env u))
                            (actual_count ms) (length MODULE_DATA))
             id info (path_exists (fs w) (user_plugin_dir env u)) ms directory), w')
    ∧ (fault env (AtExecute SelectModules) = None →
       actual_count ms = length (module_rows u id (pending (db w)))).
Proof.
  intros Hf Hrow He.
  destruct (status_found_run env u w id row Hf Hrow He) as (ms & w' & Hs & Hl & Hc).
  exists ms, w', (plugin_info_of id row), (str_path (user_plugin_dir env u)).
  rewrite <- classify_spec by done. split; [done|]. intros Hq. by apply Hc.
Qed.

Lemma status_classification_witness :
  fault (sample_env quiet) (AtExecute SelectPlugin) = None
  ∧ fault (sample_env quiet) (AtExists (user_plugin_dir (sample_env quiet) "alice")) = None
  ∧ ∃ id row ms w' info directory,
      found_plugin "alice" (pending (db installed_world)) = Some (id, row)
      ∧ get_plugin_status (sample_env quiet) "alice" installed_world
        = (Ok (StatusReport
                 (spec_classify
                    (path_exists (fs installed_world)
                                 (user_plugin_dir (sample_env quiet) "alice"))
                    (actual_count ms) (length MODULE_DATA))
                 id info
                 (path_exists (fs installed_world) (user_plugin_dir (sample_env quiet) "alice"))
                 ms directory), w')
      ∧ (fault (sample_env quiet) (AtExecute SelectModules) = None →
         actual_count ms = length (module_rows "alice" id (pending (db installed_world)))).
Proof.
  split; [reflexivity|]. split; [reflexivity|].
  assert (is_some (found_plugin "alice" (pending (db installed_world))) = true) as Hs
    by (vm_compute; reflexivity).
  destruct (found_plugin "alice" (pending (db installed_world))) as [[id row]|] eqn:Hrow;
    [|discriminate Hs].
  destruct (status_classification (sample_env quiet) "alice" installed_world id row
              eq_refl Hrow eq_refl) as (ms & w' & info & directory & H & Hc).
  exists id, row, ms, w', info, directory. split; [reflexivity|]. split; [exact H|exact Hc].
Defined.

(** The status operation never raises and never writes. *)
Lemma status_returns env u : returns (get_plugin_status env u).
Proof.
  apply returns_try_except. intros e.
  apply returns_bind; [apply returns_logger | intros; apply returns_ret].
Qed.

Lemma status_same_fs env u : keeps same_fs (get_plugin_status env u).
Proof.
  unfold get_plugin_status. frame.
  - apply check_existing_same_fs.
  - apply check_modules_same_fs.
Qed.

Lemma status_same_db env u : keeps same_db (get_plugin_status env u).
Proof.
  unfold get_plugin_status. frame.
  - apply check_existing_same_db.
  - apply check_modules_same_db.
Qed.

(** C9: on a run of status that reports an existing plugin, the status is
    healthy, files_missing or modules_corrupted; the branch that assigns
    unknown is never taken. *)
Theorem status_never_unknown env u w r w' :
  get_plugin_status env u w = (Ok r, w') →
  status_exists r = true →
  status_of r = "healthy" ∨ status_of r = "files_missing"
  ∨ status_of r = "modules_corrupted".
Proof.
  intros H Hex. apply try_except_inv in H as [(a & H & [= <-])|(e & w1 & _ & H)].
  - apply bind_Ok_inv in H as (c & w1 & _ & H). destruct c as [id info|err].
    + apply bind_Ok_inv in H as (files_exist & w2 & _ & H).
      apply bind_Ok_inv in H as (ms & w3 & _ & H).
      injection H as <- <-. simpl. rewrite classify_cases.
      destruct files_exist, (all_loaded ms); auto.
    + injection H as <- <-. done.
  - apply bind_Ok_inv in H as ([] & w2 & _ & H). injection H as <- <-. done.
Qed.

Lemma status_never_unknown_witness :
  ∃ r w', get_plugin_status (sample_env quiet) "alice" installed_world = (Ok r, w')
    ∧ status_exists r = true
    ∧ (status_of r = "healthy" ∨ status_of r = "files_missing"
       ∨ status_of r = "modules_corrupted").
Proof.
  assert (returned status_exists (get_plugin_status (sample_env quiet) "alice" installed_world)
          = true) as Hex by (vm_compute; reflexivity).
  destruct (get_plugin_status (sample_env quiet) "alice" installed_world)
    as [[r|e] w'] eqn:H; [|discriminate Hex].
  exists r, w'. split; [reflexivity|]. split; [exact Hex|].
  exact (status_never_unknown (sample_env quiet) "alice" installed_world r w' H Hex).
Defined.

(** C5, as the code has it: status never raises and changes neither the
    directory tree nor the session.  An error of the directory probe,
    which the operation itself makes, comes back as status error with the
    text of the exception.  An error of the plugin query is absorbed by
    the existence check and comes back as not_installed; an error of the
    module query is absorbed by the module check and shows as a module
    count that is not loaded, never as healthy. *)
Theorem status_errors_reported env u w :
  ∃ r w', get_plugin_status env u w = (Ok r, w')
    ∧ fs w' = fs w ∧ db w' = db w
    ∧ (∀ e, fault env (AtExecute SelectPlugin) = Some e → r = NotInstalled)
    ∧ (∀ e id row,
         fault env (AtExecute SelectPlugin) = None →
         found_plugin u (pending (db w)) = Some (id, row) →
         fault env (AtExists (user_plugin_dir env u)) = Some e →
         r = StatusError (str_exn e) ∧ status_of r = "error"
         ∧ status_error r = Some (str_exn e))
    ∧ (∀ e id row,
         fault env (AtExecute SelectPlugin) = None →
         found_plugin u (pending (db w)) = Some (id, row) →
         fault env (AtExists (user_plugin_dir env u)) = None →
         fault env (AtExecute SelectModules) = Some e →
         status_exists r = true ∧ status_error r = None ∧ status_of r ≠ "healthy").
Proof.
  destruct (status_returns env u w) as (r & w' & H). exists r, w'.
  split; [done|]. split; [eapply status_same_fs, H|]. split; [eapply status_same_db, H|].
  split; [|split].
  - intros e He. revert H. unfold get_plugin_status, try_except, mbind, M_bind, bind.
    rewrite (check_existing_raised _ _ _ e He). by intros [= <- <-].
  - intros e id row Hf Hrow He. revert H.
    unfold get_plugin_status, try_except, mbind, M_bind, bind.
    rewrite (check_existing_found _ _ _ _ _ Hf Hrow).
    unfold exists_ at 1. unfold call. rewrite He. by intros [= <- <-].
  - intros e id row Hf Hrow He Hm.
    destruct (status_found_run env u w id row Hf Hrow He) as (ms & w2 & Hs & Hl & _).
    rewrite Hs in H. injection H as <- <-. simpl. split; [done|]. split; [done|].
    assert (all_loaded ms = false) as ->.
    { revert Hs. unfold get_plugin_status, try_except, mbind, M_bind, bind.
      rewrite (check_existing_found _ _ _ _ _ Hf Hrow).
      unfold exists_ at 1. unfold call at 1. rewrite He.
      unfold _check_modules_status, try_except, mbind, M_bind, bind, execute, call.
      rewrite Hm. simpl. intros Heq. by simplify_eq. }
    rewrite classify_cases. by destruct (path_exists _ _).
Qed.

(** C5, as it is stated, fails: the plugin query raises inside status, and
    the result is not_installed without any error detail, although the
    plugin is installed. *)
Lemma status_query_error_not_reported :
  fault (sample_env select_plugin_fails) (AtExecute SelectPlugin)
  = Some (Exn DatabaseError "connection lost")
  ∧ is_some (found_plugin "alice" (pending (db installed_world))) = true
  ∧ (get_plugin_status (sample_env select_plugin_fails) "alice" installed_world).1
    = Ok NotInstalled
  ∧ status_of NotInstalled ≠ "error"
  ∧ status_error NotInstalled = None.
Proof.
  split; [reflexivity|]. split; [vm_compute; reflexivity|].
  split; [vm_compute; reflexivity|]. by split.
Qed.

(** *** The cleanup *)

(** C7: the cleanup never raises.  When the probe and the removal are not
    made to fail, a directory is removed with everything below it and
    nothing else changes, and an absent path leaves the world untouched.
    When the probe or the removal raises, the exception is logged as an
    error and swallowed, and the directory tree stays as it was.  The
    session is never touched. *)
Theorem cleanup_never_raises env d w :
  ∃ w', _cleanup_user_directory env d w = (Ok tt, w')
    ∧ db w' = db w
    ∧ (fault env (AtExists d) = None → fault env (AtRmtree d) = None →
       fs w !! d = Some Dir →
       absent d (fs w') ∧ ∀ q, ¬ under d q → fs w' !! q = fs w !! q)
    ∧ (fault env (AtExists d) = None → path_exists (fs w) d = false → w' = w)
    ∧ (∀ e, fault env (AtExists d) = Some e
            ∨ (fault env (AtExists d) = None ∧ path_exists (fs w) d = true
               ∧ fault env (AtRmtree d) = Some e) →
       fs w' = fs w
       ∧ log w' = log w ++ [(ERROR, "Error cleaning up plugin directory: " +:+ str_exn e)]).
Proof.
  destruct (cleanup_returns env d w) as ([] & w' & H). exists w'.
  split; [done|]. split; [eapply cleanup_same_db, H|]. split; [|split].
  - intros He Hr Hd. destruct (cleanup_removes env d w He Hr Hd) as (w2 & H2 & Hfs).
    rewrite H in H2. injection H2 as <-. rewrite Hfs. split.
    + apply remove_tree_absent.
    + intros q Hq. by apply remove_tree_elsewhere.
  - intros He Hn. revert H.
    unfold _cleanup_user_directory, try_except, mbind, M_bind, bind, exists_, call.
    rewrite He, Hn. by intros [= <-].
  - intros e [He|(He & Hp & Hr)]; revert H;
      unfold _cleanup_user_directory, try_except, mbind, M_bind, bind, exists_, rmtree, call;
      rewrite ?He, ?Hp, ?Hr; by intros [= <-].
Qed.

(** *** Install after a failed existence check: no conflict *)

(** The end of a run that returned: compare what was returned. *)
Ltac returned_other H :=
  injection H as <- <-; first [ done | intros ?; discriminate | intros ? ?; discriminate ].

Lemma install_missing_no_conflict env u w r w' :
  install_missing env u w = (Ok r, w') → ∀ err pid, r ≠ InstallFailed ReturnConflict err pid.
Proof.
  intros H err pid. unfold install_missing in H.
  apply bind_Ok_inv in H as (od & w1 & _ & H). destruct od as [d|]; [|returned_other H].
  apply bind_Ok_inv in H as (cr & w2 & _ & H). destruct cr.
  - apply bind_Ok_inv in H as (dr & w3 & _ & H). destruct dr.
    + apply bind_Ok_inv in H as (v & w4 & _ & H). destruct v.
      * apply bind_Ok_inv in H as ([] & w5 & _ & H).
        apply bind_Ok_inv in H as ([] & w6 & _ & H). returned_other H.
      * apply bind_Ok_inv in H as ([] & w5 & _ & H).
        apply bind_Ok_inv in H as ([] & w6 & _ & H). returned_other H.
    + apply bind_Ok_inv in H as ([] & w4 & _ & H). returned_other H.
  - apply bind_Ok_inv in H as ([] & w3 & _ & H). returned_other H.
Qed.

(** With the failed check a fresh user is installed as usual. *)
Example install_fresh_after_failed_check :
  let run := install_plugin (sample_env select_plugin_fails) "alice" fresh_world in
  returned is_installed run = true
  ∧ fs run.2 !! alice_dir = Some Dir
  ∧ is_some (plugin_table (committed (db run.2)) !! "alice_BrainDriveNetwork") = true
  ∧ is_some (module_table (committed (db run.2))
             !! "alice_BrainDriveNetwork_ComponentNetworkStatus") = true.
Proof. repeat split; vm_compute; reflexivity. Qed.

(** The same failed check on top of an existing installation: install does
    not stop at the check; the insert then hits the primary key, and the
    cleanup removes the directory of the installation that was there. *)
Example install_over_existing_after_failed_check :
  let run := install_plugin (sample_env select_plugin_fails) "alice" installed_world in
  run.1 = Ok (InstallFailed ReturnRecordsFailed "UNIQUE constraint failed: plugin.id" None)
  ∧ fs installed_world !! alice_dir = Some Dir
  ∧ fs run.2 !! alice_dir = None
  ∧ is_some (plugin_table (committed (db run.2)) !! "alice_BrainDriveNetwork") = true.
Proof. repeat split; vm_compute; reflexivity. Qed.

(** *** Install that fails after the directory was created *)

(** What the cleanup leaves when it was reached with the directory in
    place. *)
Lemma cleanup_after env d w w' :
  _cleanup_user_directory env d w = (Ok tt, w') →
  fs w !! d = Some Dir →
  db w' = db w
  ∧ (fault env (AtExists d) = None → fault env (AtRmtree d) = None → absent d (fs w')).
Proof.
  intros H Hd. split; [eapply cleanup_same_db, H|]. intros He Hr.
  destruct (cleanup_removes env d w He Hr Hd) as (w2 & H2 & Hfs).
  rewrite H in H2. injection H2 as <-. rewrite Hfs. apply remove_tree_absent.
Qed.

(** C1, as the code has it: when install returns from its copy, insert or
    validation failure branch, nothing of it is committed: the committed
    store is the one install started with, so a user without committed
    rows before the call has none after it.  The plugin directory of the
    user is gone, with everything below it, provided that the probe and
    the removal of the cleanup were not made to fail; a failing removal
    is swallowed by the cleanup and leaves the directory. *)
Theorem install_failure_compensated env u w at_ err pid w' :
  install_plugin env u w = (Ok (InstallFailed at_ err pid), w') →
  at_ = ReturnCopyFailed ∨ at_ = ReturnRecordsFailed ∨ at_ = ReturnInvalid →
  committed (db w') = committed (db w)
  ∧ (no_rows_of u (committed (db w)) → no_rows_of u (committed (db w')))
  ∧ (fault env (AtExists (user_plugin_dir env u)) = None →
     fault env (AtRmtree (user_plugin_dir env u)) = None →
     absent (user_plugin_dir env u) (fs w')).
Proof.
  intros H Hat.
  cut (committed (db w') = committed (db w)
       ∧ (fault env (AtExists (user_plugin_dir env u)) = None →
          fault env (AtRmtree (user_plugin_dir env u)) = None →
          absent (user_plugin_dir env u) (fs w'))).
  { intros [Hc Habs]. split; [exact Hc|]. split; [by rewrite Hc|exact Habs]. }
  apply try_except_inv in H as [(a & H & [= <-])|(e & w1 & _ & H)].
  2:{ apply bind_Ok_inv in H as ([] & w2 & _ & H).
      apply bind_Ok_inv in H as ([] & w3 & _ & H).
      injection H as <- <- <- <-. by destruct Hat as [?|[?|?]]. }
  apply bind_Ok_inv in H as ([] & w0 & Hl & H). rewrite logger_run in Hl. injection Hl as <-.
  apply bind_Ok_inv in H as (c & w1 & Hc & H).
  pose proof (check_existing_same_db _ _ _ _ _ Hc) as Hdb1. unfold same_db in Hdb1.
  simpl in Hdb1.
  destruct c as [id info|oe].
  { injection H as <- <- <- <-. by destruct Hat as [?|[?|?]]. }
  unfold install_missing in H.
  apply bind_Ok_inv in H as (od & w2 & Hd & H).
  pose proof (create_directory_same_db _ _ _ _ _ Hd) as Hdb2. unfold same_db in Hdb2.
  destruct od as [d|].
  2:{ injection H as <- <- <- <-. by destruct Hat as [?|[?|?]]. }
  apply create_directory_post in Hd as [-> Hdir2].
  apply bind_Ok_inv in H as (cr & w3 & Hcp & H).
  pose proof (copy_files_same_db _ _ _ _ _ _ _ Hcp) as Hdb3. unfold same_db in Hdb3.
  pose proof (copy_files_still_dir _ _ _ _ _ _ _ Hcp Hdir2) as Hdir3.
  destruct cr as [files|error].
  2:{ apply bind_Ok_inv in H as ([] & w4 & Hcl & H). injection H as <- <- <- <-.
      destruct (cleanup_after _ _ _ _ Hcl Hdir3) as [Hdb4 Habs].
      split; [congruence|exact Habs]. }
  apply bind_Ok_inv in H as (dr & w4 & Hcr & H).
  pose proof (create_records_same_fs _ _ _ _ _ Hcr) as Hfs4. unfold same_fs in Hfs4.
  pose proof (create_records_same_committed _ _ _ _ _ Hcr) as Hdb4.
  unfold same_committed in Hdb4.
  assert (fs w4 !! user_plugin_dir env u = Some Dir) as Hdir4 by by rewrite Hfs4.
  destruct dr as [plugin_id created|error].
  2:{ apply bind_Ok_inv in H as ([] & w5 & Hcl & H). injection H as <- <- <- <-.
      destruct (cleanup_after _ _ _ _ Hcl Hdir4) as [Hdb5 Habs].
      split; [congruence|exact Habs]. }
  apply bind_Ok_inv in H as (v & w5 & Hv & H).
  pose proof (validate_same_fs _ _ _ _ _ _ Hv) as Hfs5. unfold same_fs in Hfs5.
  pose proof (validate_same_db _ _ _ _ _ _ Hv) as Hdb5. unfold same_db in Hdb5.
  destruct v as [|error].
  { apply bind_Ok_inv in H as ([] & w6 & _ & H).
    apply bind_Ok_inv in H as ([] & w7 & _ & H). by injection H. }
  apply bind_Ok_inv in H as ([] & w6 & Hrb & H).
  pose proof (rollback_same_fs _ _ _ _ Hrb) as Hfs6. unfold same_fs in Hfs6.
  pose proof (rollback_same_committed _ _ _ _ Hrb) as Hdb6. unfold same_committed in Hdb6.
  assert (fs w6 !! user_plugin_dir env u = Some Dir) as Hdir6 by by rewrite Hfs6, Hfs5.
  apply bind_Ok_inv in H as ([] & w7 & Hcl & H). injection H as <- <- <- <-.
  destruct (cleanup_after _ _ _ _ Hcl Hdir6) as [Hdb7 Habs].
  split; [congruence|exact Habs].
Qed.

Lemma no_rows_empty u : no_rows_of u empty_store.
Proof. split; intros id row H; simpl in H; by rewrite lookup_empty in H. Qed.

Lemma install_failure_compensated_witness :
  ∃ at_ err pid w',
    install_plugin (sample_env module_insert_fails) "alice" fresh_world
    = (Ok (InstallFailed at_ err pid), w')
    ∧ at_ = ReturnRecordsFailed
    ∧ committed (db w') = committed (db fresh_world)
    ∧ no_rows_of "alice" (committed (db w'))
    ∧ absent (user_plugin_dir (sample_env module_insert_fails) "alice") (fs w').
Proof.
  assert (returned is_records_failure
            (install_plugin (sample_env module_insert_fails) "alice" fresh_world) = true) as Hr
    by (vm_compute; reflexivity).
  destruct (install_plugin (sample_env module_insert_fails) "alice" fresh_world)
    as [[[at_ err pid|? ? ? ?]|e] w'] eqn:H; try discriminate Hr.
  destruct at_; try discriminate Hr.
  destruct (install_failure_compensated (sample_env module_insert_fails) "alice" fresh_world
              ReturnRecordsFailed err pid w' H (or_intror (or_introl eq_refl)))
    as (Hc & Hrows & Habs).
  exists ReturnRecordsFailed, err, pid, w'.
  split; [reflexivity|]. split; [reflexivity|]. split; [exact Hc|].
  split; [exact (Hrows (no_rows_empty "alice"))|].
  exact (Habs eq_refl eq_refl).
Defined.

(** C1, as it is stated, fails: the write of the manifest raises, so
    install fails at the copy step; the removal in the cleanup raises as
    well and is swallowed; install returns the copy failure and the plugin
    directory that it created is still there. *)
Lemma install_failure_leaves_directory :
  let run := install_plugin (sample_env manifest_and_removal_fail) "alice" fresh_world in
  run.1 = Ok (InstallFailed ReturnCopyFailed "No space left on device" None)
  ∧ user_plugin_dir (sample_env manifest_and_removal_fail) "alice" = alice_dir
  ∧ fs fresh_world !! alice_dir = None
  ∧ fs run.2 !! alice_dir = Some Dir.
Proof. repeat split; vm_compute; reflexivity. Qed.

(** *** Delete when the plugin row is not deleted *)

Lemma delete_records_zero_rows env u pid w :
  fault env (AtExecute DeleteModules) = None →
  fault env (AtExecute DeletePlugin) = None →
  (∀ row, plugin_table (pending (db w)) !! pid = Some row → column_is "user_id" u row = false) →
  _delete_database_records env u pid w
  = (Ok (RecordsNotDeleted "Plugin not found or not owned by user"),
     set_pending
       (mkStore (plugin_table (pending (db w)))
                (filter (fun kv => module_of pid u kv.2 ≠ true) (module_table (pending (db w)))))
       w).
Proof.
  intros Hm Hp Hrow.
  unfold _delete_database_records, try_except, mbind, M_bind, bind, execute, call.
  rewrite Hm, Hp. cbn [delete_modules]. unfold delete_plugin_row.
  cbn [set_pending set_db db pending plugin_table committed].
  destruct (plugin_table (pending (db w)) !! pid) as [row|] eqn:E.
  - rewrite (Hrow row eq_refl). reflexivity.
  - reflexivity.
Qed.

(** What the code does when the plugin-row delete matches no row: the
    record step reports the failure and delete returns it at once.  The
    directory tree and the committed store are as before, and the session
    is left with the module rows deleted in its open transaction: there
    is no rollback on this path. *)
Lemma delete_zero_rows_returns_early env u pid w :
  fault env (AtExecute DeleteModules) = None →
  fault env (AtExecute DeletePlugin) = None →
  (∀ row, plugin_table (pending (db w)) !! pid = Some row → column_is "user_id" u row = false) →
  ∃ w', delete_existing env u pid w
        = (Ok (DeleteFailed ReturnRecordsNotDeleted "Plugin not found or not owned by user"), w')
    ∧ fs w' = fs w
    ∧ committed (db w') = committed (db w)
    ∧ pending (db w')
      = mkStore (plugin_table (pending (db w)))
                (filter (fun kv => module_of pid u kv.2 ≠ true)
                        (module_table (pending (db w)))).
Proof.
  intros Hm Hp Hrow. unfold delete_existing, mbind, M_bind, bind.
  rewrite (delete_records_zero_rows env u pid w Hm Hp Hrow). eexists. split; [reflexivity|].
  done.
Qed.

(** C3 at the failing input: the plugin-row delete of ["alice"] matches no
    row.  The record step reports "not found or not owned" and delete
    fails without touching the directory and without a commit, as the
    claim says; but it returns without a rollback, so the module row that
    was deleted first is still deleted in the open transaction of the
    session, while the exception path of the same method does roll back. *)
Theorem delete_zero_rows_not_rolled_back :
  let run := delete_existing (sample_env quiet) "alice" alice_plugin plugin_row_gone in
  plugin_table (pending (db plugin_row_gone)) !! alice_plugin = None
  ∧ is_some (module_table (pending (db plugin_row_gone)) !! alice_module) = true
  ∧ run.1 = Ok (DeleteFailed ReturnRecordsNotDeleted "Plugin not found or not owned by user")
  ∧ fs run.2 !! alice_dir = Some Dir
  ∧ is_some (module_table (committed (db run.2)) !! alice_module) = true
  ∧ module_table (pending (db run.2)) !! alice_module = None.
Proof. repeat split; vm_compute; reflexivity. Qed.

(** The same return is taken, in a run of delete from its first line, when
    the plugin-row delete raises after the module rows were deleted. *)
Example delete_raised_not_rolled_back :
  let run := delete_plugin (sample_env plugin_delete_fails) "alice" installed_world in
  run.1 = Ok (DeleteFailed ReturnRecordsNotDeleted "FOREIGN KEY constraint failed")
  ∧ fs run.2 !! alice_dir = Some Dir
  ∧ is_some (module_table (committed (db run.2)) !! alice_module) = true
  ∧ module_table (pending (db run.2)) !! alice_module = None.
Proof. repeat split; vm_compute; reflexivity. Qed.

(** The rollback that the claim asks for would have restored the row. *)
Example delete_zero_rows_then_rollback :
  let run := delete_existing (sample_env quiet) "alice" alice_plugin plugin_row_gone in
  let run' := rollback (sample_env quiet) run.2 in
  is_some (module_table (pending (db run'.2)) !! alice_module) = true.
Proof. vm_compute. reflexivity. Qed.

(** Without it, the next commit on the same session makes the deletion
    permanent: here an install for another user commits it. *)
Example delete_zero_rows_then_commit :
  let run := delete_existing (sample_env quiet) "alice" alice_plugin plugin_row_gone in
  let run' := install_plugin (sample_env quiet) "bob" run.2 in
  returned is_installed run' = true
  ∧ module_table (committed (db run'.2)) !! alice_module = None.
Proof. split; vm_compute; reflexivity. Qed.

(** ** The text of a value scans back to the value *)

Section RoundTrip.

#[local] Open Scope nat_scope.

Lemma skip_ws_spaces k s : skip_ws (repeat (ascii_of_N 32) k ++ s) = skip_ws s.
Proof. induction k as [|k IH]; [done|]. simpl. exact IH. Qed.

Lemma skip_ws_newline_indent level s : skip_ws (newline_indent level ++ s) = skip_ws s.
Proof. unfold newline_indent. simpl. apply skip_ws_spaces. Qed.

Lemma scanstring_escape c s :
  scanstring (escape_char c ++ s)
  = match scanstring s with
    | Some (body, r) => Some (c :: body, r)
    | None => None
    end.
Proof. destruct c as [[] [] [] [] [] [] [] []]; reflexivity. Qed.

Lemma scanstring_escaped l s :
  scanstring (flat_map escape_char l ++ dquote :: s) = Some (l, s).
Proof.
  induction l as [|c l IH]; [reflexivity|].
  simpl. rewrite <- app_assoc, scanstring_escape, IH. reflexivity.
Qed.

Lemma scan_digits_stop s : 
  match s with c :: _ => is_digit c = false | [] => True end → scan_digits s = (Decimal.Nil, s).
Proof. destruct s as [|c s]; [done|]. simpl. by intros ->. Qed.

Lemma scan_digits_uint u s :
  match s with c :: _ => is_digit c = false | [] => True end →
  scan_digits (uint_chars u ++ s) = (u, s).
Proof.
  intros Hs. induction u; simpl; [by apply scan_digits_stop| ..]; by rewrite IHu.
Qed.

Lemma pos_to_uint_head p :
  match Pos.to_uint p with
  | Decimal.Nil | Decimal.D0 _ => False
  | _ => True
  end.
Proof.
  pose proof (DecimalPos.Unsigned.to_uint_nonzero p) as Hz.
  pose proof (DecimalPos.Unsigned.to_uint_nonnil p) as Hn.
  assert (Decimal.unorm (Pos.to_uint p) = Pos.to_uint p) as Hu.
  { rewrite <- (DecimalPos.Unsigned.to_of (Pos.to_uint p)).
    by rewrite DecimalPos.Unsigned.of_to. }
  destruct (Pos.to_uint p) as [|u| | | | | | | | |]; try done.
  rewrite DecimalFacts.unorm_D0 in Hu.
  unfold Decimal.unorm in Hu. pose proof (DecimalFacts.nzhead_nonzero u u) as Hnz.
  destruct (Decimal.nzhead u) eqn:E; done.
Qed.

Lemma Z_of_pos_uint p : Z.of_uint (Pos.to_uint p) = Z.pos p.
Proof. unfold Z.of_uint. by rewrite DecimalPos.Unsigned.of_to. Qed.

Lemma scan_number_digits c tl u r :
  is_digit c = true → N_of_ascii c ≠ 48%N →
  scan_digits (c :: tl) = (u, r) → u ≠ Decimal.Nil → starts_float_tail r = false →
  scan_number (c :: tl) = Some (Z.of_uint u, r)
  ∧ scan_number (lit "-" ++ c :: tl) = Some (Z.opp (Z.of_uint u), r).
Proof.
  intros Hd H0 Hs Hu Hf. unfold is_digit in Hd. apply andb_true_iff in Hd as [Hl Hh].
  apply N.leb_le in Hl, Hh.
  assert ((N_of_ascii c =? 45)%N = false) as H45 by (apply N.eqb_neq; lia).
  assert ((N_of_ascii c =? 48)%N = false) as H48 by by apply N.eqb_neq.
  unfold scan_number. cbn [lit list_ascii_of_string app].
  change (N_of_ascii "-" =? 45)%N with true. cbv iota.
  rewrite H45, H48, Hs, Hf. by destruct u.
Qed.

Lemma scan_number_pos p s :
  delimited s = true →
  scan_number (uint_chars (Pos.to_uint p) ++ s) = Some (Z.pos p, s)
  ∧ scan_number (lit "-" ++ uint_chars (Pos.to_uint p) ++ s) = Some (Z.neg p, s).
Proof.
  intros Hs. pose proof (pos_to_uint_head p) as Hh. rewrite <- (Z_of_pos_uint p).
  change (Z.neg p) with (Z.opp (Z.pos p)). rewrite <- (Z_of_pos_uint p).
  assert (match s with c :: _ => is_digit c = false | [] => True end) as Hd.
  { destruct s as [|c s]; [done|]. simpl in Hs. apply andb_true_iff in Hs as [H _].
    by apply negb_true_iff in H. }
  assert (starts_float_tail s = false) as Hf.
  { destruct s as [|c s]; [done|]. unfold delimited in Hs. apply andb_true_iff in Hs as [_ H].
    by apply negb_true_iff in H. }
  pose proof (scan_digits_uint (Pos.to_uint p) s Hd) as Hsc.
  destruct (Pos.to_uint p) as [|u|u|u|u|u|u|u|u|u|u] eqn:E; try done.
  all: apply scan_number_digits; [reflexivity | by vm_compute | exact Hsc | done | exact Hf].
Qed.

Lemma scan_number_repr z s :
  delimited s = true → scan_number (int_repr z ++ s) = Some (z, s).
Proof.
  intros Hs. destruct z as [|p|p]; simpl.
  - unfold scan_number. simpl.
    assert (starts_float_tail s = false) as ->; [|done].
    destruct s as [|c s]; [done|]. unfold delimited in Hs. apply andb_true_iff in Hs as [_ H].
    by apply negb_true_iff in H.
  - by apply scan_number_pos.
  - by apply (scan_number_pos p s).
Qed.

Lemma uint_chars_head u :
  u ≠ Decimal.Nil → ∃ c tl, uint_chars u = c :: tl ∧ is_digit c = true.
Proof. destruct u; try done; intros _; by eexists _, _. Qed.

Lemma int_repr_head z :
  ∃ c tl, int_repr z = c :: tl ∧ (is_digit c = true ∨ c = ascii_of_N 45).
Proof.
  destruct z as [|p|p]; simpl.
  - eexists _, _. split; [done|]. by left.
  - destruct (uint_chars_head (Pos.to_uint p)) as (c & tl & -> & Hc).
    { apply DecimalPos.Unsigned.to_uint_nonnil. }
    eexists _, _. split; [done|]. by left.
  - eexists _, _. split; [done|]. by right.
Qed.

Lemma digit_value_head c : is_digit c = true ∨ c = ascii_of_N 45 → value_head c = true.
Proof.
  intros [H| ->]; [|done].
  destruct c as [[] [] [] [] [] [] [] []]; try discriminate H; reflexivity.
Qed.

Lemma iterencode_head level v :
  ∃ c tl, iterencode level v = c :: tl ∧ value_head c = true.
Proof.
  destruct v as [|[]|z|s|items|members]; simpl; try (by eexists _, _).
  - destruct (int_repr_head z) as (c & tl & -> & Hc). eexists _, _. split; [done|].
    by apply digit_value_head.
  - unfold bracket. destruct (map _ items); by eexists _, _.
  - unfold bracket. destruct (map _ members); by eexists _, _.
Qed.

Lemma skip_ws_value level v s : skip_ws (iterencode level v ++ s) = iterencode level v ++ s.
Proof.
  destruct (iterencode_head level v) as (c & tl & -> & Hc). simpl.
  unfold value_head in Hc. apply andb_true_iff in Hc as [Hc _]. apply negb_true_iff in Hc.
  by rewrite Hc.
Qed.

(** a number is scanned by [scan_number] *)
Lemma scan_once_number n c tl :
  is_digit c = true ∨ c = ascii_of_N 45 →
  scan_once (S n) (c :: tl)
  = match scan_number (c :: tl) with
    | Some (z, r) => Some (JInt z, r)
    | None => None
    end.
Proof.
  intros [H| ->]; [|reflexivity].
  destruct c as [[] [] [] [] [] [] [] []]; try discriminate H; reflexivity.
Qed.

Lemma roundtrips_int z : roundtrips (JInt z).
Proof.
  intros level rest n Hr Hn. destruct n as [|n]; [simpl in Hn; lia|].
  simpl iterencode. pose proof (scan_number_repr z rest Hr) as Hs.
  destruct (int_repr_head z) as (c & tl & E & Hc). rewrite E in *. simpl app in *.
  rewrite scan_once_number by done. by rewrite Hs.
Qed.

Lemma roundtrips_str s : roundtrips (JStr s).
Proof.
  intros level rest n Hr Hn. destruct n as [|n]; [simpl in Hn; lia|].
  simpl iterencode. unfold encode_basestring_ascii.
  change (scan_once (S n) ((dquote :: flat_map escape_char (list_ascii_of_string s) ++ [dquote]) ++ rest))
    with (match scanstring ((flat_map escape_char (list_ascii_of_string s) ++ [dquote]) ++ rest) with
          | Some (body, r) => Some (JStr (string_of_list_ascii body), r)
          | None => None
          end).
  rewrite <- app_assoc. simpl. rewrite scanstring_escaped.
  by rewrite string_of_list_ascii_of_string.
Qed.

#[local] Arguments newline_indent : simpl never.
#[local] Arguments iterencode : simpl never.
#[local] Arguments scan_once : simpl never.
#[local] Arguments scan_items : simpl never.
#[local] Arguments scan_members : simpl never.

Lemma scan_items_eq m s :
  scan_items (S m) s
  = match scan_once m s with
    | Some (v, r) =>
        match skip_ws r with
        | d :: r' =>
            if (N_of_ascii d =? 93)%N then Some ([v], r')
            else if (N_of_ascii d =? 44)%N then
              match scan_items m (skip_ws r') with
              | Some (vs, r'') => Some (v :: vs, r'')
              | None => None
              end
            else None
        | [] => None
        end
    | None => None
    end.
Proof. reflexivity. Qed.

Lemma scan_items_last m s v r rest :
  scan_once m s = Some (v, r) → skip_ws r = lit "]" ++ rest →
  scan_items (S m) s = Some ([v], rest).
Proof. intros H1 H2. rewrite scan_items_eq, H1, H2. reflexivity. Qed.

Lemma scan_items_more m s v r r' vs rest :
  scan_once m s = Some (v, r) → skip_ws r = lit "," ++ r' →
  scan_items m (skip_ws r') = Some (vs, rest) →
  scan_items (S m) s = Some (v :: vs, rest).
Proof. intros H1 H2 H3. rewrite scan_items_eq, H1, H2. simpl. by rewrite H3. Qed.

Lemma scan_items_chunks level xs : ∀ x rest m,
  roundtrips x → Forall roundtrips xs →
  S (fuel_of x) + list_sum (map (fun y => S (fuel_of y)) xs) ≤ m →
  scan_items m
    (iterencode (S level) x
     ++ flat_map (fun c' => lit "," ++ newline_indent (S level) ++ c')
                 (map (iterencode (S level)) xs)
     ++ newline_indent level ++ lit "]" ++ rest)
  = Some (x :: xs, rest).
Proof.
  induction xs as [|y ys IH]; intros x rest m Hx HF Hm.
  - destruct m as [|m]; [lia|]. simpl in Hm. cbn [flat_map map app].
    eapply scan_items_last.
    + apply Hx; [done|lia].
    + apply skip_ws_newline_indent.
  - destruct m as [|m]; [lia|]. simpl in Hm.
    apply Forall_cons in HF as [Hy HF]. cbn [flat_map map]. rewrite <- !app_assoc.
    eapply scan_items_more.
    + apply Hx; [done|lia].
    + reflexivity.
    + rewrite skip_ws_newline_indent, skip_ws_value. apply IH; [done|done|lia].
Qed.

Lemma scan_once_array n s c tl items rest :
  skip_ws s = c :: tl → value_head c = true →
  scan_items n (c :: tl) = Some (items, rest) →
  scan_once (S n) (lit "[" ++ s) = Some (JArr items, rest).
Proof.
  intros Hs Hc Hi. unfold value_head in Hc. apply andb_true_iff in Hc as [_ Hc].
  apply negb_true_iff in Hc.
  change (scan_once (S n) (lit "[" ++ s))
    with (match skip_ws s with
          | d :: r =>
              if (N_of_ascii d =? 93)%N then Some (JArr [], r)
              else match scan_items n (d :: r) with
                   | Some (items, r') => Some (JArr items, r')
                   | None => None
                   end
          | [] => None
          end).
  by rewrite Hs, Hc, Hi.
Qed.

Lemma roundtrips_arr items : Forall roundtrips items → roundtrips (JArr items).
Proof.
  intros HF level rest n Hr Hn. destruct n as [|n]; [simpl in Hn; lia|].
  destruct items as [|x xs]; [reflexivity|].
  apply Forall_cons in HF as [Hx HF]. simpl in Hn.
  change (iterencode level (JArr (x :: xs)))
    with (lit "[" ++ newline_indent (S level) ++ iterencode (S level) x
          ++ flat_map (fun c' => lit "," ++ newline_indent (S level) ++ c')
                      (map (iterencode (S level)) xs)
          ++ newline_indent level ++ lit "]").
  rewrite <- !app_assoc.
  destruct (iterencode_head (S level) x) as (c & tl & E & Hc).
  eapply scan_once_array; [| exact Hc |].
  - rewrite skip_ws_newline_indent, skip_ws_value. rewrite E. reflexivity.
  - rewrite app_comm_cons, <- E. apply scan_items_chunks; [done|done|lia].
Qed.

Lemma scan_members_eq m s :
  scan_members (S m) s
  = match s with
    | q :: s1 =>
        if (N_of_ascii q =? 34)%N then
          match scanstring s1 with
          | Some (key, r) =>
              match skip_ws r with
              | colon :: r1 =>
                  if (N_of_ascii colon =? 58)%N then
                    match scan_once m (skip_ws r1) with
                    | Some (v, r2) =>
                        match skip_ws r2 with
                        | d :: r3 =>
                            if (N_of_ascii d =? 125)%N then
                              Some ([(string_of_list_ascii key, v)], r3)
                            else if (N_of_ascii d =? 44)%N then
                              match scan_members m (skip_ws r3) with
                              | Some (kvs, r4) =>
                                  Some ((string_of_list_ascii key, v) :: kvs, r4)
                              | None => None
                              end
                            else None
                        | [] => None
                        end
                    | None => None
                    end
                  else None
              | [] => None
              end
          | None => None
          end
        else None
    | [] => None
    end.
Proof. reflexivity. Qed.

Lemma scan_members_last m s1 key r1 v r2 rest :
  scanstring s1 = Some (key, lit ":" ++ r1) →
  scan_once m (skip_ws r1) = Some (v, r2) → skip_ws r2 = lit "}" ++ rest →
  scan_members (S m) (dquote :: s1) = Some ([(string_of_list_ascii key, v)], rest).
Proof.
  intros H1 H2 H3. rewrite scan_members_eq.
  change (N_of_ascii dquote =? 34)%N with true. cbv iota. rewrite H1.
  change (skip_ws (lit ":" ++ r1)) with (ascii_of_N 58 :: r1). cbv iota beta.
  change (N_of_ascii (ascii_of_N 58) =? 58)%N with true. cbv iota.
  rewrite H2, H3. reflexivity.
Qed.

Lemma scan_members_more m s1 key r1 v r2 r3 kvs rest :
  scanstring s1 = Some (key, lit ":" ++ r1) →
  scan_once m (skip_ws r1) = Some (v, r2) → skip_ws r2 = lit "," ++ r3 →
  scan_members m (skip_ws r3) = Some (kvs, rest) →
  scan_members (S m) (dquote :: s1) = Some ((string_of_list_ascii key, v) :: kvs, rest).
Proof.
  intros H1 H2 H3 H4. rewrite scan_members_eq.
  change (N_of_ascii dquote =? 34)%N with true. cbv iota. rewrite H1.
  change (skip_ws (lit ":" ++ r1)) with (ascii_of_N 58 :: r1). cbv iota beta.
  change (N_of_ascii (ascii_of_N 58) =? 58)%N with true. cbv iota.
  rewrite H2, H3.
  change (lit "," ++ r3) with (ascii_of_N 44 :: r3). cbv iota beta.
  change (N_of_ascii (ascii_of_N 44) =? 125)%N with false.
  change (N_of_ascii (ascii_of_N 44) =? 44)%N with true. cbv iota.
  by rewrite H4.
Qed.

Lemma member_chunk_shape level k x rest :
  member_chunk level (k, x) ++ rest
  = dquote :: flat_map escape_char (list_ascii_of_string k)
    ++ dquote :: lit ":" ++ lit " " ++ iterencode (S level) x ++ rest.
Proof.
  unfold member_chunk, encode_basestring_ascii. simpl. rewrite <- !app_assoc. reflexivity.
Qed.

Lemma scan_members_chunks level kvs : ∀ k x rest m,
  roundtrips x → Forall (fun kv => roundtrips kv.2) kvs →
  S (fuel_of x) + list_sum (map (fun kv => S (fuel_of kv.2)) kvs) ≤ m →
  scan_members m
    (member_chunk level (k, x)
     ++ flat_map (fun c' => lit "," ++ newline_indent (S level) ++ c')
                 (map (member_chunk level) kvs)
     ++ newline_indent level ++ lit "}" ++ rest)
  = Some ((k, x) :: kvs, rest).
Proof.
  induction kvs as [|[k' y] kvs IH]; intros k x rest m Hx HF Hm.
  - destruct m as [|m]; [lia|]. simpl in Hm. cbn [flat_map map app].
    rewrite member_chunk_shape.
    rewrite <- (string_of_list_ascii_of_string k) at 2.
    eapply scan_members_last.
    + apply scanstring_escaped.
    + simpl skip_ws. rewrite skip_ws_value. apply Hx; [done|lia].
    + apply skip_ws_newline_indent.
  - destruct m as [|m]; [lia|]. simpl in Hm.
    apply Forall_cons in HF as [Hy HF]. cbn [flat_map map]. rewrite <- !app_assoc.
    rewrite member_chunk_shape.
    rewrite <- (string_of_list_ascii_of_string k) at 2.
    eapply scan_members_more
      with (r3 := newline_indent (S level) ++ member_chunk level (k', y)
                  ++ flat_map (fun c' => lit "," ++ newline_indent (S level) ++ c')
                              (map (member_chunk level) kvs)
                  ++ newline_indent level ++ lit "}" ++ rest).
    + apply scanstring_escaped.
    + simpl skip_ws. rewrite skip_ws_value. apply Hx; [done|lia].
    + reflexivity.
    + rewrite skip_ws_newline_indent.
      assert (∀ s, skip_ws (member_chunk level (k', y) ++ s) = member_chunk level (k', y) ++ s)
        as -> by (intros s; by rewrite member_chunk_shape).
      apply IH; [done|done|lia].
Qed.

Lemma scan_once_object n s tl members rest :
  skip_ws s = dquote :: tl →
  scan_members n (dquote :: tl) = Some (members, rest) →
  scan_once (S n) (lit "{" ++ s) = Some (JObj members, rest).
Proof.
  intros Hs Hi.
  change (scan_once (S n) (lit "{" ++ s))
    with (match skip_ws s with
          | d :: r =>
              if (N_of_ascii d =? 125)%N then Some (JObj [], r)
              else match scan_members n (d :: r) with
                   | Some (members, r') => Some (JObj members, r')
                   | None => None
                   end
          | [] => None
          end).
  rewrite Hs. simpl. by rewrite Hi.
Qed.

Lemma roundtrips_obj members :
  Forall (fun kv => roundtrips kv.2) members → roundtrips (JObj members).
Proof.
  intros HF level rest n Hr Hn. destruct n as [|n]; [simpl in Hn; lia|].
  destruct members as [|[k x] kvs]; [reflexivity|].
  apply Forall_cons in HF as [Hx HF]. simpl in Hn, Hx.
  change (iterencode level (JObj ((k, x) :: kvs)))
    with (lit "{" ++ newline_indent (S level) ++ member_chunk level (k, x)
          ++ flat_map (fun c' => lit "," ++ newline_indent (S level) ++ c')
                      (map (member_chunk level) kvs)
          ++ newline_indent level ++ lit "}").
  rewrite <- !app_assoc.
  eapply scan_once_object.
  - rewrite skip_ws_newline_indent, member_chunk_shape. reflexivity.
  - rewrite <- member_chunk_shape. apply scan_members_chunks; [done|done|lia].
Qed.

Theorem scan_once_iterencode v : roundtrips v.
Proof.
  induction v using json_ind.
  - intros level rest [|n] Hr Hn; [simpl in Hn; lia|reflexivity].
  - intros level rest [|n] Hr Hn; [simpl in Hn; lia|]. by destruct b.
  - apply roundtrips_int.
  - apply roundtrips_str.
  - by apply roundtrips_arr.
  - by apply roundtrips_obj.
Qed.

Lemma int_repr_length z : 1 ≤ length (int_repr z).
Proof. destruct (int_repr_head z) as (c & tl & -> & _). simpl. lia. Qed.

Lemma newline_indent_length level : 1 ≤ length (newline_indent level).
Proof. unfold newline_indent. simpl. lia. Qed.

Lemma chunks_length {A} (weight : A → nat) (chunk : A → chars) level (l : list A) :
  Forall (fun a => weight a ≤ length (chunk a)) l →
  list_sum (map (fun a => S (weight a)) l)
  ≤ length (flat_map (fun c' => lit "," ++ newline_indent (S level) ++ c') (map chunk l)).
Proof.
  induction 1 as [|a l Ha _ IH]; [simpl; lia|].
  cbn [map flat_map]. rewrite !length_app.
  change (list_sum (S (weight a) :: map (fun a => S (weight a)) l))
    with (S (weight a) + list_sum (map (fun a => S (weight a)) l)).
  pose proof (newline_indent_length (S level)). lia.
Qed.

Lemma bracket_length {A} (weight : A → nat) (chunk : A → chars) opening closing level
    (l : list A) :
  Forall (fun a => weight a ≤ length (chunk a)) l →
  S (list_sum (map (fun a => S (weight a)) l))
  ≤ length (bracket (String opening EmptyString) (String closing EmptyString) level
                    (map chunk l)).
Proof.
  intros HF. unfold bracket. destruct HF as [|a l Ha HF]; [simpl; lia|].
  cbn [map]. rewrite !length_app.
  change (list_sum (S (weight a) :: map (fun a => S (weight a)) l))
    with (S (weight a) + list_sum (map (fun a => S (weight a)) l)).
  pose proof (chunks_length weight chunk level l HF).
  pose proof (newline_indent_length (S level)).
  change (length (lit (String opening EmptyString))) with 1. lia.
Qed.

Lemma fuel_le_length v : ∀ level, fuel_of v ≤ length (iterencode level v).
Proof.
  induction v using json_ind; intros level.
  - simpl. lia.
  - destruct b; simpl; lia.
  - apply int_repr_length.
  - unfold iterencode, encode_basestring_ascii. simpl. lia.
  - apply (bracket_length fuel_of (iterencode (S level)) "[" "]" level items).
    eapply Forall_impl; [exact H|]. intros x Hx. apply Hx.
  - apply (bracket_length (fun kv => fuel_of kv.2) (member_chunk level) "{" "}" level members).
    eapply Forall_impl; [exact H|]. intros [k x] Hx. unfold member_chunk.
    rewrite !length_app. specialize (Hx (S level)). simpl in *. lia.
Qed.

Theorem loads_dumps_indent2 v : loads (dumps_indent2 v) = Some v.
Proof.
  unfold loads, dumps_indent2. rewrite list_ascii_of_string_of_list_ascii.
  pose proof (fuel_le_length v 0) as Hn.
  pose proof (skip_ws_value 0 v []) as Hs. rewrite app_nil_r in Hs. rewrite Hs.
  pose proof (scan_once_iterencode v 0 [] (S (length (iterencode 0 v))) eq_refl) as H.
  rewrite app_nil_r in H. rewrite H by lia. reflexivity.
Qed.

End RoundTrip.

(** ** The manifest *)

Lemma write_file_Ok p content w w' :
  write_file p content w = (Ok tt, w') → fs w' = <[p := File content]> (fs w).
Proof. unfold write_file. intros H. by repeat case_match; simplify_eq. Qed.

Lemma open_write_json_Ok env p v w w' :
  open_write_json env p v w = (Ok tt, w') → fs w' = <[p := File (dumps_indent2 v)]> (fs w).
Proof.
  unfold open_write_json, call. destruct (fault env (AtOpenWrite p)); [done|].
  apply write_file_Ok.
Qed.

(** A copy step that succeeds leaves the text of the manifest in place. *)
Lemma copy_files_writes_manifest env u d update w files w' :
  _copy_plugin_files env u d update w = (Ok (Copied files), w') →
  fs w' !! joinpath d "plugin_metadata.json"
  = Some (File (dumps_indent2 (manifest env u))).
Proof.
  intros H. apply try_except_inv in H as [(a & H & [= <-])|(e & w1 & _ & H)].
  - cbv zeta in H.
    apply bind_Ok_inv in H as (c1 & w1 & _ & H).
    apply bind_Ok_inv in H as (c2 & w2 & _ & H).
    apply bind_Ok_inv in H as ([] & w3 & Hw & H).
    apply bind_Ok_inv in H as ([] & w4 & Hl & H).
    injection H as _ <-. rewrite logger_run in Hl. injection Hl as <-. simpl.
    rewrite (open_write_json_Ok _ _ _ _ _ Hw). apply lookup_insert_eq.
  - apply bind_Ok_inv in H as ([] & w2 & _ & H). by injection H.
Qed.

Lemma manifest_user env u :
  Json.get "installed_for_user" (manifest env u) = Some (JStr u).
Proof. reflexivity. Qed.

Lemma manifest_modules env u :
  Json.get "module_data" (manifest env u) = Some (JArr MODULE_DATA).
Proof. reflexivity. Qed.

Lemma differs_from_same u : differs_from u (Some (JStr u)) = false.
Proof. simpl. by rewrite String.eqb_refl. Qed.

(** The validation of a directory that holds [package.json] and the
    manifest of the user, when no call of the validation is made to
    raise. *)
Lemma validate_written_manifest env u d w :
  fs w !! joinpath d "plugin_metadata.json" = Some (File (dumps_indent2 (manifest env u))) →
  path_exists (fs w) (joinpath d "package.json") = true →
  fault env (AtExists (joinpath d "package.json")) = None →
  fault env (AtExists (joinpath d "plugin_metadata.json")) = None →
  fault env (AtOpenRead (joinpath d "plugin_metadata.json")) = None →
  _validate_installation env u d w = (Ok Valid, w).
Proof.
  intros Hm Hp He1 He2 Hr.
  assert (path_exists (fs w) (joinpath d "plugin_metadata.json") = true) as Hpm.
  { rewrite joinpath_relative by reflexivity. rewrite joinpath_relative in Hm by reflexivity.
    rewrite path_exists_lookup by by destruct d. apply bool_decide_eq_true. by rewrite Hm. }
  unfold _validate_installation, required_files, try_except, try_except_decode.
  cbn [for_each]. unfold mbind, M_bind, bind, exists_, open_read_json, json_load, call.
  rewrite He1, He2, Hr. cbv beta iota zeta delta [mret M_ret ret].
  rewrite Hp. cbv beta iota zeta. rewrite Hpm. cbv beta iota zeta.
  rewrite Hm, loads_dumps_indent2. cbv beta iota zeta delta [metadata_get manifest mret M_ret ret].
  change (assoc_last "installed_for_user" _) with (Some (JStr u)).
  by rewrite differs_from_same.
Qed.

(** C8: after a copy step that succeeded for the user, the manifest file
    is there, its text decodes, the decoded value holds the user under
    [installed_for_user] and under [module_data] a list as long as the
    static module list.  The user-id check of the validation passes on
    it; with [package.json] copied and no call of the validation made to
    raise, the validation of any world with this directory tree, such as
    the one after the insert of the records, answers valid. *)
Theorem manifest_round_trip env u d update w files w' :
  _copy_plugin_files env u d update w = (Ok (Copied files), w') →
  ∃ content metadata items,
    fs w' !! joinpath d "plugin_metadata.json" = Some (File content)
    ∧ loads content = Some metadata
    ∧ Json.get "installed_for_user" metadata = Some (JStr u)
    ∧ Json.get "module_data" metadata = Some (JArr items)
    ∧ length items = length MODULE_DATA
    ∧ differs_from u (Json.get "installed_for_user" metadata) = false
    ∧ ∀ w2, fs w2 = fs w' →
        path_exists (fs w2) (joinpath d "package.json") = true →
        fault env (AtExists (joinpath d "package.json")) = None →
        fault env (AtExists (joinpath d "plugin_metadata.json")) = None →
        fault env (AtOpenRead (joinpath d "plugin_metadata.json")) = None →
        _validate_installation env u d w2 = (Ok Valid, w2).
Proof.
  intros H. apply copy_files_writes_manifest in H.
  exists (dumps_indent2 (manifest env u)), (manifest env u), MODULE_DATA.
  split; [exact H|]. split; [apply loads_dumps_indent2|].
  split; [apply manifest_user|]. split; [apply manifest_modules|]. split; [done|].
  split; [rewrite manifest_user; apply differs_from_same|].
  intros w2 Hfs Hp He1 He2 Hr. apply validate_written_manifest; try done. by rewrite Hfs.
Qed.

Lemma manifest_round_trip_witness :
  ∃ files w' content metadata items,
    _copy_plugin_files (sample_env quiet) "alice" alice_dir false directory_world
    = (Ok (Copied files), w')
    ∧ fs w' !! joinpath alice_dir "plugin_metadata.json" = Some (File content)
    ∧ loads content = Some metadata
    ∧ Json.get "installed_for_user" metadata = Some (JStr "alice")
    ∧ Json.get "module_data" metadata = Some (JArr items)
    ∧ length items = length MODULE_DATA
    ∧ _validate_installation (sample_env quiet) "alice" alice_dir w' = (Ok Valid, w').
Proof.
  assert (returned is_copied
            (_copy_plugin_files (sample_env quiet) "alice" alice_dir false directory_world)
          = true) as Hr by (vm_compute; reflexivity).
  destruct (_copy_plugin_files (sample_env quiet) "alice" alice_dir false directory_world)
    as [[[files|err]|e] w'] eqn:H; try discriminate Hr.
  assert (path_exists (fs w') (joinpath alice_dir "package.json") = true) as Hp.
  { change w' with (Ok (Copied files), w').2. rewrite <- H. vm_compute. reflexivity. }
  destruct (manifest_round_trip (sample_env quiet) "alice" alice_dir false directory_world
              files w' H)
    as (content & metadata & items & Hm & Hl & Hu & Hmd & Hlen & _ & Hv).
  exists files, w', content, metadata, items.
  split; [reflexivity|]. split; [exact Hm|]. split; [exact Hl|]. split; [exact Hu|].
  split; [exact Hmd|]. split; [exact Hlen|].
  exact (Hv w' eq_refl Hp eq_refl eq_refl eq_refl).
Defined.

(** ** Further properties of the operations *)

Lemma execute_Ok env {A} stmt (run : Store → result A * Store) w a w' :
  execute env stmt run w = (Ok a, w') →
  ∃ st', run (pending (db w)) = (Ok a, st') ∧ w' = set_pending st' w.
Proof.
  unfold execute, call. destruct (fault env (AtExecute stmt)); [done|].
  destruct (run _) as [r st']. intros [= -> <-]. eauto.
Qed.

Lemma insert_plugin_Ok refusal id row st st' :
  insert_plugin refusal id row st = (Ok tt, st') →
  plugin_table st !! id = None
  ∧ st' = mkStore (<[id := row]> (plugin_table st)) (module_table st).
Proof. unfold insert_plugin. destruct (plugin_table st !! id); [done|]. by intros [= <-]. Qed.

Lemma insert_module_Ok refusal id row st st' :
  insert_module refusal id row st = (Ok tt, st') →
  module_table st !! id = None
  ∧ st' = mkStore (plugin_table st) (<[id := row]> (module_table st)).
Proof. unfold insert_module. destruct (module_table st !! id); [done|]. by intros [= <-]. Qed.

Lemma plugin_row_owned u pid t : owned_by plugin_slug u (plugin_row_params u pid t) = true.
Proof.
  unfold owned_by, column_is.
  assert (plugin_row_params u pid t !! "user_id" = Some (JStr u)) as -> by reflexivity.
  assert (plugin_row_params u pid t !! "plugin_slug" = Some (JStr plugin_slug)) as ->
    by reflexivity.
  by rewrite !String.eqb_refl.
Qed.

Lemma module_row_of u pid mid t md : module_of pid u (module_row_params u pid mid t md) = true.
Proof.
  unfold module_of, column_is.
  assert (module_row_params u pid mid t md !! "user_id" = Some (JStr u)) as -> by reflexivity.
  assert (module_row_params u pid mid t md !! "plugin_id" = Some (JStr pid)) as ->
    by reflexivity.
  by rewrite !String.eqb_refl.
Qed.

Lemma create_records_Ok env u w pid mods w' :
  _create_database_records env u w = (Ok (Created pid mods), w') →
  pid = plugin_id_of u ∧ mods = [module_id_of u the_module]
  ∧ plugin_table (pending (db w)) !! plugin_id_of u = None
  ∧ module_table (pending (db w)) !! module_id_of u the_module = None
  ∧ fs w' = fs w
  ∧ committed (db w') = committed (db w)
  ∧ pending (db w') = with_records env u (pending (db w)).
Proof.
  intros H. apply try_except_inv in H as [(a & H & [= <-])|(e & w1 & _ & H)].
  2:{ apply bind_Ok_inv in H as ([] & w2 & _ & H). by injection H. }
  cbv zeta in H. unfold MODULE_DATA in H. cbn [for_each] in H.
  apply bind_Ok_inv in H as ([] & w1 & H1 & H).
  apply bind_Ok_inv in H as (ms & w2 & H2 & H).
  apply bind_Ok_inv in H2 as (ms' & w3 & H2 & H3).
  apply bind_Ok_inv in H2 as ([] & w4 & H2 & H4).
  injection H4 as <- <-. injection H3 as <- <-.
  apply bind_Ok_inv in H as ([] & w5 & Hl & H). rewrite logger_run in Hl.
  injection Hl as <-. injection H as <- <- <-.
  apply execute_Ok in H1 as (st1 & Hi1 & ->).
  apply insert_plugin_Ok in Hi1 as [Hn1 ->].
  apply execute_Ok in H2 as (st2 & Hi2 & ->).
  apply insert_module_Ok in Hi2 as [Hn2 ->].
  simpl in Hn2. repeat split; done.
Qed.

Lemma check_existing_NotExisting env u w oe w1 :
  _check_existing_plugin env u w = (Ok (NotExisting oe), w1) →
  fault env (AtExecute SelectPlugin) = None →
  found_plugin u (pending (db w)) = None.
Proof.
  intros H Hf. destruct (found_plugin u (pending (db w))) as [[id row]|] eqn:E; [|done].
  by rewrite (check_existing_found _ _ _ _ _ Hf E) in H.
Qed.

Lemma commit_Ok env w w' :
  commit env w = (Ok tt, w') →
  fs w' = fs w ∧ committed (db w') = pending (db w) ∧ pending (db w') = pending (db w).
Proof. unfold commit, call. destruct (fault env AtCommit); [done|]. by intros [= <-]. Qed.

Lemma install_success_inv env u w pid slug mods directory w' :
  install_plugin env u w = (Ok (Installed pid slug mods directory), w') →
  pid = plugin_id_of u ∧ slug = plugin_slug ∧ mods = [module_id_of u the_module]
  ∧ directory = str_path (user_plugin_dir env u)
  ∧ fs w' !! user_plugin_dir env u = Some Dir
  ∧ fs w' !! manifest_path (user_plugin_dir env u)
    = Some (File (dumps_indent2 (manifest env u)))
  ∧ plugin_table (pending (db w)) !! plugin_id_of u = None
  ∧ module_table (pending (db w)) !! module_id_of u the_module = None
  ∧ committed (db w') = with_records env u (pending (db w))
  ∧ pending (db w') = with_records env u (pending (db w))
  ∧ (fault env (AtExecute SelectPlugin) = None → found_plugin u (pending (db w)) = None).
Proof.
  intros H.
  apply try_except_inv in H as [(a & H & [= <-])|(e & w1 & _ & H)].
  2:{ apply bind_Ok_inv in H as ([] & w2 & _ & H).
      apply bind_Ok_inv in H as ([] & w3 & _ & H). by injection H. }
  apply bind_Ok_inv in H as ([] & w0 & Hl & H). rewrite logger_run in Hl. injection Hl as <-.
  apply bind_Ok_inv in H as (c & w1 & Hc & H).
  pose proof (check_existing_same_db _ _ _ _ _ Hc) as Hdb1. unfold same_db in Hdb1.
  simpl in Hdb1.
  destruct c as [id info|oe]; [by injection H|].
  assert (fault env (AtExecute SelectPlugin) = None → found_plugin u (pending (db w)) = None)
    as Hfound.
  { intros Hf. by apply (check_existing_NotExisting _ _ _ _ _ Hc Hf). }
  unfold install_missing in H.
  apply bind_Ok_inv in H as (od & w2 & Hd & H).
  pose proof (create_directory_same_db _ _ _ _ _ Hd) as Hdb2. unfold same_db in Hdb2.
  destruct od as [d|]; [|by injection H].
  apply create_directory_post in Hd as [-> Hdir2].
  apply bind_Ok_inv in H as (cr & w3 & Hcp & H).
  pose proof (copy_files_same_db _ _ _ _ _ _ _ Hcp) as Hdb3. unfold same_db in Hdb3.
  pose proof (copy_files_still_dir _ _ _ _ _ _ _ Hcp Hdir2) as Hdir3.
  destruct cr as [files|error].
  2:{ apply bind_Ok_inv in H as ([] & w4 & _ & H). by injection H. }
  pose proof (copy_files_writes_manifest _ _ _ _ _ _ _ Hcp) as Hman.
  apply bind_Ok_inv in H as (dr & w4 & Hcr & H).
  destruct dr as [plugin_id created|error].
  2:{ apply bind_Ok_inv in H as ([] & w5 & _ & H). by injection H. }
  apply create_records_Ok in Hcr as (-> & -> & Hn1 & Hn2 & Hfs4 & Hc4 & Hp4).
  apply bind_Ok_inv in H as (v & w5 & Hv & H).
  pose proof (validate_same_fs _ _ _ _ _ _ Hv) as Hfs5. unfold same_fs in Hfs5.
  pose proof (validate_same_db _ _ _ _ _ _ Hv) as Hdb5. unfold same_db in Hdb5.
  destruct v as [|error].
  2:{ apply bind_Ok_inv in H as ([] & w6 & _ & H).
      apply bind_Ok_inv in H as ([] & w7 & _ & H). by injection H. }
  apply bind_Ok_inv in H as ([] & w6 & Hcm & H).
  apply commit_Ok in Hcm as (Hfs6 & Hc6 & Hp6).
  apply bind_Ok_inv in H as ([] & w7 & Hl & H). rewrite logger_run in Hl. injection Hl as <-.
  injection H as <- <- <- <- <-. simpl.
  rewrite Hfs6, Hfs5, Hfs4, Hc6, Hp6, Hdb5, Hp4, Hdb3, Hdb2, Hdb1.
  rewrite Hdb3, Hdb2, Hdb1 in Hn1, Hn2.
  repeat split; done.
Qed.

Lemma filter_permutation {A} (f : A → bool) (l l' : list A) :
  l ≡ₚ l' → List.filter f l ≡ₚ List.filter f l'.
Proof.
  induction 1 as [|x l l' _ IH|x y l|l l' l'' _ IH1 _ IH2]; simpl.
  - done.
  - destruct (f x); [by constructor|done].
  - destruct (f x), (f y); try done. apply perm_swap.
  - by etrans.
Qed.

Lemma filter_cons_true {A} (f : A → bool) x l :
  f x = true → List.filter f (x :: l) = x :: List.filter f l.
Proof. simpl. by intros ->. Qed.

Lemma found_plugin_after_records env u st :
  found_plugin u st = None → plugin_table st !! plugin_id_of u = None →
  found_plugin u (with_records env u st)
  = Some (plugin_id_of u, plugin_row_params u (plugin_id_of u) (now_strftime env)).
Proof.
  intros Hnone Hfresh. unfold found_plugin in *. cbn [with_records plugin_table].
  destruct (List.filter _ (map_to_list (plugin_table st))) as [|x l] eqn:E; [|done].
  set (row := plugin_row_params _ _ _).
  assert (List.filter (fun kv : string * Row => owned_by plugin_slug u kv.2)
            (map_to_list (<[plugin_id_of u := row]> (plugin_table st)))
          ≡ₚ [(plugin_id_of u, row)]) as Hp.
  { rewrite (filter_permutation _ _ _ (map_to_list_insert _ _ _ Hfresh)).
    rewrite filter_cons_true by apply plugin_row_owned. by rewrite E. }
  apply Permutation_singleton_r in Hp. by rewrite Hp.
Qed.

Lemma module_rows_after_records env u st :
  module_table st !! module_id_of u the_module = None →
  length (module_rows u (plugin_id_of u) (with_records env u st))
  = S (length (module_rows u (plugin_id_of u) st)).
Proof.
  intros Hfresh. unfold module_rows. cbn [with_records module_table].
  rewrite (filter_permutation _ _ _ (map_to_list_insert _ _ _ Hfresh)).
  rewrite filter_cons_true by apply module_row_of. reflexivity.
Qed.

(** X1: what a successful install leaves.  When install reports success,
    the reported plugin id is the user id followed by [_BrainDriveNetwork],
    the reported slug, module ids and directory are those of the user, the
    plugin directory of the user is a directory, the manifest in it
    decodes and names the user, the session has no open change left, and
    the committed store holds the plugin row and the module row, both
    owned by the user. *)
Theorem install_success_state env u w pid slug mods directory w' :
  install_plugin env u w = (Ok (Installed pid slug mods directory), w') →
  pid = u +:+ "_BrainDriveNetwork"
  ∧ slug = "BrainDriveNetwork"
  ∧ mods = [u +:+ "_BrainDriveNetwork_ComponentNetworkStatus"]
  ∧ directory = str_path (user_plugin_dir env u)
  ∧ fs w' !! user_plugin_dir env u = Some Dir
  ∧ (∃ content metadata,
       fs w' !! joinpath (user_plugin_dir env u) "plugin_metadata.json" = Some (File content)
       ∧ loads content = Some metadata
       ∧ Json.get "installed_for_user" metadata = Some (JStr u))
  ∧ pending (db w') = committed (db w')
  ∧ (∃ row, plugin_table (committed (db w')) !! pid = Some row
            ∧ owned_by plugin_slug u row = true)
  ∧ (∃ row, module_table (committed (db w'))
              !! (u +:+ "_BrainDriveNetwork_ComponentNetworkStatus") = Some row
            ∧ module_of pid u row = true).
Proof.
  intros H.
  apply install_success_inv in H
    as (-> & -> & -> & -> & Hdir & Hman & _ & _ & Hc & Hp & _).
  split; [reflexivity|]. split; [reflexivity|]. split; [reflexivity|]. split; [reflexivity|].
  split; [exact Hdir|]. split.
  { eexists _, _. split; [exact Hman|]. split; [apply loads_dumps_indent2|reflexivity]. }
  split; [by rewrite Hp, Hc|]. rewrite Hc. split.
  - eexists. split; [apply lookup_insert_eq|apply plugin_row_owned].
  - eexists. split; [apply (lookup_insert_eq (module_table _))|apply module_row_of].
Qed.

Lemma install_success_state_witness :
  ∃ pid slug mods directory w',
    install_plugin (sample_env quiet) "alice" fresh_world
    = (Ok (Installed pid slug mods directory), w')
    ∧ pid = "alice_BrainDriveNetwork"
    ∧ fs w' !! user_plugin_dir (sample_env quiet) "alice" = Some Dir
    ∧ pending (db w') = committed (db w').
Proof.
  assert (returned is_installed (install_plugin (sample_env quiet) "alice" fresh_world) = true)
    as Hr by (vm_compute; reflexivity).
  destruct (install_plugin (sample_env quiet) "alice" fresh_world)
    as [[[? ? ?|pid slug mods directory]|e] w'] eqn:H; try discriminate Hr.
  destruct (install_success_state (sample_env quiet) "alice" fresh_world pid slug mods
              directory w' H) as (Hpid & _ & _ & _ & Hdir & _ & Hp & _).
  exists pid, slug, mods, directory, w'.
  split; [reflexivity|]. split; [exact Hpid|]. split; [exact Hdir|exact Hp].
Defined.

(** X2: status after install.  After a successful install, for which the
    plugin query answered and before which no module row of the plugin
    was around, the status of the same user in the world that install
    left is healthy, with one module of one expected, provided that the
    two queries and the directory probe of the status answer. *)
Theorem install_then_status_healthy env env' u w pid slug mods directory w' :
  install_plugin env u w = (Ok (Installed pid slug mods directory), w') →
  fault env (AtExecute SelectPlugin) = None →
  module_rows u (u +:+ "_BrainDriveNetwork") (pending (db w)) = [] →
  plugins_base_dir env' = plugins_base_dir env →
  fault env' (AtExecute SelectPlugin) = None →
  fault env' (AtExists (user_plugin_dir env' u)) = None →
  fault env' (AtExecute SelectModules) = None →
  ∃ info ms w'',
    get_plugin_status env' u w'
    = (Ok (StatusReport "healthy" pid info true ms directory), w'')
    ∧ actual_count ms = 1 ∧ expected_count ms = 1 ∧ all_loaded ms = true.
Proof.
  intros H Hf Hstale Hbase Hf1 Hf2 Hf3.
  apply install_success_inv in H
    as (-> & -> & -> & -> & Hdir & _ & Hn1 & Hn2 & _ & Hp & Hfound).
  specialize (Hfound Hf).
  assert (user_plugin_dir env' u = user_plugin_dir env u) as Hd
    by (unfold user_plugin_dir; by rewrite Hbase).
  pose proof (found_plugin_after_records env u _ Hfound Hn1) as Hrow. rewrite <- Hp in Hrow.
  destruct (status_found_run env' u w' _ _ Hf1 Hrow Hf2) as (ms & w'' & Hs & Hl & Hc).
  destruct (Hc Hf3) as [Ha He].
  rewrite Hp, module_rows_after_records in Ha by done.
  change (plugin_id_of u) with (u +:+ "_BrainDriveNetwork") in Ha. rewrite Hstale in Ha.
  simpl in Ha.
  assert (path_exists (fs w') (user_plugin_dir env' u) = true) as Hex.
  { rewrite Hd, path_exists_lookup by apply user_plugin_dir_nonempty.
    apply bool_decide_eq_true. by rewrite Hdir. }
  rewrite Hex, Hd in Hs. rewrite Ha in Hl. simpl in Hl. rewrite Hl in Hs.
  exists (plugin_info_of (plugin_id_of u)
            (plugin_row_params u (plugin_id_of u) (now_strftime env))), ms, w''.
  split; [exact Hs|]. split; [exact Ha|]. split; [exact He|exact Hl].
Qed.

Lemma install_then_status_healthy_witness :
  ∃ pid slug mods directory w' info ms w'',
    install_plugin (sample_env quiet) "alice" fresh_world
    = (Ok (Installed pid slug mods directory), w')
    ∧ module_rows "alice" "alice_BrainDriveNetwork" (pending (db fresh_world)) = []
    ∧ get_plugin_status (sample_env quiet) "alice" w'
      = (Ok (StatusReport "healthy" pid info true ms directory), w'').
Proof.
  assert (returned is_installed (install_plugin (sample_env quiet) "alice" fresh_world) = true)
    as Hr by (vm_compute; reflexivity).
  assert (module_rows "alice" "alice_BrainDriveNetwork" (pending (db fresh_world)) = [])
    as Hstale by (vm_compute; reflexivity).
  destruct (install_plugin (sample_env quiet) "alice" fresh_world)
    as [[[? ? ?|pid slug mods directory]|e] w'] eqn:H; try discriminate Hr.
  destruct (install_then_status_healthy (sample_env quiet) (sample_env quiet) "alice"
              fresh_world pid slug mods directory w' H eq_refl Hstale eq_refl eq_refl
              eq_refl eq_refl) as (info & ms & w'' & Hs & _).
  exists pid, slug, mods, directory, w', info, ms, w''.
  split; [reflexivity|]. split; [exact Hstale|exact Hs].
Defined.

(** *** Delete *)

Lemma filter_none {A} (f : A → bool) (l : list A) :
  (∀ x, x ∈ l → f x = false) → List.filter f l = [].
Proof.
  induction l as [|x l IH]; [done|]. intros H. simpl.
  rewrite (H x) by by left. apply IH. intros y Hy. apply H. by right.
Qed.

Lemma filter_nil_none {A} (f : A → bool) (l : list A) x :
  List.filter f l = [] → x ∈ l → f x = false.
Proof.
  intros Hl Hx. destruct (f x) eqn:E; [|done].
  assert (In x (List.filter f l)) as Hin by (apply filter_In; split; [by apply list_elem_of_In|done]).
  by rewrite Hl in Hin.
Qed.

(** [rowcount] of the module delete is the number of rows that the module
    query lists. *)
Lemma size_filter_rows (f : Row → bool) (m : gmap string Row) :
  size (filter (fun kv : string * Row => f kv.2 = true) m)
  = length (List.filter (fun kv : string * Row => f kv.2) (map_to_list m)).
Proof.
  induction m as [|i x m Hi _ IH] using map_first_key_ind.
  - by rewrite map_filter_empty, map_size_empty, map_to_list_empty.
  - rewrite (filter_permutation _ _ _ (map_to_list_insert _ _ _ Hi)).
    rewrite map_filter_insert. simpl. case_decide as Hf; simpl in Hf.
    + rewrite Hf. simpl. rewrite map_size_insert_None; [by rewrite IH|].
      apply map_lookup_filter_None. by left.
    + apply not_true_is_false in Hf. rewrite Hf. rewrite delete_id by done. exact IH.
Qed.

Lemma check_existing_Existing env u w id info w1 :
  _check_existing_plugin env u w = (Ok (Existing id info), w1) →
  ∃ row, found_plugin u (pending (db w)) = Some (id, row)
         ∧ info = plugin_info_of id row ∧ w1 = w.
Proof.
  intros H. apply try_except_inv in H as [(a & H & [= <-])|(e & w2 & _ & H)].
  - apply bind_Ok_inv in H as (rows & w2 & He & H).
    apply execute_Ok in He as (st' & Hs & ->). unfold select_plugin in Hs.
    injection Hs as <- <-. rewrite set_pending_same in H. unfold found_plugin.
    destruct (List.filter _ _) as [|[id' row'] rest]; [by injection H|].
    injection H as <- <- <-. eauto.
  - apply bind_Ok_inv in H as ([] & w3 & _ & H). by injection H.
Qed.

Lemma delete_records_Ok env u pid w n w' :
  _delete_database_records env u pid w = (Ok (RecordsDeleted n), w') →
  (∃ row, plugin_table (pending (db w)) !! pid = Some row
          ∧ column_is "user_id" u row = true)
  ∧ fs w' = fs w
  ∧ committed (db w') = committed (db w)
  ∧ pending (db w') = without_records u pid (pending (db w))
  ∧ n = length (module_rows u pid (pending (db w))).
Proof.
  intros H. apply try_except_inv in H as [(a & H & [= <-])|(e & w1 & _ & H)].
  2:{ apply bind_Ok_inv in H as ([] & w2 & _ & H). by injection H. }
  apply bind_Ok_inv in H as (deleted & w1 & H1 & H).
  apply bind_Ok_inv in H as (rowcount & w2 & H2 & H).
  apply execute_Ok in H1 as (st1 & Hs1 & ->). unfold delete_modules in Hs1.
  injection Hs1 as <- <-.
  apply execute_Ok in H2 as (st2 & Hs2 & ->). unfold delete_plugin_row in Hs2.
  cbn [set_pending set_db db pending plugin_table module_table] in Hs2.
  destruct (plugin_table (pending (db w)) !! pid) as [row|] eqn:E.
  2:{ injection Hs2 as <- <-. by injection H. }
  destruct (column_is "user_id" u row) eqn:Hu.
  2:{ injection Hs2 as <- <-. by injection H. }
  injection Hs2 as <- <-. cbn [Nat.eqb] in H.
  apply bind_Ok_inv in H as ([] & w3 & Hl & H). rewrite logger_run in Hl.
  injection Hl as <-. injection H as <- <-.
  split; [eauto|]. split; [done|]. split; [done|]. split; [done|].
  apply size_filter_rows.
Qed.

Lemma module_rows_without u pid st : module_rows u pid (without_records u pid st) = [].
Proof.
  unfold module_rows, without_records. cbn [module_table]. apply filter_none.
  intros [i x] Hx. apply elem_of_map_to_list, map_lookup_filter_Some in Hx as [_ Hx].
  simpl in *. by apply not_true_is_false.
Qed.

Lemma delete_success_inv env u w pid n w' :
  delete_plugin env u w = (Ok (PluginDeleted pid n), w') →
  (∃ row, found_plugin u (pending (db w)) = Some (pid, row))
  ∧ committed (db w') = without_records u pid (pending (db w))
  ∧ pending (db w') = without_records u pid (pending (db w))
  ∧ n = length (module_rows u pid (pending (db w)))
  ∧ ∃ w1 w2, fs w1 = fs w ∧ fs w' = fs w2
      ∧ _cleanup_user_directory env (user_plugin_dir env u) w1 = (Ok tt, w2).
Proof.
  intros H.
  apply try_except_inv in H as [(a & H & [= <-])|(e & w1 & _ & H)].
  2:{ apply bind_Ok_inv in H as ([] & w2 & _ & H).
      apply bind_Ok_inv in H as ([] & w3 & _ & H). by injection H. }
  apply bind_Ok_inv in H as ([] & w0 & Hl & H). rewrite logger_run in Hl. injection Hl as <-.
  apply bind_Ok_inv in H as (c & w1 & Hc & H).
  destruct c as [id info|oe]; [|by injection H].
  apply check_existing_Existing in Hc as (row & Hrow & -> & ->). simpl in Hrow.
  unfold delete_existing in H.
  apply bind_Ok_inv in H as (dr & w2 & Hd & H).
  destruct dr as [deleted|error]; [|by injection H].
  apply delete_records_Ok in Hd as (_ & Hfs2 & Hc2 & Hp2 & Hn). simpl in *.
  apply bind_Ok_inv in H as ([] & w3 & Hcl & H).
  pose proof (cleanup_same_db _ _ _ _ _ Hcl) as Hdb3. unfold same_db in Hdb3.
  apply bind_Ok_inv in H as ([] & w4 & Hcm & H).
  apply commit_Ok in Hcm as (Hfs4 & Hc4 & Hp4).
  apply bind_Ok_inv in H as ([] & w5 & Hl & H). rewrite logger_run in Hl. injection Hl as <-.
  injection H as <- <- <-. simpl.
  split; [eauto|]. rewrite Hc4, Hp4, Hdb3, Hp2.
  split; [done|]. split; [done|]. split; [done|].
  exists w2, w3. by rewrite Hfs4.
Qed.

(** X3: what a successful delete leaves.  When delete reports success,
    the plugin row it names was there and owned by the user, the reported
    count is the number of module rows of that plugin and user, the
    session has no open change left, the committed store holds neither
    the plugin row nor any module row of the plugin and user, every other
    plugin row and every module row of another plugin or user is as in
    the pending store before, and the plugin directory is gone when it was
    a directory and the probe and the removal were not made to fail. *)
Theorem delete_success_state env u w pid n w' :
  delete_plugin env u w = (Ok (PluginDeleted pid n), w') →
  (∃ row, plugin_table (pending (db w)) !! pid = Some row
          ∧ owned_by plugin_slug u row = true)
  ∧ n = length (module_rows u pid (pending (db w)))
  ∧ pending (db w') = committed (db w')
  ∧ plugin_table (committed (db w')) !! pid = None
  ∧ module_rows u pid (committed (db w')) = []
  ∧ (∀ id, id ≠ pid →
       plugin_table (committed (db w')) !! id = plugin_table (pending (db w)) !! id)
  ∧ (∀ id row, module_of pid u row = false →
       module_table (pending (db w)) !! id = Some row →
       module_table (committed (db w')) !! id = Some row)
  ∧ (fault env (AtExists (user_plugin_dir env u)) = None →
     fault env (AtRmtree (user_plugin_dir env u)) = None →
     fs w !! user_plugin_dir env u = Some Dir →
     absent (user_plugin_dir env u) (fs w')).
Proof.
  intros H. apply delete_success_inv in H
    as ((row & Hrow) & Hc & Hp & Hn & w1 & w2 & Hfs1 & Hfs2 & Hcl).
  apply found_plugin_row in Hrow as [Hrow Hown].
  split; [eauto|]. split; [exact Hn|]. split; [by rewrite Hp, Hc|]. rewrite Hc.
  split; [apply lookup_delete_eq|]. split; [apply module_rows_without|].
  split; [intros id Hid; by apply lookup_delete_ne|]. split.
  - intros id mrow Hm Hl. cbn [without_records module_table].
    apply map_lookup_filter_Some. split; [done|]. simpl. by rewrite Hm.
  - intros He Hr Hd. rewrite <- Hfs1 in Hd.
    destruct (cleanup_after _ _ _ _ Hcl Hd) as [_ Habs]. rewrite Hfs2. by apply Habs.
Qed.

Lemma delete_success_state_witness :
  ∃ pid n w',
    delete_plugin (sample_env quiet) "alice" installed_world = (Ok (PluginDeleted pid n), w')
    ∧ plugin_table (committed (db w')) !! pid = None
    ∧ module_rows "alice" pid (committed (db w')) = []
    ∧ absent (user_plugin_dir (sample_env quiet) "alice") (fs w').
Proof.
  assert (returned (fun r => match r with PluginDeleted _ _ => true | _ => false end)
            (delete_plugin (sample_env quiet) "alice" installed_world) = true) as Hr
    by (vm_compute; reflexivity).
  assert (fs installed_world !! user_plugin_dir (sample_env quiet) "alice" = Some Dir) as Hd
    by (vm_compute; reflexivity).
  destruct (delete_plugin (sample_env quiet) "alice" installed_world)
    as [[[? ?|pid n]|e] w'] eqn:H; try discriminate Hr.
  destruct (delete_success_state (sample_env quiet) "alice" installed_world pid n w' H)
    as (_ & _ & _ & Hp & Hm & _ & _ & Habs).
  exists pid, n, w'. split; [reflexivity|]. split; [exact Hp|]. split; [exact Hm|].
  exact (Habs eq_refl eq_refl Hd).
Defined.

(** The run of delete when the check finds the row and nothing is made to
    raise. *)
Lemma delete_plugin_run env u w id row :
  fault env (AtExecute SelectPlugin) = None →
  found_plugin u (pending (db w)) = Some (id, row) →
  fault env (AtExecute DeleteModules) = None →
  fault env (AtExecute DeletePlugin) = None →
  fault env (AtExists (user_plugin_dir env u)) = None →
  fault env (AtRmtree (user_plugin_dir env u)) = None →
  fault env AtCommit = None →
  fs w !! user_plugin_dir env u = Some Dir →
  ∃ w', delete_plugin env u w
        = (Ok (PluginDeleted id (length (module_rows u id (pending (db w))))), w')
    ∧ fs w' = remove_tree (user_plugin_dir env u) (fs w)
    ∧ committed (db w') = without_records u id (pending (db w))
    ∧ pending (db w') = without_records u id (pending (db w)).
Proof.
  intros Hf Hrow Hm Hp He Hr Hc Hd.
  pose proof (found_plugin_row _ _ _ _ Hrow) as [Hlook Hown].
  apply andb_true_iff in Hown as [Hu _].
  unfold delete_plugin, try_except. unfold mbind at 1 2, M_bind at 1 2, bind at 1 2.
  rewrite logger_run. set (w0 := mkWorld _ _ _).
  rewrite (check_existing_found env u w0 id row Hf Hrow).
  assert (_delete_database_records env u id w0
          = (Ok (RecordsDeleted (length (module_rows u id (pending (db w))))),
             mkWorld (fs w) (mkSession (committed (db w)) (without_records u id (pending (db w))))
                     (log w0 ++ [(INFO, "Deleted database records for plugin " +:+ id +:+ " ("
                        +:+ str_nat (length (module_rows u id (pending (db w))))
                        +:+ " modules)")]))) as Hrec.
  { unfold _delete_database_records, try_except, mbind, M_bind, bind, execute, call.
    rewrite Hm, Hp. cbn [delete_modules]. unfold delete_plugin_row.
    cbn [set_pending set_db db pending plugin_table module_table committed w0].
    rewrite Hlook, Hu. cbn [Nat.eqb]. rewrite logger_run.
    unfold module_rows. rewrite <- size_filter_rows. reflexivity. }
  unfold delete_existing. unfold mbind at 1, M_bind at 1, bind at 1. rewrite Hrec.
  set (w2 := mkWorld _ _ _).
  destruct (cleanup_removes env (user_plugin_dir env u) w2 He Hr Hd) as (w3 & Hcl & Hfs3).
  pose proof (cleanup_same_db _ _ _ _ _ Hcl) as Hdb3. unfold same_db in Hdb3.
  unfold mbind at 1, M_bind at 1, bind at 1. rewrite Hcl.
  unfold mbind at 1, M_bind at 1, bind at 1. unfold commit, call. rewrite Hc.
  unfold mbind at 1, M_bind at 1, bind at 1. rewrite logger_run.
  eexists. split; [reflexivity|]. cbn [fs db committed pending set_db].
  rewrite Hfs3, Hdb3. done.
Qed.

Lemma store_eta (st : Store) : mkStore (plugin_table st) (module_table st) = st.
Proof. by destruct st. Qed.

(** Deleting the records that were just inserted leaves the store that
    was there, less the module rows of the plugin that were around. *)
Lemma without_with_records env u st :
  plugin_table st !! plugin_id_of u = None →
  module_table st !! module_id_of u the_module = None →
  without_records u (plugin_id_of u) (with_records env u st)
  = mkStore (plugin_table st)
            (filter (fun kv => module_of (plugin_id_of u) u kv.2 ≠ true) (module_table st)).
Proof.
  intros Hp Hm. unfold without_records, with_records. cbn [plugin_table module_table].
  rewrite delete_insert_id by done.
  rewrite map_filter_insert_False.
  2:{ simpl. rewrite module_row_of. by intros ?. }
  by rewrite delete_id by done.
Qed.

Lemma without_no_module_rows u pid st :
  module_rows u pid st = [] →
  mkStore (plugin_table st) (filter (fun kv => module_of pid u kv.2 ≠ true) (module_table st))
  = st.
Proof.
  intros Hstale. rewrite map_filter_id; [apply store_eta|].
  intros i x Hx. simpl. apply not_true_iff_false.
  apply (filter_nil_none _ _ (i, x) Hstale). by apply elem_of_map_to_list.
Qed.

(** X4: install followed by delete.  After a successful install for which
    the plugin query answered, the delete of the same user succeeds when
    none of its calls is made to fail.  It reports the id that install
    reported, and one deleted module more than there were module rows of
    that plugin and user before the install; it leaves nothing at the
    plugin directory and no open change, and the store it leaves is the
    pending store before the install without those earlier module rows.
    When there were none, one module is reported and the store is exactly
    the pending store before the install. *)
Theorem install_then_delete env env' u w pid slug mods directory w' :
  install_plugin env u w = (Ok (Installed pid slug mods directory), w') →
  fault env (AtExecute SelectPlugin) = None →
  plugins_base_dir env' = plugins_base_dir env →
  fault env' (AtExecute SelectPlugin) = None →
  fault env' (AtExecute DeleteModules) = None →
  fault env' (AtExecute DeletePlugin) = None →
  fault env' (AtExists (user_plugin_dir env' u)) = None →
  fault env' (AtRmtree (user_plugin_dir env' u)) = None →
  fault env' AtCommit = None →
  ∃ w'', delete_plugin env' u w'
         = (Ok (PluginDeleted pid (S (length (module_rows u pid (pending (db w)))))), w'')
    ∧ absent (user_plugin_dir env u) (fs w'')
    ∧ pending (db w'') = committed (db w'')
    ∧ plugin_table (committed (db w'')) = plugin_table (pending (db w))
    ∧ module_table (committed (db w''))
      = filter (fun kv => module_of pid u kv.2 ≠ true) (module_table (pending (db w)))
    ∧ (module_rows u pid (pending (db w)) = [] → committed (db w'') = pending (db w)).
Proof.
  intros H Hf Hbase Hf1 Hf2 Hf3 Hf4 Hf5 Hf6.
  apply install_success_inv in H
    as (-> & -> & -> & -> & Hdir & _ & Hn1 & Hn2 & _ & Hp & Hfound).
  specialize (Hfound Hf).
  assert (user_plugin_dir env' u = user_plugin_dir env u) as Hd
    by (unfold user_plugin_dir; by rewrite Hbase).
  pose proof (found_plugin_after_records env u _ Hfound Hn1) as Hrow. rewrite <- Hp in Hrow.
  rewrite <- Hd in Hdir.
  destruct (delete_plugin_run env' u w' _ _ Hf1 Hrow Hf2 Hf3 Hf4 Hf5 Hf6 Hdir)
    as (w'' & Hrun & Hfs & Hc'' & Hp'').
  rewrite Hp, module_rows_after_records in Hrun by done.
  rewrite Hp, without_with_records in Hc'', Hp'' by done.
  exists w''. split; [exact Hrun|]. split; [rewrite Hfs, Hd; apply remove_tree_absent|].
  split; [by rewrite Hp'', Hc''|]. rewrite Hc''. split; [done|]. split; [done|].
  apply without_no_module_rows.
Qed.

Lemma install_then_delete_witness :
  ∃ pid slug mods directory w' w'',
    install_plugin (sample_env quiet) "alice" fresh_world
    = (Ok (Installed pid slug mods directory), w')
    ∧ delete_plugin (sample_env quiet) "alice" w' = (Ok (PluginDeleted pid 1), w'')
    ∧ absent (user_plugin_dir (sample_env quiet) "alice") (fs w'')
    ∧ committed (db w'') = pending (db fresh_world).
Proof.
  assert (returned is_installed (install_plugin (sample_env quiet) "alice" fresh_world) = true)
    as Hr by (vm_compute; reflexivity).
  destruct (install_plugin (sample_env quiet) "alice" fresh_world)
    as [[[? ? ?|pid slug mods directory]|e] w'] eqn:H; try discriminate Hr.
  assert (module_rows "alice" pid (pending (db fresh_world)) = []) as Hstale by reflexivity.
  destruct (install_then_delete (sample_env quiet) (sample_env quiet) "alice"
              fresh_world pid slug mods directory w' H eq_refl eq_refl eq_refl
              eq_refl eq_refl eq_refl eq_refl eq_refl)
    as (w'' & Hd & Habs & _ & _ & _ & Hc).
  rewrite Hstale in Hd. exists pid, slug, mods, directory, w', w''.
  split; [reflexivity|]. split; [exact Hd|]. split; [exact Habs|exact (Hc Hstale)].
Defined.

(** *** What is committed, and when *)

Lemma keeps_impl {A} (R R' : relation World) (m : M A) :
  (∀ w w', R w w' → R' w w') → keeps R m → keeps R' m.
Proof. intros HR Hm w r w' H. eapply HR, Hm, H. Qed.

Lemma keeps_unless_keeps {A} R (good : A → Prop) (m : M A) :
  keeps R m → keeps_unless R good m.
Proof. intros Hm w r w' H. left. eapply Hm, H. Qed.

Lemma keeps_unless_bind {A B} R `{!Frame R} (good : B → Prop) (m : M A) (k : A → M B) :
  keeps R m → (∀ a, keeps_unless R good (k a)) → keeps_unless R good (m ≫= k).
Proof.
  intros Hm Hk w r w'. unfold mbind, M_bind, bind.
  destruct (m w) as [[a|e] w1] eqn:E; intros H.
  - destruct (Hk a _ _ _ H) as [HR|Hgood]; [left|by right].
    eapply frame_trans; [eapply Hm, E|exact HR].
  - injection H as <- <-. left. eapply Hm, E.
Qed.

Lemma keeps_unless_try_except {A} R `{!Frame R} (good : A → Prop) (body : M A) handler :
  keeps_unless R good body → (∀ e, keeps R (handler e)) →
  keeps_unless R good (try_except body handler).
Proof.
  intros Hm Hh w r w'. unfold try_except.
  destruct (body w) as [[a|e] w1] eqn:E; intros H.
  - injection H as <- <-. eapply Hm, E.
  - left. destruct (Hm _ _ _ E) as [HR|(a & [=] & _)].
    eapply frame_trans; [exact HR|eapply Hh, H].
Qed.

(** The end of both operations: commit, log, hand back the success. *)
Lemma commit_then_report env {A} (good : A → Prop) msg (a : A) :
  good a → keeps_unless same_committed good (commit env;; logger INFO msg;; mret a).
Proof.
  intros Ha w r w'. unfold commit, call, mbind, M_bind, bind.
  destruct (fault env AtCommit) as [e|]; intros H.
  - injection H as <- <-. by left.
  - injection H as <- <-. right. eauto.
Qed.

Lemma check_existing_same_committed env u :
  keeps same_committed (_check_existing_plugin env u).
Proof. eapply keeps_impl; [apply same_db_committed|apply check_existing_same_db]. Qed.

Lemma create_directory_same_committed env u :
  keeps same_committed (_create_user_plugin_directory env u).
Proof. eapply keeps_impl; [apply same_db_committed|apply create_directory_same_db]. Qed.

Lemma copy_files_same_committed env u d update :
  keeps same_committed (_copy_plugin_files env u d update).
Proof. eapply keeps_impl; [apply same_db_committed|apply copy_files_same_db]. Qed.

Lemma validate_same_committed env u d : keeps same_committed (_validate_installation env u d).
Proof. eapply keeps_impl; [apply same_db_committed|apply validate_same_db]. Qed.

Lemma cleanup_same_committed env d : keeps same_committed (_cleanup_user_directory env d).
Proof. eapply keeps_impl; [apply same_db_committed|apply cleanup_same_db]. Qed.

#[export] Hint Resolve check_existing_same_committed create_directory_same_committed
  copy_files_same_committed validate_same_committed cleanup_same_committed
  create_records_same_committed delete_records_same_committed : frame.

Lemma install_commits env u :
  keeps_unless same_committed (fun r => is_installed r = true) (install_plugin env u).
Proof.
  unfold install_plugin.
  apply keeps_unless_try_except; [apply _| |intros e; frame].
  apply keeps_unless_bind; [apply _|frame|intros []].
  apply keeps_unless_bind; [apply _|frame|intros [id info|oe]].
  { apply keeps_unless_keeps. frame. }
  unfold install_missing.
  apply keeps_unless_bind; [apply _|frame|intros [d|]].
  2:{ apply keeps_unless_keeps. frame. }
  apply keeps_unless_bind; [apply _|frame|intros [files|error]].
  2:{ apply keeps_unless_keeps. frame. }
  apply keeps_unless_bind; [apply _|frame|intros [pid mods|error]].
  2:{ apply keeps_unless_keeps. frame. }
  apply keeps_unless_bind; [apply _|frame|intros [|error]].
  2:{ apply keeps_unless_keeps. frame. }
  by apply commit_then_report.
Qed.

Lemma delete_commits env u :
  keeps_unless same_committed (fun r => is_deleted r = true) (delete_plugin env u).
Proof.
  unfold delete_plugin.
  apply keeps_unless_try_except; [apply _| |intros e; frame].
  apply keeps_unless_bind; [apply _|frame|intros []].
  apply keeps_unless_bind; [apply _|frame|intros [id info|oe]].
  2:{ apply keeps_unless_keeps. frame. }
  unfold delete_existing.
  apply keeps_unless_bind; [apply _|frame|intros [n|error]].
  2:{ apply keeps_unless_keeps. frame. }
  cbv zeta. apply keeps_unless_bind; [apply _|frame|intros []].
  by apply commit_then_report.
Qed.

(** X5: install commits on success only.  On every run of install,
    whether it returns or raises, the committed store is the one it
    started with unless the result is the success. *)
Theorem install_commits_only_on_success env u w r w' :
  install_plugin env u w = (r, w') →
  committed (db w') = committed (db w)
  ∨ ∃ pid slug mods directory, r = Ok (Installed pid slug mods directory).
Proof.
  intros H. destruct (install_commits env u _ _ _ H) as [HR|(a & -> & Ha)]; [by left|right].
  destruct a; [done|eauto].
Qed.

Lemma install_commits_only_on_success_witness :
  ∃ r w', install_plugin (sample_env commit_fails) "alice" fresh_world = (r, w')
    ∧ returned (install_failed_at ReturnInstallException) (r, w') = true
    ∧ committed (db w') = committed (db fresh_world).
Proof.
  assert (returned (install_failed_at ReturnInstallException)
            (install_plugin (sample_env commit_fails) "alice" fresh_world) = true) as Hr
    by (vm_compute; reflexivity).
  destruct (install_plugin (sample_env commit_fails) "alice" fresh_world) as [r w'] eqn:H.
  exists r, w'. split; [reflexivity|]. split; [exact Hr|].
  destruct (install_commits_only_on_success _ _ _ _ _ H) as [Hc|(? & ? & ? & ? & ->)];
    [exact Hc|discriminate Hr].
Defined.

(** X6: delete commits on success only.  On every run of delete, whether
    it returns or raises, the committed store is the one it started with
    unless the result is the success. *)
Theorem delete_commits_only_on_success env u w r w' :
  delete_plugin env u w = (r, w') →
  committed (db w') = committed (db w) ∨ ∃ pid n, r = Ok (PluginDeleted pid n).
Proof.
  intros H. destruct (delete_commits env u _ _ _ H) as [HR|(a & -> & Ha)]; [by left|right].
  destruct a; [done|eauto].
Qed.

Lemma delete_commits_only_on_success_witness :
  ∃ r w', delete_plugin (sample_env plugin_delete_fails) "alice" installed_world = (r, w')
    ∧ returned (delete_failed_at ReturnRecordsNotDeleted) (r, w') = true
    ∧ committed (db w') = committed (db installed_world).
Proof.
  assert (returned (delete_failed_at ReturnRecordsNotDeleted)
            (delete_plugin (sample_env plugin_delete_fails) "alice" installed_world) = true)
    as Hr by (vm_compute; reflexivity).
  destruct (delete_plugin (sample_env plugin_delete_fails) "alice" installed_world)
    as [r w'] eqn:H.
  exists r, w'. split; [reflexivity|]. split; [exact Hr|].
  destruct (delete_commits_only_on_success _ _ _ _ _ H) as [Hc|(? & ? & ->)];
    [exact Hc|discriminate Hr].
Defined.

(** *** Runs that raise *)

Lemma bind_Raise_inv {A B} (m : M A) (k : A → M B) w e w' :
  (m ≫= k) w = (Raise e, w') →
  m w = (Raise e, w') ∨ ∃ a w1, m w = (Ok a, w1) ∧ k a w1 = (Raise e, w').
Proof.
  unfold mbind, M_bind, bind. destruct (m w) as [[a|e1] w1]; intros H; [right; eauto|left].
  by injection H as <- <-.
Qed.

Lemma returns_not_Raise {A} (m : M A) w e w' : returns m → m w = (Raise e, w') → False.
Proof. intros Hm H. destruct (Hm w) as (a & w1 & E). congruence. Qed.

Lemma ret_not_Raise {A} (a : A) w e w' : (mret a : M A) w = (Raise e, w') → False.
Proof. by intros [=]. Qed.

(** A helper followed by a plain [return] does not raise. *)
Lemma then_ret_not_Raise {A B} (m : M A) (b : B) w e w' :
  returns m → (m;; mret b) w = (Raise e, w') → False.
Proof.
  intros Hm H. apply bind_Raise_inv in H as [H|(a & w1 & _ & H)].
  - by eapply returns_not_Raise.
  - by eapply ret_not_Raise.
Qed.

Lemma rollback_Ok env w w' :
  rollback env w = (Ok tt, w') →
  fs w' = fs w ∧ committed (db w') = committed (db w) ∧ pending (db w') = committed (db w).
Proof.
  unfold rollback, call. destruct (fault env AtRollback); [by intros [=]|].
  by intros [= <-].
Qed.

Lemma rollback_Raise env w e w' : rollback env w = (Raise e, w') → w' = w.
Proof. unfold rollback, call. destruct (fault env AtRollback); by intros [=]. Qed.

Lemma commit_Raise env w e w' : commit env w = (Raise e, w') → w' = w.
Proof. unfold commit, call. destruct (fault env AtCommit); by intros [=]. Qed.

Lemma install_missing_no_exception env u w err pid w' :
  install_missing env u w = (Ok (InstallFailed ReturnInstallException err pid), w') → False.
Proof.
  intros H. unfold install_missing in H.
  apply bind_Ok_inv in H as (od & w1 & _ & H). destruct od as [d|]; [|by injection H].
  apply bind_Ok_inv in H as (cr & w2 & _ & H). destruct cr.
  - apply bind_Ok_inv in H as (dr & w3 & _ & H). destruct dr.
    + apply bind_Ok_inv in H as (v & w4 & _ & H). destruct v.
      * apply bind_Ok_inv in H as ([] & w5 & _ & H).
        apply bind_Ok_inv in H as ([] & w6 & _ & H). by injection H.
      * apply bind_Ok_inv in H as ([] & w5 & _ & H).
        apply bind_Ok_inv in H as ([] & w6 & _ & H). by injection H.
    + apply bind_Ok_inv in H as ([] & w4 & _ & H). by injection H.
  - apply bind_Ok_inv in H as ([] & w3 & _ & H). by injection H.
Qed.

(** The steps for a missing plugin raise only at the rollback or at the
    commit, with the directory and the manifest in place. *)
Lemma install_missing_Raise env u w e w' :
  install_missing env u w = (Raise e, w') →
  fs w' !! user_plugin_dir env u = Some Dir
  ∧ fs w' !! manifest_path (user_plugin_dir env u) = Some (File (dumps_indent2 (manifest env u)))
  ∧ committed (db w') = committed (db w).
Proof.
  intros H. unfold install_missing in H.
  apply bind_Raise_inv in H as [H|(od & w1 & Hd & H)].
  { by apply returns_not_Raise in H; [|apply create_directory_returns]. }
  pose proof (create_directory_same_db _ _ _ _ _ Hd) as Hdb1. unfold same_db in Hdb1.
  destruct od as [d|]; [|by apply ret_not_Raise in H].
  apply create_directory_post in Hd as [-> Hdir].
  apply bind_Raise_inv in H as [H|(cr & w2 & Hcp & H)].
  { by apply returns_not_Raise in H; [|apply copy_files_returns]. }
  pose proof (copy_files_same_db _ _ _ _ _ _ _ Hcp) as Hdb2. unfold same_db in Hdb2.
  pose proof (copy_files_still_dir _ _ _ _ _ _ _ Hcp Hdir) as Hdir2.
  destruct cr as [files|error].
  2:{ by apply then_ret_not_Raise in H; [|apply cleanup_returns]. }
  apply copy_files_writes_manifest in Hcp.
  apply bind_Raise_inv in H as [H|(dr & w3 & Hcr & H)].
  { by apply returns_not_Raise in H; [|apply create_records_returns]. }
  pose proof (create_records_same_fs _ _ _ _ _ Hcr) as Hfs3. unfold same_fs in Hfs3.
  pose proof (create_records_same_committed _ _ _ _ _ Hcr) as Hdb3.
  unfold same_committed in Hdb3.
  destruct dr as [pid mods|error].
  2:{ by apply then_ret_not_Raise in H; [|apply cleanup_returns]. }
  apply bind_Raise_inv in H as [H|(v & w4 & Hv & H)].
  { by apply returns_not_Raise in H; [|apply validate_returns]. }
  pose proof (validate_same_fs _ _ _ _ _ _ Hv) as Hfs4. unfold same_fs in Hfs4.
  pose proof (validate_same_db _ _ _ _ _ _ Hv) as Hdb4. unfold same_db in Hdb4.
  assert (w' = w4) as ->.
  { destruct v.
    - apply bind_Raise_inv in H as [H|([] & w5 & _ & H)]; [by apply commit_Raise in H|].
      apply bind_Raise_inv in H as [H|([] & w6 & _ & H)]; [by rewrite logger_run in H|].
      by apply ret_not_Raise in H.
    - apply bind_Raise_inv in H as [H|([] & w5 & _ & H)]; [by apply rollback_Raise in H|].
      by apply then_ret_not_Raise in H; [|apply cleanup_returns]. }
  rewrite Hfs4, Hfs3, Hdb4, Hdb3, Hdb2, Hdb1. done.
Qed.

(** X7: the exception branch of install does not clean up.  When install
    returns from its [except] branch, the plugin directory of the user is
    a directory that holds the manifest of this install, while the
    transaction is rolled back: the pending and the committed store are
    the committed store before the call. *)
Theorem install_exception_keeps_directory env u w err pid w' :
  install_plugin env u w = (Ok (InstallFailed ReturnInstallException err pid), w') →
  fs w' !! user_plugin_dir env u = Some Dir
  ∧ fs w' !! joinpath (user_plugin_dir env u) "plugin_metadata.json"
    = Some (File (dumps_indent2 (manifest env u)))
  ∧ committed (db w') = committed (db w)
  ∧ pending (db w') = committed (db w).
Proof.
  intros H. apply try_except_inv in H as [(a & H & [= <-])|(e & w1 & Hb & H)].
  - exfalso. apply bind_Ok_inv in H as ([] & w0 & _ & H).
    apply bind_Ok_inv in H as (c & w1 & _ & H). destruct c as [id info|oe]; [by injection H|].
    by apply install_missing_no_exception in H.
  - apply bind_Raise_inv in Hb as [Hb|([] & w0 & Hl & Hb)]; [by rewrite logger_run in Hb|].
    rewrite logger_run in Hl. injection Hl as <-.
    apply bind_Raise_inv in Hb as [Hb|(c & w2 & Hc & Hb)].
    { by apply returns_not_Raise in Hb; [|apply check_existing_returns]. }
    pose proof (check_existing_same_db _ _ _ _ _ Hc) as Hdb2. unfold same_db in Hdb2.
    simpl in Hdb2.
    destruct c as [id info|oe]; [by apply ret_not_Raise in Hb|].
    apply install_missing_Raise in Hb as (Hdir & Hman & Hdb1).
    apply bind_Ok_inv in H as ([] & w3 & Hl & H). rewrite logger_run in Hl. injection Hl as <-.
    apply bind_Ok_inv in H as ([] & w4 & Hr & H). injection H as _ _ <-.
    apply rollback_Ok in Hr as (Hfs4 & Hc4 & Hp4). simpl in *.
    rewrite Hfs4, Hc4, Hp4, Hdb1, Hdb2. done.
Qed.

Lemma install_exception_keeps_directory_witness :
  ∃ err pid w',
    install_plugin (sample_env commit_fails) "alice" fresh_world
    = (Ok (InstallFailed ReturnInstallException err pid), w')
    ∧ fs w' !! user_plugin_dir (sample_env commit_fails) "alice" = Some Dir
    ∧ committed (db w') = committed (db fresh_world).
Proof.
  assert (returned (install_failed_at ReturnInstallException)
            (install_plugin (sample_env commit_fails) "alice" fresh_world) = true) as Hr
    by (vm_compute; reflexivity).
  destruct (install_plugin (sample_env commit_fails) "alice" fresh_world)
    as [[[[] err pid|? ? ? ?]|e] w'] eqn:H; try discriminate Hr.
  destruct (install_exception_keeps_directory _ _ _ _ _ _ H) as (Hdir & _ & Hc & _).
  exists err, pid, w'. split; [reflexivity|]. split; [exact Hdir|exact Hc].
Defined.

(** *** Delete up to the commit *)

Lemma delete_reaches_commit env u w id row :
  fault env (AtExecute SelectPlugin) = None →
  found_plugin u (pending (db w)) = Some (id, row) →
  fault env (AtExecute DeleteModules) = None →
  fault env (AtExecute DeletePlugin) = None →
  fault env (AtExists (user_plugin_dir env u)) = None →
  fault env (AtRmtree (user_plugin_dir env u)) = None →
  fs w !! user_plugin_dir env u = Some Dir →
  ∃ w3, fs w3 = remove_tree (user_plugin_dir env u) (fs w)
    ∧ db w3 = mkSession (committed (db w)) (without_records u id (pending (db w)))
    ∧ delete_plugin env u w
      = try_except
          (commit env;;
           logger INFO ("NetworkEyes plugin deleted successfully for user " +:+ u);;
           mret (PluginDeleted id (length (module_rows u id (pending (db w))))))
          (fun e =>
             logger ERROR ("Plugin deletion failed for user " +:+ u +:+ ": " +:+ str_exn e);;
             rollback env;;
             mret (DeleteFailed ReturnDeleteException (str_exn e))) w3.
Proof.
  intros Hf Hrow Hm Hp He Hr Hd.
  pose proof (found_plugin_row _ _ _ _ Hrow) as [Hlook Hown].
  apply andb_true_iff in Hown as [Hu _].
  unfold delete_plugin, try_except. unfold mbind at 1 2, M_bind at 1 2, bind at 1 2.
  rewrite logger_run. set (w0 := mkWorld _ _ _).
  rewrite (check_existing_found env u w0 id row Hf Hrow).
  assert (_delete_database_records env u id w0
          = (Ok (RecordsDeleted (length (module_rows u id (pending (db w))))),
             mkWorld (fs w) (mkSession (committed (db w)) (without_records u id (pending (db w))))
                     (log w0 ++ [(INFO, "Deleted database records for plugin " +:+ id +:+ " ("
                        +:+ str_nat (length (module_rows u id (pending (db w))))
                        +:+ " modules)")]))) as Hrec.
  { unfold _delete_database_records, try_except, mbind, M_bind, bind, execute, call.
    rewrite Hm, Hp. cbn [delete_modules]. unfold delete_plugin_row.
    cbn [set_pending set_db db pending plugin_table module_table committed w0].
    rewrite Hlook, Hu. cbn [Nat.eqb]. rewrite logger_run.
    unfold module_rows. rewrite <- size_filter_rows. reflexivity. }
  unfold delete_existing. unfold mbind at 1, M_bind at 1, bind at 1. rewrite Hrec.
  set (w2 := mkWorld _ _ _).
  destruct (cleanup_removes env (user_plugin_dir env u) w2 He Hr Hd) as (w3 & Hcl & Hfs3).
  pose proof (cleanup_same_db _ _ _ _ _ Hcl) as Hdb3. unfold same_db in Hdb3.
  unfold mbind at 1, M_bind at 1, bind at 1. rewrite Hcl.
  exists w3. split; [exact Hfs3|]. split; [exact Hdb3|]. reflexivity.
Qed.

(** X8: a refused commit at the end of delete.  When the plugin row is
    found, the two deletes and the cleanup go through and the commit
    raises, delete returns from its [except] branch with the text of the
    exception; the rollback restores the rows, but the plugin directory
    has been removed already and stays removed. *)
Theorem delete_commit_failure_removes_files env u w id row e :
  fault env (AtExecute SelectPlugin) = None →
  found_plugin u (pending (db w)) = Some (id, row) →
  fault env (AtExecute DeleteModules) = None →
  fault env (AtExecute DeletePlugin) = None →
  fault env (AtExists (user_plugin_dir env u)) = None →
  fault env (AtRmtree (user_plugin_dir env u)) = None →
  fs w !! user_plugin_dir env u = Some Dir →
  fault env AtCommit = Some e →
  fault env AtRollback = None →
  ∃ w', delete_plugin env u w = (Ok (DeleteFailed ReturnDeleteException (str_exn e)), w')
    ∧ absent (user_plugin_dir env u) (fs w')
    ∧ committed (db w') = committed (db w)
    ∧ pending (db w') = committed (db w).
Proof.
  intros Hf Hrow Hm Hp He Hr Hd Hc Hrb.
  destruct (delete_reaches_commit env u w id row Hf Hrow Hm Hp He Hr Hd)
    as (w3 & Hfs3 & Hdb3 & ->).
  unfold try_except, mbind, M_bind, bind, commit, rollback, call. rewrite Hc, Hrb.
  unfold raise, logger. cbv beta iota. eexists. split; [reflexivity|]. cbn [fs db committed pending set_db].
  rewrite Hfs3, Hdb3. split; [apply remove_tree_absent|done].
Qed.

Lemma delete_commit_failure_removes_files_witness :
  ∃ w', delete_plugin (sample_env commit_fails) "alice" installed_world
        = (Ok (DeleteFailed ReturnDeleteException "database is locked"), w')
    ∧ absent alice_dir (fs w')
    ∧ committed (db w') = committed (db installed_world).
Proof.
  assert (is_some (found_plugin "alice" (pending (db installed_world))) = true) as Hrow
    by (vm_compute; reflexivity).
  assert (fs installed_world !! user_plugin_dir (sample_env commit_fails) "alice" = Some Dir)
    as Hd by (vm_compute; reflexivity).
  destruct (found_plugin "alice" (pending (db installed_world))) as [[id row]|] eqn:E;
    [|discriminate Hrow].
  destruct (delete_commit_failure_removes_files (sample_env commit_fails) "alice"
              installed_world id row (Exn DatabaseError "database is locked")
              eq_refl E eq_refl eq_refl eq_refl eq_refl Hd eq_refl eq_refl)
    as (w' & H & Habs & Hc & _).
  exists w'. split; [exact H|]. split; [exact Habs|exact Hc].
Defined.

(** X9: the two refusals of delete touch no file.  When delete returns a
    failure from another place than its [except] branch, the directory
    tree is the one it started with. *)
Theorem delete_refused_changes_no_file env u w at_ err w' :
  delete_plugin env u w = (Ok (DeleteFailed at_ err), w') →
  at_ ≠ ReturnDeleteException →
  fs w' = fs w.
Proof.
  intros H Hat. apply try_except_inv in H as [(a & H & [= <-])|(e & w1 & _ & H)].
  - apply bind_Ok_inv in H as ([] & w0 & Hl & H). rewrite logger_run in Hl. injection Hl as <-.
    apply bind_Ok_inv in H as (c & w1 & Hc & H).
    pose proof (check_existing_same_fs _ _ _ _ _ Hc) as Hfs1. unfold same_fs in Hfs1.
    destruct c as [id info|oe]; [|by injection H as _ _ <-].
    unfold delete_existing in H. apply bind_Ok_inv in H as (dr & w2 & Hd & H).
    pose proof (delete_records_same_fs _ _ _ _ _ _ Hd) as Hfs2. unfold same_fs in Hfs2.
    destruct dr as [n|error].
    + apply bind_Ok_inv in H as ([] & w3 & _ & H).
      apply bind_Ok_inv in H as ([] & w4 & _ & H).
      apply bind_Ok_inv in H as ([] & w5 & _ & H). by injection H.
    + injection H as _ _ <-. by rewrite Hfs2, Hfs1.
  - apply bind_Ok_inv in H as ([] & w2 & _ & H).
    apply bind_Ok_inv in H as ([] & w3 & _ & H). injection H as <- _ _. done.
Qed.

Lemma delete_refused_changes_no_file_witness :
  ∃ at_ err w',
    delete_plugin (sample_env plugin_delete_fails) "alice" installed_world
    = (Ok (DeleteFailed at_ err), w')
    ∧ at_ = ReturnRecordsNotDeleted
    ∧ fs w' = fs installed_world.
Proof.
  assert (returned (delete_failed_at ReturnRecordsNotDeleted)
            (delete_plugin (sample_env plugin_delete_fails) "alice" installed_world) = true)
    as Hr by (vm_compute; reflexivity).
  destruct (delete_plugin (sample_env plugin_delete_fails) "alice" installed_world)
    as [[[[] err|? ?]|e] w'] eqn:H; try discriminate Hr.
  exists ReturnRecordsNotDeleted, err, w'. split; [reflexivity|]. split; [reflexivity|].
  apply (delete_refused_changes_no_file _ _ _ _ _ _ H). discriminate.
Defined.

(** *** The rows that the record steps touch *)

Lemma delete_modules_rows pid u st :
  plugin_table (delete_modules pid u st).2 = plugin_table st
  ∧ module_table (delete_modules pid u st).2 ⊆ module_table st
  ∧ (∀ id row, module_table st !! id = Some row → column_is "user_id" u row = false →
       module_table (delete_modules pid u st).2 !! id = Some row).
Proof.
  unfold delete_modules. cbn [snd plugin_table module_table].
  split; [done|]. split; [apply map_filter_subseteq|].
  intros id row Hl Hu. apply map_lookup_filter_Some. split; [done|]. simpl.
  unfold module_of. rewrite Hu, andb_false_r. done.
Qed.

Lemma delete_plugin_row_rows pid u st :
  module_table (delete_plugin_row pid u st).2 = module_table st
  ∧ plugin_table (delete_plugin_row pid u st).2 ⊆ plugin_table st
  ∧ (∀ id row, plugin_table st !! id = Some row → column_is "user_id" u row = false →
       plugin_table (delete_plugin_row pid u st).2 !! id = Some row).
Proof.
  unfold delete_plugin_row. destruct (plugin_table st !! pid) as [prow|] eqn:E; [|done].
  destruct (column_is "user_id" u prow) eqn:Hu; [|done].
  cbn [snd plugin_table module_table]. split; [done|]. split; [apply delete_subseteq|].
  intros id row Hl Hrow. rewrite lookup_delete_ne; [done|]. intros <-. congruence.
Qed.

(** The pending store after the record deletion is the one before it, or
    that one after the first statement, or after both. *)
Lemma delete_records_pending env u pid w r w' :
  _delete_database_records env u pid w = (r, w') →
  let st := pending (db w) in
  let st1 := (delete_modules pid u st).2 in
  pending (db w') = st ∨ pending (db w') = st1
  ∨ pending (db w') = (delete_plugin_row pid u st1).2.
Proof.
  intros H st st1.
  unfold _delete_database_records, try_except, mbind, M_bind, bind, execute, call in H.
  destruct (fault env (AtExecute DeleteModules)).
  { injection H as _ <-. by left. }
  cbn [delete_modules] in H.
  destruct (fault env (AtExecute DeletePlugin)).
  { injection H as _ <-. right. by left. }
  cbn [set_pending set_db db pending] in H.
  fold st in H. change (mkStore (plugin_table st) _) with st1 in H.
  destruct (delete_plugin_row pid u st1) as [[n|e] st2] eqn:E.
  - right. right. destruct (n =? 0)%nat; by injection H as _ <-.
  - right. right. by injection H as _ <-.
Qed.

(** X10: the record deletion touches rows of its user only.  On every
    run of [_delete_database_records], the tables of the pending store
    only lose rows, and every plugin row and module row whose [user_id]
    is not the given user is still there. *)
Theorem delete_records_only_own_rows env u pid w r w' :
  _delete_database_records env u pid w = (r, w') →
  plugin_table (pending (db w')) ⊆ plugin_table (pending (db w))
  ∧ module_table (pending (db w')) ⊆ module_table (pending (db w))
  ∧ (∀ id row, plugin_table (pending (db w)) !! id = Some row →
       column_is "user_id" u row = false →
       plugin_table (pending (db w')) !! id = Some row)
  ∧ (∀ id row, module_table (pending (db w)) !! id = Some row →
       column_is "user_id" u row = false →
       module_table (pending (db w')) !! id = Some row).
Proof.
  intros H. apply delete_records_pending in H. cbv zeta in H.
  destruct (delete_modules_rows pid u (pending (db w))) as (Hp1 & Hm1 & Hk1).
  destruct (delete_plugin_row_rows pid u (delete_modules pid u (pending (db w))).2)
    as (Hm2 & Hp2 & Hk2).
  destruct H as [-> | [-> | ->]].
  - done.
  - rewrite Hp1. done.
  - rewrite Hm2. rewrite Hp1 in Hp2, Hk2. done.
Qed.

Lemma delete_records_only_own_rows_witness :
  ∃ r w', _delete_database_records (sample_env quiet) "bob" "alice_BrainDriveNetwork"
            installed_world = (r, w')
    ∧ plugin_table (pending (db w')) ⊆ plugin_table (pending (db installed_world))
    ∧ (∀ id row, plugin_table (pending (db installed_world)) !! id = Some row →
         column_is "user_id" "bob" row = false →
         plugin_table (pending (db w')) !! id = Some row).
Proof.
  destruct (_delete_database_records (sample_env quiet) "bob" "alice_BrainDriveNetwork"
              installed_world) as [r w'] eqn:H.
  exists r, w'. split; [reflexivity|].
  destruct (delete_records_only_own_rows _ _ _ _ _ _ H) as (Hp & _ & Hk & _).
  split; [exact Hp|exact Hk].
Defined.

(** *** The answers of the existence check *)

Lemma check_existing_cases env u w :
  ∃ c w1, _check_existing_plugin env u w = (Ok c, w1)
    ∧ (exists_flag c = false
       ↔ found_plugin u (pending (db w)) = None ∨ fault env (AtExecute SelectPlugin) ≠ None).
Proof.
  destruct (fault env (AtExecute SelectPlugin)) as [e|] eqn:Hf.
  - rewrite (check_existing_raised _ _ _ e) by done. eexists _, _. split; [done|].
    simpl. split; [by right|done].
  - destruct (found_plugin u (pending (db w))) as [[id row]|] eqn:E.
    + rewrite (check_existing_found _ _ _ _ _ Hf E). eexists _, _. split; [done|].
      simpl. split; [done|]. by intros [?|?].
    + rewrite (check_existing_not_found _ _ _ Hf E). eexists _, _. split; [done|].
      simpl. split; [by left|done].
Qed.

(** X11: when status answers not installed.  On a run of status that
    returns, the answer is the not-installed one exactly when the pending
    store has no plugin row for the user and slug or the plugin query was
    made to raise. *)
Theorem status_not_installed_iff env u w r w' :
  get_plugin_status env u w = (Ok r, w') →
  r = NotInstalled
  ↔ found_plugin u (pending (db w)) = None ∨ fault env (AtExecute SelectPlugin) ≠ None.
Proof.
  intros H. destruct (check_existing_cases env u w) as (c & w1 & Hc & Hiff).
  rewrite <- Hiff. clear Hiff.
  apply try_except_inv in H as [(a & H & [= <-])|(e & w2 & Hb & H)].
  - apply bind_Ok_inv in H as (c' & w2 & Hc' & H). rewrite Hc in Hc'. injection Hc' as <- <-.
    destruct c as [id info|oe].
    + apply bind_Ok_inv in H as (files & w3 & _ & H).
      apply bind_Ok_inv in H as (ms & w4 & _ & H). injection H as <- _. done.
    + injection H as <- _. done.
  - apply bind_Ok_inv in H as ([] & w3 & _ & H). injection H as <- _.
    apply bind_Raise_inv in Hb as [Hb|(c' & w4 & Hc' & Hb)]; [congruence|].
    rewrite Hc in Hc'. injection Hc' as <- <-.
    destruct c as [id info|oe]; [done|]. by apply ret_not_Raise in Hb.
Qed.

Lemma status_not_installed_iff_witness :
  ∃ r w', get_plugin_status (sample_env quiet) "bob" installed_world = (Ok r, w')
    ∧ r = NotInstalled.
Proof.
  assert (returned is_not_installed
            (get_plugin_status (sample_env quiet) "bob" installed_world) = true) as Hr
    by (vm_compute; reflexivity).
  assert (is_some (found_plugin "bob" (pending (db installed_world))) = false) as Hn
    by (vm_compute; reflexivity).
  destruct (get_plugin_status (sample_env quiet) "bob" installed_world)
    as [[r|e] w'] eqn:H; [|discriminate Hr].
  exists r, w'. split; [reflexivity|].
  apply (status_not_installed_iff _ _ _ _ _ H). left.
  destruct (found_plugin "bob" (pending (db installed_world))); [discriminate Hn|reflexivity].
Defined.

(** *** The module check *)

Lemma filter_length_le {A} (f : A → bool) (l : list A) :
  (length (List.filter f l) ≤ length l)%nat.
Proof. induction l as [|x l IH]; simpl; [lia|]. destruct (f x); simpl; lia. Qed.

(** X12: the numbers of the module check.  The module check always
    returns; the enabled count is at most the actual count, the listed
    modules are as many as the actual count, [all_loaded] holds exactly
    when the query answered with as many rows as the static module list
    is long, and a query that raises gives the answer with all counts
    zero and [all_loaded] false. *)
Theorem check_modules_counts env u pid w :
  ∃ ms w', _check_modules_status env u pid w = (Ok ms, w')
    ∧ (enabled_count ms ≤ actual_count ms)%nat
    ∧ (∀ l, modules ms = Some l → length l = actual_count ms)
    ∧ (all_loaded ms = true
       ↔ fault env (AtExecute SelectModules) = None
         ∧ length (module_rows u pid (pending (db w))) = length MODULE_DATA)
    ∧ (fault env (AtExecute SelectModules) ≠ None →
       ms = mkModulesStatus 0 0 0 false None None).
Proof.
  unfold _check_modules_status, try_except, mbind, M_bind, bind, execute, call.
  destruct (fault env (AtExecute SelectModules)) as [e|]; simpl.
  - eexists _, _. split; [done|]. simpl. split; [lia|]. split; [done|].
    split; [|done]. split; [done|]. by intros [? _].
  - eexists _, _. split; [done|]. simpl. split; [apply filter_length_le|].
    split; [intros l [= <-]; apply length_map|]. split; [|done].
    fold (module_rows u pid (pending (db w))). rewrite Nat.eqb_eq. tauto.
Qed.

(** *** Records that stay in the open transaction *)

Lemma execute_Raise env {A} stmt (run : Store → result A * Store) w e w' :
  execute env stmt run w = (Raise e, w') →
  w' = w ∨ ∃ st', run (pending (db w)) = (Raise e, st') ∧ w' = set_pending st' w.
Proof.
  unfold execute, call. destruct (fault env (AtExecute stmt)).
  - intros [= _ <-]. by left.
  - destruct (run _) as [r st']. intros [= -> <-]. right. eauto.
Qed.

Lemma insert_module_Raise refusal id row st e st' :
  insert_module refusal id row st = (Raise e, st') → st' = st.
Proof. unfold insert_module. destruct (module_table st !! id); by intros [=]. Qed.

Lemma create_records_failed env u w err w' :
  _create_database_records env u w = (Ok (CreateFailed err), w') →
  fault env (AtExecute InsertPlugin) = None →
  plugin_table (pending (db w)) !! plugin_id_of u = None →
  plugin_table (pending (db w')) !! plugin_id_of u
  = Some (plugin_row_params u (plugin_id_of u) (now_strftime env)).
Proof.
  intros H Hf Hn. apply try_except_inv in H as [(a & H & [= <-])|(e & w1 & Hb & H)].
  { cbv zeta in H. apply bind_Ok_inv in H as ([] & w1 & _ & H).
    apply bind_Ok_inv in H as (ms & w2 & _ & H).
    apply bind_Ok_inv in H as ([] & w3 & _ & H). by injection H. }
  apply bind_Ok_inv in H as ([] & w2 & Hl & H). rewrite logger_run in Hl. injection Hl as <-.
  injection H as _ <-. simpl.
  cbv zeta in Hb. fold (plugin_id_of u) in Hb.
  apply bind_Raise_inv in Hb as [Hb|([] & w2 & Hi & Hb)].
  { exfalso. unfold execute, call, insert_plugin in Hb. rewrite Hf, Hn in Hb. done. }
  apply execute_Ok in Hi as (st1 & Hi & ->). apply insert_plugin_Ok in Hi as [_ ->].
  apply bind_Raise_inv in Hb as [Hb|(ms & w3 & _ & Hb)].
  2:{ apply bind_Raise_inv in Hb as [Hb|([] & w4 & _ & Hb)]; [by rewrite logger_run in Hb|].
      by apply ret_not_Raise in Hb. }
  unfold MODULE_DATA in Hb. cbn [for_each] in Hb.
  apply bind_Raise_inv in Hb as [Hb|(ms & w3 & _ & Hb)]; [|by apply ret_not_Raise in Hb].
  apply bind_Raise_inv in Hb as [Hb|([] & w3 & _ & Hb)]; [|by apply ret_not_Raise in Hb].
  apply execute_Raise in Hb as [->|(st2 & Hb & ->)].
  - simpl. apply lookup_insert_eq.
  - apply insert_module_Raise in Hb as ->. simpl. apply lookup_insert_eq.
Qed.

(** X13: a failed module insert leaves the plugin row pending.  When
    install returns the failure of the record step although the plugin
    insert was not made to fail and the plugin id was free, the plugin row
    of this install is still in the pending store of the session, while
    the committed store is unchanged: this branch cleans the directory
    but does not roll back. *)
Theorem install_records_failure_not_rolled_back env u w err pid w' :
  install_plugin env u w = (Ok (InstallFailed ReturnRecordsFailed err pid), w') →
  fault env (AtExecute InsertPlugin) = None →
  plugin_table (pending (db w)) !! (u +:+ "_BrainDriveNetwork") = None →
  plugin_table (pending (db w')) !! (u +:+ "_BrainDriveNetwork")
  = Some (plugin_row_params u (u +:+ "_BrainDriveNetwork") (now_strftime env))
  ∧ committed (db w') = committed (db w).
Proof.
  intros H Hf Hn.
  split.
  2:{ destruct (install_commits env u _ _ _ H) as [HR|(a & [= <-] & Ha)]; done. }
  apply try_except_inv in H as [(a & H & [= <-])|(e & w1 & _ & H)].
  2:{ apply bind_Ok_inv in H as ([] & w2 & _ & H).
      apply bind_Ok_inv in H as ([] & w3 & _ & H). by injection H. }
  apply bind_Ok_inv in H as ([] & w0 & Hl & H). rewrite logger_run in Hl. injection Hl as <-.
  apply bind_Ok_inv in H as (c & w1 & Hc & H).
  pose proof (check_existing_same_db _ _ _ _ _ Hc) as Hdb1. unfold same_db in Hdb1.
  simpl in Hdb1.
  destruct c as [id info|oe]; [by injection H|].
  unfold install_missing in H.
  apply bind_Ok_inv in H as (od & w2 & Hd & H).
  pose proof (create_directory_same_db _ _ _ _ _ Hd) as Hdb2. unfold same_db in Hdb2.
  destruct od as [d|]; [|by injection H].
  apply bind_Ok_inv in H as (cr & w3 & Hcp & H).
  pose proof (copy_files_same_db _ _ _ _ _ _ _ Hcp) as Hdb3. unfold same_db in Hdb3.
  destruct cr as [files|error].
  2:{ apply bind_Ok_inv in H as ([] & w4 & _ & H). by injection H. }
  apply bind_Ok_inv in H as (dr & w4 & Hcr & H).
  destruct dr as [plugin_id created|error].
  { apply bind_Ok_inv in H as (v & w5 & _ & H). destruct v.
    - apply bind_Ok_inv in H as ([] & w6 & _ & H).
      apply bind_Ok_inv in H as ([] & w7 & _ & H). by injection H.
    - apply bind_Ok_inv in H as ([] & w6 & _ & H).
      apply bind_Ok_inv in H as ([] & w7 & _ & H). by injection H. }
  apply bind_Ok_inv in H as ([] & w5 & Hcl & H). injection H as _ _ <-.
  pose proof (cleanup_same_db _ _ _ _ _ Hcl) as Hdb5. unfold same_db in Hdb5.
  rewrite Hdb5. apply (create_records_failed _ _ _ _ _ Hcr Hf).
  by rewrite Hdb3, Hdb2, Hdb1.
Qed.

Lemma install_records_failure_not_rolled_back_witness :
  ∃ err pid w',
    install_plugin (sample_env module_insert_fails) "alice" fresh_world
    = (Ok (InstallFailed ReturnRecordsFailed err pid), w')
    ∧ is_some (plugin_table (pending (db w')) !! "alice_BrainDriveNetwork") = true
    ∧ committed (db w') = committed (db fresh_world).
Proof.
  assert (returned (install_failed_at ReturnRecordsFailed)
            (install_plugin (sample_env module_insert_fails) "alice" fresh_world) = true)
    as Hr by (vm_compute; reflexivity).
  destruct (install_plugin (sample_env module_insert_fails) "alice" fresh_world)
    as [[[[] err pid|? ? ? ?]|e] w'] eqn:H; try discriminate Hr.
  destruct (install_records_failure_not_rolled_back _ _ _ _ _ _ H eq_refl eq_refl)
    as [Hp Hc].
  exists err, pid, w'. split; [reflexivity|]. split; [|exact Hc].
  change ("alice" +:+ "_BrainDriveNetwork") with "alice_BrainDriveNetwork" in Hp.
  by rewrite Hp.
Defined.

(** *** The verdicts of the validation *)

Lemma exists_Ok env p w b w' :
  exists_ env p w = (Ok b, w') → b = path_exists (fs w) p ∧ w' = w.
Proof. unfold exists_, call. destruct (fault env (AtExists p)); [done|]. by intros [= <- <-]. Qed.

Lemma open_read_json_Ok env p w v w' :
  open_read_json env p w = (Ok v, w') →
  w' = w ∧ ∃ content, fs w !! p = Some (File content) ∧ json_load env content = Ok v.
Proof.
  unfold open_read_json, call. destruct (fault env (AtOpenRead p)); [done|].
  destruct (fs w !! p) as [[|content]|]; [done| |done].
  intros [= H <-]. eauto.
Qed.

Lemma try_except_decode_Ok_inv {A} (body : M A) handler w a w' :
  try_except_decode body handler w = (Ok a, w') →
  body w = (Ok a, w') ∨ ∃ e w1, body w = (Raise e, w1) ∧ handler e w1 = (Ok a, w').
Proof.
  unfold try_except_decode. destruct (body w) as [[a'|e] w1]; intros H; [by left|right].
  destruct (exn_kind e); first [done|eauto].
Qed.

Lemma differs_from_false u value : differs_from u value = false → value = Some (JStr u).
Proof.
  destruct value as [[]|]; try done. simpl. intros H%negb_false_iff.
  by apply String.eqb_eq in H as ->.
Qed.

(** X14: what a valid verdict says.  When the validation answers valid,
    it has changed nothing, [package.json] is in the directory, the
    manifest is a regular file, and the value that [json.load] gives for
    its text holds the user under [installed_for_user].  The value is the
    one of the scanner of the model where that reads the text, and the one
    of the environment otherwise. *)
Theorem validate_valid_only_if env u d w w' :
  _validate_installation env u d w = (Ok Valid, w') →
  w' = w
  ∧ is_Some (fs w !! joinpath d "package.json")
  ∧ ∃ content metadata,
      fs w !! joinpath d "plugin_metadata.json" = Some (File content)
      ∧ json_load env content = Ok metadata
      ∧ (∀ v, loads content = Some v → v = metadata)
      ∧ Json.get "installed_for_user" metadata = Some (JStr u).
Proof.
  intros H. apply try_except_inv in H as [(a & H & [= <-])|(e & w1 & _ & H)].
  2:{ apply bind_Ok_inv in H as ([] & w2 & _ & H). by injection H. }
  unfold required_files in H. cbn [for_each] in H.
  apply bind_Ok_inv in H as (missing & w1 & Hm & H).
  apply bind_Ok_inv in Hm as (m1 & w2 & H1 & Hm).
  apply bind_Ok_inv in H1 as (b1 & w3 & H1 & H1').
  apply exists_Ok in H1 as [-> ->].
  apply bind_Ok_inv in Hm as (m2 & w4 & H2 & Hm).
  apply bind_Ok_inv in H2 as (b2 & w5 & H2 & H2').
  apply exists_Ok in H2 as [-> ->]. injection Hm as <- <-.
  destruct (path_exists (fs w) (joinpath d "package.json")) eqn:E1.
  2:{ injection H1' as <- <-.
      destruct (path_exists (fs w) (joinpath d "plugin_metadata.json"));
        injection H2' as <- <-; by injection H. }
  injection H1' as <- <-.
  destruct (path_exists (fs w) (joinpath d "plugin_metadata.json")) eqn:E2.
  2:{ injection H2' as <- <-. by injection H. }
  injection H2' as <- <-. cbv zeta in H.
  apply try_except_decode_Ok_inv in H as [H|(e & w1 & _ & H)]; [|by injection H].
  apply bind_Ok_inv in H as (metadata & w1 & Hr & H).
  apply open_read_json_Ok in Hr as (-> & content & Hc & Hl).
  apply bind_Ok_inv in H as (value & w2 & Hg & H).
  destruct metadata as [| | | | |members]; try done.
  injection Hg as <- <-.
  destruct (differs_from u (assoc_last "installed_for_user" members)) eqn:Hd;
    [by injection H|].
  injection H as <-. split; [done|]. split.
  - rewrite joinpath_relative in E1 |- * by reflexivity.
    rewrite path_exists_lookup in E1 by by destruct d. by apply bool_decide_eq_true in E1.
  - exists content, (JObj members). split; [done|]. split; [done|]. split.
    + intros v Hv. unfold json_load in Hl. rewrite Hv in Hl. by injection Hl.
    + by apply differs_from_false.
Qed.

Lemma validate_valid_only_if_witness :
  ∃ w', _validate_installation (sample_env quiet) "alice" alice_dir installed_world
        = (Ok Valid, w')
    ∧ w' = installed_world
    ∧ is_Some (fs installed_world !! joinpath alice_dir "package.json").
Proof.
  assert (returned is_valid
            (_validate_installation (sample_env quiet) "alice" alice_dir installed_world)
          = true) as Hr by (vm_compute; reflexivity).
  destruct (_validate_installation (sample_env quiet) "alice" alice_dir installed_world)
    as [[[|error]|e] w'] eqn:H; try discriminate Hr.
  destruct (validate_valid_only_if _ _ _ _ _ H) as (Hw & Hp & _).
  exists w'. split; [reflexivity|]. split; [exact Hw|exact Hp].
Defined.

(** X15: the verdict for missing files.  When the two probes of the
    validation answer and one of the required files is not there, the
    validation answers invalid with the message that lists the missing
    files in the order of the required list, separated by a comma and a
    space, and changes nothing. *)
Theorem validate_missing_files env u d w :
  fault env (AtExists (joinpath d "package.json")) = None →
  fault env (AtExists (joinpath d "plugin_metadata.json")) = None →
  missing_files (fs w) d ≠ [] →
  _validate_installation env u d w
  = (Ok (Invalid ("Missing required files: " +:+ join ", " (missing_files (fs w) d))), w).
Proof.
  intros He1 He2 Hmiss.
  unfold _validate_installation, required_files, try_except.
  cbn [for_each]. unfold mbind, M_bind, bind, exists_, call.
  rewrite He1, He2. cbv beta iota zeta delta [mret M_ret ret].
  unfold missing_files, required_files in *. cbn [List.filter] in *.
  destruct (path_exists (fs w) (joinpath d "package.json"));
    destruct (path_exists (fs w) (joinpath d "plugin_metadata.json")); try done.
Qed.

Lemma validate_missing_files_witness :
  _validate_installation (sample_env quiet) "alice" alice_dir package_json_lost
  = (Ok (Invalid "Missing required files: package.json"), package_json_lost).
Proof.
  assert (missing_files (fs package_json_lost) alice_dir = ["package.json"]) as Hm
    by (vm_compute; reflexivity).
  rewrite (validate_missing_files (sample_env quiet) "alice" alice_dir package_json_lost
             eq_refl eq_refl); [by rewrite Hm|].
  by rewrite Hm.
Defined.

(** X16: the verdict for the manifest of another user.  When
    [package.json] is there, the manifest is the text that the copy step
    writes for a user other than the one that is validated, and the calls
    of the validation answer, the validation answers invalid with the
    incorrect-user message and changes nothing. *)
Theorem validate_other_user env env' u v d w :
  fault env (AtExists (joinpath d "package.json")) = None →
  fault env (AtExists (joinpath d "plugin_metadata.json")) = None →
  fault env (AtOpenRead (joinpath d "plugin_metadata.json")) = None →
  is_Some (fs w !! joinpath d "package.json") →
  fs w !! joinpath d "plugin_metadata.json" = Some (File (dumps_indent2 (manifest env' v))) →
  v ≠ u →
  _validate_installation env u d w
  = (Ok (Invalid "Metadata file has incorrect user ID"), w).
Proof.
  intros He1 He2 Hr Hp Hm Hu.
  assert (path_exists (fs w) (joinpath d "package.json") = true) as Hpp.
  { rewrite joinpath_relative in Hp |- * by reflexivity.
    rewrite path_exists_lookup by by destruct d. by apply bool_decide_eq_true. }
  assert (path_exists (fs w) (joinpath d "plugin_metadata.json") = true) as Hpm.
  { rewrite joinpath_relative in Hm |- * by reflexivity.
    rewrite path_exists_lookup by by destruct d. apply bool_decide_eq_true. by rewrite Hm. }
  assert (differs_from u (Some (JStr v)) = true) as Hd.
  { simpl. apply negb_true_iff, String.eqb_neq. done. }
  unfold _validate_installation, required_files, try_except, try_except_decode.
  cbn [for_each]. unfold mbind, M_bind, bind, exists_, open_read_json, json_load, call.
  rewrite He1, He2, Hr. cbv beta iota zeta delta [mret M_ret ret].
  rewrite Hpp. cbv beta iota zeta. rewrite Hpm. cbv beta iota zeta.
  rewrite Hm, loads_dumps_indent2.
  cbv beta iota zeta delta [metadata_get manifest mret M_ret ret].
  change (assoc_last "installed_for_user" _) with (Some (JStr v)).
  by rewrite Hd.
Qed.

Lemma validate_other_user_witness :
  _validate_installation (sample_env quiet) "bob" alice_dir installed_world
  = (Ok (Invalid "Metadata file has incorrect user ID"), installed_world).
Proof.
  assert (is_some (fs installed_world !! joinpath alice_dir "package.json") = true) as Hp
    by (vm_compute; reflexivity).
  assert (fs installed_world !! joinpath alice_dir "plugin_metadata.json"
          = Some (File (dumps_indent2 (manifest (sample_env quiet) "alice")))) as Hm.
  { unfold installed_world.
    assert (returned is_installed (install_plugin (sample_env quiet) "alice" fresh_world)
            = true) as Hr by (vm_compute; reflexivity).
    destruct (install_plugin (sample_env quiet) "alice" fresh_world)
      as [[[? ? ?|pid slug mods directory]|e] w'] eqn:H; try discriminate Hr.
    by apply install_success_inv in H as (_ & _ & _ & _ & _ & Hman & _). }
  apply (validate_other_user (sample_env quiet) (sample_env quiet) "bob" "alice" alice_dir
           installed_world eq_refl eq_refl eq_refl).
  - destruct (fs installed_world !! joinpath alice_dir "package.json"); [eauto|discriminate Hp].
  - exact Hm.
  - discriminate.
Defined.

(** *** What the directory step leaves *)

#[export] Instance grows_frame : Frame grows.
Proof.
  split; unfold grows; simpl; [done| |done]. intros w1 w2 w3 H1 H2. by etrans.
Qed.

#[export] Instance keeps_outside_frame d : Frame (keeps_outside d).
Proof. split; unfold keeps_outside; simpl; auto. Qed.

#[export] Instance removes_within_frame d : Frame (removes_within d).
Proof.
  split; unfold removes_within; simpl; [done| |done].
  intros w1 w2 w3 [H1 H1'] [H2 H2']. split; [by etrans|].
  intros q Hq. by rewrite H2', H1'.
Qed.

Lemma make_dirs_grows (ps : list Path) (tree : gmap Path node) :
  forallb (fun q => match tree !! q with Some (File _) => false | _ => true end) ps = true →
  tree ⊆ make_dirs ps tree.
Proof.
  intros Hall. apply map_subseteq_spec. intros q n Hq.
  induction ps as [|p ps IH]; [done|].
  simpl in Hall. apply andb_true_iff in Hall as [Hp Hall]. rewrite make_dirs_cons.
  destruct (decide (p = q)) as [->|Hne].
  - rewrite Hq in Hp. destruct n; [apply lookup_insert_eq|done].
  - rewrite lookup_insert_ne by done. auto.
Qed.

Lemma make_dirs_id (ps : list Path) (tree : gmap Path node) :
  (∀ q, q ∈ ps → tree !! q = Some Dir) → make_dirs ps tree = tree.
Proof.
  induction ps as [|p ps IH]; [done|]. intros H. rewrite make_dirs_cons.
  rewrite IH by (intros q Hq; apply H; by right). apply insert_id, H. by left.
Qed.

Lemma mkdir_parents_grows env p : keeps grows (mkdir_parents env p).
Proof.
  apply keeps_call; [apply _|]. intros w r w' H. unfold grows.
  destruct (forallb _ _) eqn:E; injection H as _ <-; [|done].
  by apply make_dirs_grows.
Qed.

Lemma mkdir_grows env p : keeps grows (mkdir env p).
Proof.
  apply keeps_call; [apply _|]. intros w r w' H. unfold grows.
  destruct (negb _); [by injection H as _ <-|].
  destruct (fs w !! p) as [[|content]|] eqn:E; injection H as _ <-; try done.
  - apply (make_dirs_grows [p]). simpl. by rewrite E.
  - apply (make_dirs_grows [p]). simpl. by rewrite E.
Qed.

#[export] Hint Resolve mkdir_parents_grows mkdir_grows : frame.

Lemma create_directory_grows env u : keeps grows (_create_user_plugin_directory env u).
Proof. unfold _create_user_plugin_directory. frame. Qed.

Lemma mkdir_parents_Ok_inv env p w w' :
  mkdir_parents env p w = (Ok tt, w') →
  fault env (AtMkdir p) = None
  ∧ fs w' = make_dirs (ancestors_and_self p) (fs w).
Proof.
  unfold mkdir_parents, call. destruct (fault env (AtMkdir p)); [done|].
  destruct (forallb _ _); [|done]. by intros [= <-].
Qed.

Lemma mkdir_Ok_inv env p w w' :
  mkdir env p w = (Ok tt, w') →
  fault env (AtMkdir p) = None ∧ fs w' = <[p := Dir]> (fs w).
Proof.
  unfold mkdir, call. destruct (fault env (AtMkdir p)); [done|].
  destruct (negb _); [done|]. destruct (fs w !! p) as [[|content]|]; [|done|]; by intros [= <-].
Qed.

Lemma parent_joinpath d s x : parts s = [x] → is_absolute s = false → parent (joinpath d s) = d.
Proof.
  intros Hs Ha. rewrite joinpath_relative by done. rewrite Hs. apply removelast_last.
Qed.

Lemma is_dir_lookup tree (p : Path) : tree !! p = Some Dir → is_dir tree p = true.
Proof. intros H. destruct p; [done|]. simpl. by rewrite H. Qed.

(** The run of [p.mkdir(exist_ok=True)] on a directory that is there. *)
Lemma mkdir_again env p w :
  fault env (AtMkdir p) = None → fs w !! parent p = Some Dir → fs w !! p = Some Dir →
  mkdir env p w = (Ok tt, w).
Proof.
  intros Hf Hpar Hp. unfold mkdir, call. rewrite Hf, (is_dir_lookup _ _ Hpar), Hp. simpl.
  unfold set_fs. rewrite insert_id by done. by destruct w.
Qed.

Lemma mkdir_parents_again env p w :
  fault env (AtMkdir p) = None → (∀ q, q ∈ ancestors_and_self p → fs w !! q = Some Dir) →
  mkdir_parents env p w = (Ok tt, w).
Proof.
  intros Hf Hall. unfold mkdir_parents, call. rewrite Hf.
  assert (forallb (fun q => match fs w !! q with Some (File _) => false | _ => true end)
                  (ancestors_and_self p) = true) as ->.
  { apply forallb_forall. intros q Hq%list_elem_of_In. by rewrite (Hall q Hq). }
  unfold set_fs. rewrite make_dirs_id by done. by destruct w.
Qed.

(** X17: the directory step only adds.  On every run of
    [_create_user_plugin_directory] every entry of the tree before is
    still there unchanged and the session is untouched; when the step
    hands back a path, it is the plugin directory of the user, and it,
    its [dist] and its [assets] are directories. *)
Theorem create_directory_keeps_entries env u w r w' :
  _create_user_plugin_directory env u w = (r, w') →
  fs w ⊆ fs w'
  ∧ db w' = db w
  ∧ ∀ d, r = Ok (Some d) →
      d = user_plugin_dir env u
      ∧ fs w' !! d = Some Dir
      ∧ fs w' !! joinpath d "dist" = Some Dir
      ∧ fs w' !! joinpath d "assets" = Some Dir.
Proof.
  intros H. split; [eapply create_directory_grows, H|].
  split; [eapply create_directory_same_db, H|].
  intros d ->. pose proof (create_directory_post _ _ _ _ _ H) as [-> Hd].
  split; [done|]. split; [done|].
  apply try_except_inv in H as [(a & H & [= <-])|(e & w1 & _ & H)].
  2:{ apply bind_Ok_inv in H as ([] & w2 & _ & H). by injection H. }
  cbv zeta in H. fold (user_plugin_dir env u) in H.
  apply bind_Ok_inv in H as ([] & w1 & _ & H).
  apply bind_Ok_inv in H as ([] & w2 & H2 & H).
  apply bind_Ok_inv in H as ([] & w3 & H3 & H).
  apply bind_Ok_inv in H as ([] & w4 & H4 & H).
  injection H as <-. rewrite logger_run in H4. injection H4 as <-. simpl.
  apply mkdir_Ok_inv in H2 as [_ Hfs2]. pose proof H3 as H3'.
  apply mkdir_Ok_inv in H3 as [_ Hfs3]. split.
  - eapply mkdir_still_dir; [exact H3'|]. rewrite Hfs2. apply lookup_insert_eq.
  - rewrite Hfs3. apply lookup_insert_eq.
Qed.

Lemma create_directory_keeps_entries_witness :
  ∃ r w', _create_user_plugin_directory (sample_env quiet) "alice" fresh_world = (r, w')
    ∧ fs fresh_world ⊆ fs w'
    ∧ db w' = db fresh_world.
Proof.
  destruct (_create_user_plugin_directory (sample_env quiet) "alice" fresh_world)
    as [r w'] eqn:H.
  exists r, w'. split; [reflexivity|].
  destruct (create_directory_keeps_entries _ _ _ _ _ H) as (Hg & Hdb & _).
  split; [exact Hg|exact Hdb].
Defined.

(** X18: the directory step can be repeated.  After a run that handed
    back the directory, a second run in the world that the first one left
    hands back the same directory and changes neither the tree nor the
    session. *)
Theorem create_directory_idempotent env u w d w1 :
  _create_user_plugin_directory env u w = (Ok (Some d), w1) →
  ∃ w2, _create_user_plugin_directory env u w1 = (Ok (Some d), w2)
    ∧ fs w2 = fs w1 ∧ db w2 = db w1.
Proof.
  intros H.
  apply try_except_inv in H as [(a & H & [= <-])|(e & w0 & _ & H)].
  2:{ apply bind_Ok_inv in H as ([] & w2 & _ & H). by injection H. }
  cbv zeta in H. fold (user_plugin_dir env u) in H.
  apply bind_Ok_inv in H as ([] & wa & H1 & H).
  apply bind_Ok_inv in H as ([] & wb & H2 & H).
  apply bind_Ok_inv in H as ([] & wc & H3 & H).
  apply bind_Ok_inv in H as ([] & wd & H4 & H).
  injection H as <- <-. rewrite logger_run in H4. injection H4 as <-.
  pose proof (fun q => mkdir_still_dir env q _ _ _ _ H2) as Hk2.
  pose proof (fun q => mkdir_still_dir env q _ _ _ _ H3) as Hk3.
  unfold still_dir in Hk2, Hk3.
  apply mkdir_parents_Ok_inv in H1 as [Hf1 Hfs1].
  apply mkdir_Ok_inv in H2 as [Hf2 Hfs2].
  apply mkdir_Ok_inv in H3 as [Hf3 Hfs3].
  assert (∀ q, q ∈ ancestors_and_self (user_plugin_dir env u) → fs wc !! q = Some Dir)
    as Hanc.
  { intros q Hq. apply Hk3, Hk2. rewrite Hfs1. by apply make_dirs_member. }
  assert (fs wc !! user_plugin_dir env u = Some Dir) as Hd.
  { apply Hanc, ancestors_and_self_last, user_plugin_dir_nonempty. }
  assert (fs wc !! joinpath (user_plugin_dir env u) "dist" = Some Dir) as Hdist.
  { apply Hk3. rewrite Hfs2. apply lookup_insert_eq. }
  assert (fs wc !! joinpath (user_plugin_dir env u) "assets" = Some Dir) as Hassets.
  { rewrite Hfs3. apply lookup_insert_eq. }
  set (w1 := mkWorld (fs wc) (db wc) _).
  unfold _create_user_plugin_directory, try_except. cbv zeta.
  fold (user_plugin_dir env u). unfold mbind, M_bind, bind.
  rewrite (mkdir_parents_again env _ w1 Hf1 Hanc).
  rewrite (mkdir_again env _ w1 Hf2);
    [|by rewrite (parent_joinpath _ _ "dist")|done].
  rewrite (mkdir_again env _ w1 Hf3);
    [|by rewrite (parent_joinpath _ _ "assets")|done].
  rewrite logger_run. eexists. split; [reflexivity|]. done.
Qed.

Lemma create_directory_idempotent_witness :
  ∃ d w1 w2,
    _create_user_plugin_directory (sample_env quiet) "alice" fresh_world = (Ok (Some d), w1)
    ∧ _create_user_plugin_directory (sample_env quiet) "alice" w1 = (Ok (Some d), w2)
    ∧ fs w2 = fs w1.
Proof.
  assert (returned is_some
            (_create_user_plugin_directory (sample_env quiet) "alice" fresh_world) = true)
    as Hr by (vm_compute; reflexivity).
  destruct (_create_user_plugin_directory (sample_env quiet) "alice" fresh_world)
    as [[[d|]|e] w1] eqn:H; try discriminate Hr.
  destruct (create_directory_idempotent _ _ _ _ _ H) as (w2 & H2 & Hfs & _).
  exists d, w1, w2. split; [reflexivity|]. split; [exact H2|exact Hfs].
Defined.

(** *** Entries outside the plugin directory of the user *)

Lemma grows_keeps_outside d w w' : grows w w' → keeps_outside d w w'.
Proof. intros H q n _ Hq. by eapply lookup_weaken. Qed.

Lemma same_fs_keeps_outside d w w' : same_fs w w' → keeps_outside d w w'.
Proof. unfold same_fs. intros H q n _ Hq. by rewrite H. Qed.

Lemma same_fs_removes_within d w w' : same_fs w w' → removes_within d w w'.
Proof. unfold same_fs. intros H. split; by rewrite H. Qed.

Lemma under_joinpath (d : Path) s : is_absolute s = false → under d (joinpath d s).
Proof. intros H. rewrite joinpath_relative by done. by apply prefix_app_r. Qed.

Lemma write_file_outside d p content :
  under d p → keeps (keeps_outside d) (write_file p content).
Proof.
  intros Hp w r w' H q n Hq Hl. unfold write_file in H.
  destruct (negb _); [by injection H as _ <-|].
  destruct (fs w !! p) as [[|c]|]; injection H as _ <-; simpl; try done.
  all: rewrite lookup_insert_ne; [done|]; by intros <-.
Qed.

Lemma copy2_outside env d src dst :
  under d dst → keeps (keeps_outside d) (copy2 env src dst).
Proof.
  intros Hp. apply keeps_call; [apply _|]. intros w r w' H.
  destruct (fs w !! src) as [[|content]|];
    [injection H as _ <-; apply frame_refl| |injection H as _ <-; apply frame_refl].
  destruct (fs w !! dst) as [[|c]|].
  - eapply write_file_outside; [|exact H]. unfold under in *. etrans; [exact Hp|].
    by apply prefix_app_r.
  - by eapply write_file_outside.
  - by eapply write_file_outside.
Qed.

Lemma rerooted_under src dst tree (q : Path) n :
  (q, n) ∈ rerooted src dst tree → under dst q.
Proof.
  unfold rerooted. intros H. apply list_elem_of_omap in H as ([p m] & _ & H).
  simpl in H. destruct (decide (under src p)); [|done]. injection H as <- _.
  by apply prefix_app_r.
Qed.

Lemma copytree_outside env d src dst :
  under d dst → keeps (keeps_outside d) (copytree env src dst).
Proof.
  intros Hp. apply keeps_call; [apply _|]. intros w r w' H q n Hq Hl. cbv zeta in H.
  destruct (negb _); [by injection H as _ <-|].
  destruct (forallb _ _ && forallb _ _) eqn:E; injection H as _ <-; [|done].
  apply andb_true_iff in E as [_ Hanc]. simpl.
  apply lookup_union_Some_raw. right. split.
  - apply not_elem_of_list_to_map_1. intros Hin.
    apply list_elem_of_fmap in Hin as ([q' n'] & -> & Hin). simpl in Hq.
    apply rerooted_under in Hin. apply Hq. unfold under in *. by etrans.
  - eapply lookup_weaken; [exact Hl|]. by apply make_dirs_grows.
Qed.

Lemma rmtree_outside env d p : under d p → keeps (keeps_outside d) (rmtree env p).
Proof.
  intros Hp. apply keeps_call; [apply _|]. intros w r w' H q n Hq Hl.
  destruct (fs w !! p) as [[|c]|]; injection H as _ <-; simpl; try done.
  rewrite remove_tree_elsewhere; [done|]. intros Hpq. apply Hq. unfold under in *. by etrans.
Qed.

Lemma rmtree_removes_within env d : keeps (removes_within d) (rmtree env d).
Proof.
  apply keeps_call; [apply _|]. intros w r w' H.
  destruct (fs w !! d) as [[|c]|]; injection H as _ <-; simpl; try done.
  split; [apply map_filter_subseteq|]. intros q Hq. by apply remove_tree_elsewhere.
Qed.

Lemma mkdir_parents_outside env d p : keeps (keeps_outside d) (mkdir_parents env p).
Proof. eapply keeps_impl; [apply grows_keeps_outside|apply mkdir_parents_grows]. Qed.

Lemma open_write_json_outside env d p v :
  under d p → keeps (keeps_outside d) (open_write_json env p v).
Proof. intros Hp. apply keeps_call; [apply _|]. by apply write_file_outside. Qed.

Lemma copy_files_outside env u d update :
  keeps (keeps_outside d) (_copy_plugin_files env u d update).
Proof.
  unfold _copy_plugin_files, files_to_copy, dirs_to_copy. cbn [for_each].
  repeat first
    [ frame_step
    | apply mkdir_parents_outside
    | apply copy2_outside; by apply under_joinpath
    | apply copytree_outside; by apply under_joinpath
    | apply rmtree_outside; by apply under_joinpath
    | apply open_write_json_outside; by apply under_joinpath
    | apply exists_keeps; apply _ ].
Qed.

Lemma cleanup_outside env d : keeps (keeps_outside d) (_cleanup_user_directory env d).
Proof.
  unfold _cleanup_user_directory.
  repeat first [ frame_step | by apply rmtree_outside | apply exists_keeps; apply _ ].
Qed.

Lemma cleanup_removes_within env d : keeps (removes_within d) (_cleanup_user_directory env d).
Proof.
  unfold _cleanup_user_directory.
  repeat first [ frame_step | apply rmtree_removes_within | apply exists_keeps; apply _ ].
Qed.

(** The continuation may use that its argument is a value of [m]. *)
Lemma keeps_bind_value R `{!Frame R} {A B} (m : M A) (k : A → M B) :
  keeps R m → (∀ a, (∃ w w1, m w = (Ok a, w1)) → keeps R (k a)) → keeps R (m ≫= k).
Proof.
  intros Hm Hk w r w'. unfold mbind, M_bind, bind.
  destruct (m w) as [[a|e] w1] eqn:E; intros H.
  - eapply frame_trans; [eapply Hm, E|]. eapply Hk; [eauto|exact H].
  - injection H as <- <-. eapply Hm, E.
Qed.

Lemma fs_step_outside d {A} (m : M A) : keeps same_fs m → keeps (keeps_outside d) m.
Proof. apply keeps_impl, same_fs_keeps_outside. Qed.

Lemma fs_step_removes_within d {A} (m : M A) : keeps same_fs m → keeps (removes_within d) m.
Proof. apply keeps_impl, same_fs_removes_within. Qed.

Lemma install_outside env u :
  keeps (keeps_outside (user_plugin_dir env u)) (install_plugin env u).
Proof.
  unfold install_plugin.
  apply keeps_try_except; [apply _| |intros e; frame; apply fs_step_outside, rollback_same_fs].
  apply keeps_bind; [apply _|apply keeps_logger, _|intros []].
  apply keeps_bind; [apply _|apply fs_step_outside, check_existing_same_fs|].
  intros [id info|oe]; [apply keeps_ret, _|].
  unfold install_missing. apply keeps_bind_value; [apply _| |].
  { eapply keeps_impl; [apply grows_keeps_outside|apply create_directory_grows]. }
  intros [d|] (w & w1 & Hd); [|apply keeps_ret, _].
  apply create_directory_post in Hd as [-> _].
  repeat first
    [ frame_step
    | apply copy_files_outside
    | apply cleanup_outside
    | apply fs_step_outside;
      first [ apply create_records_same_fs | apply validate_same_fs
            | apply rollback_same_fs | apply commit_same_fs ] ].
Qed.

Lemma delete_removes_within env u :
  keeps (removes_within (user_plugin_dir env u)) (delete_plugin env u).
Proof.
  unfold delete_plugin, delete_existing.
  repeat first
    [ frame_step
    | apply cleanup_removes_within
    | apply fs_step_removes_within;
      first [ apply check_existing_same_fs | apply delete_records_same_fs
            | apply rollback_same_fs | apply commit_same_fs ] ].
Qed.





(** *** What the copy step copies *)

Lemma under_sibling (d : Path) x y : under (d ++ [x]) (d ++ [y]) → x = y.
Proof.
  unfold under. intros H%prefix_app_inv. destruct H as [k Hk]. by injection Hk.
Qed.

#[export] Instance keeps_entry_frame q n : Frame (keeps_entry q n).
Proof. split; unfold keeps_entry; simpl; auto. Qed.

Lemma outside_keeps_entry {A} p q n (m : M A) :
  ¬ under p q → keeps (keeps_outside p) m → keeps (keeps_entry q n) m.
Proof. intros Hq Hm w r w' H Hl. eapply Hm; eauto. Qed.

Lemma grows_keeps_entry {A} q n (m : M A) : keeps grows m → keeps (keeps_entry q n) m.
Proof. intros Hm w r w' H Hl. eapply lookup_weaken; [exact Hl|]. eapply Hm, H. Qed.

Lemma copy2_keeps_entry env q n src dst :
  ¬ under dst q → keeps (keeps_entry q n) (copy2 env src dst).
Proof. intros Hq. by eapply outside_keeps_entry, copy2_outside. Qed.

Lemma copytree_keeps_entry env q n src dst :
  ¬ under dst q → keeps (keeps_entry q n) (copytree env src dst).
Proof. intros Hq. by eapply outside_keeps_entry, copytree_outside. Qed.

Lemma rmtree_keeps_entry env q n p :
  ¬ under p q → keeps (keeps_entry q n) (rmtree env p).
Proof. intros Hq. by eapply outside_keeps_entry, rmtree_outside. Qed.

Lemma open_write_json_keeps_entry env q n p v :
  ¬ under p q → keeps (keeps_entry q n) (open_write_json env p v).
Proof. intros Hq. by eapply outside_keeps_entry, open_write_json_outside. Qed.

Lemma write_file_Ok_inv p content w w' :
  write_file p content w = (Ok tt, w') → fs w' = <[p := File content]> (fs w).
Proof.
  unfold write_file. destruct (negb _); [done|].
  destruct (fs w !! p) as [[|c]|]; [done| |]; by intros [= <-].
Qed.

Lemma copy2_Ok_inv env src dst w w' :
  copy2 env src dst w = (Ok tt, w') →
  fs w !! dst ≠ Some Dir →
  ∃ content, fs w !! src = Some (File content) ∧ fs w' = <[dst := File content]> (fs w).
Proof.
  unfold copy2, call. destruct (fault env (AtCopy2 src dst)); [done|].
  destruct (fs w !! src) as [[|content]|]; [done| |done].
  intros H Hd. exists content. split; [done|].
  destruct (fs w !! dst) as [[|c]|]; [done| |]; by apply write_file_Ok_inv in H.
Qed.

Lemma ancestors_and_self_length (p q : Path) :
  q ∈ ancestors_and_self p → (length q ≤ length p)%nat.
Proof.
  revert q. induction p as [|x p IH]; intros q; simpl; [by intros ?%elem_of_nil|].
  intros [->|Hq]%elem_of_cons; [simpl; lia|].
  apply list_elem_of_fmap in Hq as (q' & -> & Hq'). simpl. apply IH in Hq'. lia.
Qed.

Lemma make_dirs_elsewhere (ps : list Path) (tree : gmap Path node) (q : Path) :
  q ∉ ps → make_dirs ps tree !! q = tree !! q.
Proof.
  induction ps as [|p ps IH]; [done|]. intros [Hne Hq]%not_elem_of_cons.
  rewrite make_dirs_cons, lookup_insert_ne by done. auto.
Qed.

(** Making a directory with its parents leaves what is directly in it. *)
Lemma mkdir_parents_child env (d : Path) x w r w' :
  mkdir_parents env d w = (r, w') → fs w' !! (d ++ [x]) = fs w !! (d ++ [x]).
Proof.
  unfold mkdir_parents, call. destruct (fault env (AtMkdir d)); [by intros [= _ <-]|].
  destruct (forallb _ _); intros [= _ <-]; [|done]. simpl.
  apply make_dirs_elsewhere. intros Hin%ancestors_and_self_length.
  rewrite length_app in Hin. simpl in Hin. lia.
Qed.

(** One step of a proof that an entry directly in the target directory is
    kept by the steps that write under other names. *)
Ltac entry_kept Hne :=
  repeat first
    [ frame_step
    | apply exists_keeps; apply _
    | apply grows_keeps_entry, mkdir_parents_grows
    | first [ apply copy2_keeps_entry | apply copytree_keeps_entry
            | apply rmtree_keeps_entry | apply open_write_json_keeps_entry ];
      rewrite joinpath_relative by reflexivity; apply Hne; discriminate ].

(** The file [package.json] of the release is in the target directory
    after a copy step that succeeded. *)
Lemma copy_files_package_copied env u d update w files w' content :
  _copy_plugin_files env u d update w = (Ok (Copied files), w') →
  fs w !! joinpath (source_dir env) "package.json" = Some (File content) →
  fs w !! joinpath d "package.json" ≠ Some Dir →
  fs w' !! joinpath d "package.json" = Some (File content).
Proof.
  intros H Hsrc Hdst.
  assert (∀ y, "package.json" ≠ y → ¬ under (d ++ [y]) (d ++ ["package.json"])) as Hne.
  { intros y Hy Hu. apply under_sibling in Hu. by subst. }
  apply try_except_inv in H as [(a & H & [= <-])|(e & w1 & _ & H)].
  2:{ apply bind_Ok_inv in H as ([] & w2 & _ & H). by injection H. }
  cbv zeta in H. unfold files_to_copy, dirs_to_copy in H. cbn [for_each] in H.
  apply bind_Ok_inv in H as (cf & w1 & Hfiles & Hrest).
  apply bind_Ok_inv in Hfiles as (acc & w0 & H0 & Hreadme).
  apply bind_Ok_inv in H0 as (present & wa & He & H0).
  apply exists_Ok in He as [-> ->].
  assert (path_exists (fs w) (joinpath (source_dir env) "package.json") = true) as Hex.
  { rewrite joinpath_relative in Hsrc |- * by reflexivity.
    rewrite path_exists_lookup by by destruct (source_dir env).
    apply bool_decide_eq_true. by rewrite Hsrc. }
  rewrite Hex in H0.
  apply bind_Ok_inv in H0 as ([] & wa & Hmk & H0).
  apply bind_Ok_inv in H0 as ([] & wb & Hcp & H0). injection H0 as _ <-.
  assert (fs wb !! joinpath d "package.json" = Some (File content)) as Hwritten.
  { rewrite (parent_joinpath _ _ "package.json") in Hmk by reflexivity.
    pose proof (mkdir_parents_grows _ _ _ _ _ Hmk) as Hg. unfold grows in Hg.
    apply copy2_Ok_inv in Hcp as (c & Hc & ->).
    - rewrite (lookup_weaken _ _ _ _ Hsrc Hg) in Hc. injection Hc as <-.
      apply lookup_insert_eq.
    - rewrite joinpath_relative in Hdst |- * by reflexivity.
      change (parts "package.json") with ["package.json"] in Hdst |- *.
      by rewrite (mkdir_parents_child _ _ _ _ _ _ Hmk). }
  rewrite joinpath_relative in Hwritten |- * by reflexivity.
  match type of Hrest with
  | ?m w1 = _ =>
      assert (keeps (keeps_entry (d ++ parts "package.json") (File content)) m) as Krest
        by entry_kept Hne
  end.
  match type of Hreadme with
  | ?m wb = _ =>
      assert (keeps (keeps_entry (d ++ parts "package.json") (File content)) m) as Kreadme
        by entry_kept Hne
  end.
  eapply Krest; [exact Hrest|]. eapply Kreadme; [exact Hreadme|]. exact Hwritten.
Qed.

(** X21: the copy step copies [package.json].  When the copy step
    succeeds, the source directory holds the file [package.json] and the
    target directory does not hold a directory of that name, the target
    holds [package.json] with the content of the source. *)
Theorem copy_files_copies_package env u d update w files w' content :
  _copy_plugin_files env u d update w = (Ok (Copied files), w') →
  fs w !! joinpath (source_dir env) "package.json" = Some (File content) →
  fs w !! joinpath d "package.json" ≠ Some Dir →
  fs w' !! joinpath d "package.json" = Some (File content).
Proof. apply copy_files_package_copied. Qed.

Lemma copy_files_copies_package_witness :
  ∃ files w',
    _copy_plugin_files (sample_env quiet) "alice" alice_dir false directory_world
    = (Ok (Copied files), w')
    ∧ fs w' !! joinpath alice_dir "package.json" = Some (File "{}").
Proof.
  assert (returned is_copied
            (_copy_plugin_files (sample_env quiet) "alice" alice_dir false directory_world)
          = true) as Hr by (vm_compute; reflexivity).
  assert (is_some (fs directory_world !! joinpath alice_dir "package.json") = false) as Hn
    by (vm_compute; reflexivity).
  assert (fs directory_world !! joinpath (source_dir (sample_env quiet)) "package.json"
          = Some (File "{}")) as Hsrc by (vm_compute; reflexivity).
  destruct (_copy_plugin_files (sample_env quiet) "alice" alice_dir false directory_world)
    as [[[files|error]|e] w'] eqn:H; try discriminate Hr.
  exists files, w'. split; [reflexivity|].
  apply (copy_files_copies_package _ _ _ _ _ _ _ _ H Hsrc).
  intros Hd. by rewrite Hd in Hn.
Defined.

(** *** An id that is taken *)

(** X22: a plugin id that is taken.  When the pending store already has
    a plugin row under the id of the user and the plugin insert is not
    made to fail otherwise, the record step reports the failure with the
    text of the exception that the driver raises for the violated key,
    and changes neither the tree nor the session. *)
Theorem create_records_duplicate_id env u w row :
  fault env (AtExecute InsertPlugin) = None →
  plugin_table (pending (db w)) !! (u +:+ "_BrainDriveNetwork") = Some row →
  ∃ w', _create_database_records env u w
        = (Ok (CreateFailed (str_exn (integrity_error env InsertPlugin))), w')
    ∧ fs w' = fs w ∧ db w' = db w.
Proof.
  intros Hf Hrow.
  unfold _create_database_records, try_except. cbv zeta.
  unfold mbind at 1, M_bind at 1, bind at 1. unfold execute at 1, call. rewrite Hf.
  unfold insert_plugin. change (u +:+ "_" +:+ plugin_slug) with (u +:+ "_BrainDriveNetwork").
  rewrite Hrow. rewrite set_pending_same.
  unfold mbind, M_bind, bind. rewrite logger_run. eexists. split; [reflexivity|]. done.
Qed.

Lemma create_records_duplicate_id_witness :
  ∃ w', _create_database_records (sample_env quiet) "alice" installed_world
        = (Ok (CreateFailed (str_exn (integrity_error (sample_env quiet) InsertPlugin))), w')
    ∧ db w' = db installed_world.
Proof.
  assert (is_some (plugin_table (pending (db installed_world)) !! "alice_BrainDriveNetwork")
          = true) as Hs by (vm_compute; reflexivity).
  destruct (plugin_table (pending (db installed_world)) !! "alice_BrainDriveNetwork")
    as [row|] eqn:E; [|discriminate Hs].
  destruct (create_records_duplicate_id (sample_env quiet) "alice" installed_world row
              eq_refl E) as (w' & H & _ & Hdb).
  exists w'. split; [exact H|exact Hdb].
Defined.

(** *** Install after a failed existence check: what the steps do *)

Lemma bind_then {A B} (m : M A) (k : A → M B) w a w1 r :
  m w = (Ok a, w1) → k a w1 = r → (m ≫= k) w = r.
Proof. intros Hm Hk. unfold mbind, M_bind, bind. by rewrite Hm. Qed.

Lemma mkdir_parents_run env p w :
  fault env (AtMkdir p) = None → no_file_at (fs w) (ancestors_and_self p) = true →
  mkdir_parents env p w = (Ok tt, set_fs (make_dirs (ancestors_and_self p) (fs w)) w).
Proof.
  intros Hf Hall. unfold mkdir_parents, call. rewrite Hf. unfold no_file_at in Hall.
  by rewrite Hall.
Qed.

Lemma mkdir_run env p w :
  fault env (AtMkdir p) = None → fs w !! parent p = Some Dir →
  no_file_at (fs w) [p] = true →
  mkdir env p w = (Ok tt, set_fs (<[p := Dir]> (fs w)) w).
Proof.
  intros Hf Hpar Hp. unfold mkdir, call. rewrite Hf, (is_dir_lookup _ _ Hpar).
  unfold no_file_at in Hp. simpl in Hp. by destruct (fs w !! p) as [[|c]|].
Qed.

Lemma ancestors_and_self_app (p l q : Path) :
  q ∈ ancestors_and_self p → q ∈ ancestors_and_self (p ++ l).
Proof.
  revert q. induction p as [|x p IH]; intros q; simpl; [by intros ?%elem_of_nil|].
  intros [->|Hq]%elem_of_cons; [by left|]. right.
  apply list_elem_of_fmap in Hq as (q' & -> & Hq'). apply list_elem_of_fmap. eauto.
Qed.

Lemma child_not_ancestor (d : Path) x : d ++ [x] ∉ ancestors_and_self d.
Proof.
  intros Hin%ancestors_and_self_length. rewrite length_app in Hin. simpl in Hin. lia.
Qed.

(** The directory step where the tree lets it run. *)
Lemma create_directory_run env u w :
  fault env (AtMkdir (user_plugin_dir env u)) = None →
  fault env (AtMkdir (joinpath (user_plugin_dir env u) "dist")) = None →
  fault env (AtMkdir (joinpath (user_plugin_dir env u) "assets")) = None →
  directory_possible (fs w) (user_plugin_dir env u) = true →
  ∃ w2, _create_user_plugin_directory env u w = (Ok (Some (user_plugin_dir env u)), w2)
    ∧ fs w2 = <[joinpath (user_plugin_dir env u) "assets" := Dir]>
                (<[joinpath (user_plugin_dir env u) "dist" := Dir]>
                   (make_dirs (ancestors_and_self (user_plugin_dir env u)) (fs w))).
Proof.
  intros Hf1 Hf2 Hf3 Hp. apply andb_true_iff in Hp as [Hanc Hsub].
  unfold no_file_at in Hsub. cbn [forallb] in Hsub.
  apply andb_true_iff in Hsub as [Hdist Hassets]. rewrite andb_true_r in Hassets.
  unfold _create_user_plugin_directory, try_except. cbv zeta.
  fold (user_plugin_dir env u). set (d := user_plugin_dir env u) in *.
  assert (d ≠ []) as Hne by apply user_plugin_dir_nonempty.
  rewrite joinpath_relative in Hdist, Hassets, Hf2, Hf3 |- * by reflexivity.
  rewrite !(joinpath_relative d) by reflexivity.
  change (parts "dist") with ["dist"] in *. change (parts "assets") with ["assets"] in *.
  set (w1 := set_fs (make_dirs (ancestors_and_self d) (fs w)) w).
  set (w2 := set_fs (<[d ++ ["dist"] := Dir]> (fs w1)) w1).
  assert (mkdir_parents env d w = (Ok tt, w1)) as H1 by by apply mkdir_parents_run.
  assert (fs w1 !! d = Some Dir) as Hd1.
  { simpl. by apply make_dirs_member, ancestors_and_self_last. }
  assert (mkdir env (d ++ ["dist"]) w1 = (Ok tt, w2)) as H2.
  { apply mkdir_run; [done|by unfold parent; rewrite removelast_last|].
    unfold no_file_at. simpl. rewrite make_dirs_elsewhere by apply child_not_ancestor.
    by rewrite Hdist. }
  assert (mkdir env (d ++ ["assets"]) w2
          = (Ok tt, set_fs (<[d ++ ["assets"] := Dir]> (fs w2)) w2)) as H3.
  { apply mkdir_run; [done| |].
    - unfold parent. rewrite removelast_last. simpl. rewrite lookup_insert_ne; [done|].
      intros Heq. apply (f_equal length) in Heq. rewrite length_app in Heq. simpl in Heq. lia.
    - unfold no_file_at. simpl. rewrite lookup_insert_ne.
      2:{ intros Heq. by apply app_inv_head in Heq. }
      rewrite make_dirs_elsewhere by apply child_not_ancestor. by rewrite Hassets. }
  unfold mbind, M_bind, bind. rewrite H1, H2, H3, logger_run.
  eexists. split; [reflexivity|]. reflexivity.
Qed.

(** The record step where the ids are free. *)
Lemma create_records_run env u w :
  fault env (AtExecute InsertPlugin) = None →
  fault env (AtExecute (InsertModule (module_id_of u the_module))) = None →
  plugin_table (pending (db w)) !! plugin_id_of u = None →
  module_table (pending (db w)) !! module_id_of u the_module = None →
  ∃ w', _create_database_records env u w
        = (Ok (Created (plugin_id_of u) [module_id_of u the_module]), w').
Proof.
  intros Hf1 Hf2 Hn1 Hn2.
  unfold _create_database_records, try_except. cbv zeta.
  unfold MODULE_DATA. cbn [for_each]. fold (plugin_id_of u).
  change (u +:+ "_" +:+ plugin_slug +:+ "_" +:+ text (item "name" ?m))
    with (module_id_of u the_module).
  unfold mbind, M_bind, bind, execute, call. rewrite Hf1, Hf2.
  unfold insert_plugin. rewrite Hn1.
  cbn [set_pending set_db db pending plugin_table module_table committed].
  unfold insert_module. cbn [module_table]. rewrite Hn2.
  cbv beta iota zeta delta [mret M_ret ret]. rewrite logger_run. eauto.
Qed.

(** The record step where the plugin id is taken. *)
Lemma create_records_refused env u w row :
  fault env (AtExecute InsertPlugin) = None →
  plugin_table (pending (db w)) !! plugin_id_of u = Some row →
  ∃ w', _create_database_records env u w
        = (Ok (CreateFailed (str_exn (integrity_error env InsertPlugin))), w')
    ∧ fs w' = fs w ∧ db w' = db w.
Proof.
  intros Hf Hrow.
  unfold _create_database_records, try_except. cbv zeta. fold (plugin_id_of u).
  unfold mbind at 1, M_bind at 1, bind at 1. unfold execute at 1, call. rewrite Hf.
  unfold insert_plugin. rewrite Hrow. rewrite set_pending_same.
  unfold mbind, M_bind, bind. rewrite logger_run. eexists. split; [reflexivity|]. done.
Qed.

Lemma insert_dir_still_dir (tree : gmap Path node) (p q : Path) :
  tree !! q = Some Dir → <[p := Dir]> tree !! q = Some Dir.
Proof. apply (make_dirs_still_dir [p]). Qed.

Lemma ancestor_not_under env u (q : Path) :
  q ∈ ancestors_and_self (joinpath (plugins_base_dir env) u) →
  ¬ under (user_plugin_dir env u) q.
Proof.
  intros Hin [k Hk]. apply ancestors_and_self_length in Hin.
  rewrite user_plugin_dir_eq in Hk. apply (f_equal length) in Hk.
  rewrite !length_app in Hk. simpl in Hk. lia.
Qed.

(** With the directory step possible and no call made to raise, the steps
    for a missing plugin reach the end of the copy step. *)
Lemma install_missing_reaches_copy env u w1 :
  fails_only_at (AtExecute SelectPlugin) env →
  directory_possible (fs w1) (user_plugin_dir env u) = true →
  ∃ w2 cr w3,
    _create_user_plugin_directory env u w1 = (Ok (Some (user_plugin_dir env u)), w2)
    ∧ _copy_plugin_files env u (user_plugin_dir env u) false w2 = (Ok cr, w3)
    ∧ db w3 = db w1
    ∧ fs w3 !! user_plugin_dir env u = Some Dir
    ∧ (∀ q, q ∈ ancestors_and_self (joinpath (plugins_base_dir env) u) →
         fs w3 !! q = Some Dir)
    ∧ (∀ files, cr = Copied files →
         fs w3 !! joinpath (user_plugin_dir env u) "plugin_metadata.json"
         = Some (File (dumps_indent2 (manifest env u)))
         ∧ ∀ content,
             fs w1 !! joinpath (source_dir env) "package.json" = Some (File content) →
             fs w1 !! joinpath (user_plugin_dir env u) "package.json" ≠ Some Dir →
             fs w3 !! joinpath (user_plugin_dir env u) "package.json"
             = Some (File content)).
Proof.
  intros Hq Hp. set (d := user_plugin_dir env u) in *.
  destruct (create_directory_run env u w1) as (w2 & Hdir & Hfs2);
    [apply Hq; discriminate|apply Hq; discriminate|apply Hq; discriminate|exact Hp|].
  fold d in Hdir, Hfs2.
  destruct (copy_files_returns env u d false w2) as (cr & w3 & Hcp).
  pose proof (create_directory_same_db _ _ _ _ _ Hdir) as Hdb2. unfold same_db in Hdb2.
  pose proof (copy_files_same_db _ _ _ _ _ _ _ Hcp) as Hdb3. unfold same_db in Hdb3.
  pose proof (create_directory_post _ _ _ _ _ Hdir) as [_ Hd2]. fold d in Hd2.
  exists w2, cr, w3. split; [exact Hdir|]. split; [exact Hcp|].
  split; [by rewrite Hdb3|].
  split; [exact (copy_files_still_dir _ _ _ _ _ _ _ Hcp Hd2)|]. split.
  - intros q Hin. apply (copy_files_outside _ _ _ _ _ _ _ Hcp q Dir).
    { by apply ancestor_not_under. }
    rewrite Hfs2. do 2 apply insert_dir_still_dir. apply make_dirs_member.
    unfold d. rewrite user_plugin_dir_eq. by apply ancestors_and_self_app.
  - intros files ->. split; [exact (copy_files_writes_manifest _ _ _ _ _ _ _ Hcp)|].
    intros content Hsrc Hdst.
    apply (copy_files_package_copied _ _ _ _ _ _ _ _ Hcp).
    + eapply lookup_weaken; [exact Hsrc|]. eapply create_directory_grows, Hdir.
    + rewrite Hfs2. rewrite !(joinpath_relative d) in Hdst |- * by reflexivity.
      change (parts "package.json") with ["package.json"] in Hdst |- *.
      change (parts "dist") with ["dist"]. change (parts "assets") with ["assets"].
      rewrite !lookup_insert_ne by (intros Heq; by apply app_inv_head in Heq).
      by rewrite make_dirs_elsewhere by apply child_not_ancestor.
Qed.

Lemma path_exists_file tree (p : Path) x n :
  tree !! (p ++ [x]) = Some n → path_exists tree (p ++ [x]) = true.
Proof.
  intros H. rewrite path_exists_lookup by by destruct p.
  apply bool_decide_eq_true. by rewrite H.
Qed.

(** The steps for a missing plugin when the ids are free and the release
    has its [package.json]: only the copy step can fail. *)
Lemma install_missing_fresh env u w1 content :
  fails_only_at (AtExecute SelectPlugin) env →
  directory_possible (fs w1) (user_plugin_dir env u) = true →
  plugin_table (pending (db w1)) !! plugin_id_of u = None →
  module_table (pending (db w1)) !! module_id_of u the_module = None →
  fs w1 !! joinpath (source_dir env) "package.json" = Some (File content) →
  fs w1 !! joinpath (user_plugin_dir env u) "package.json" ≠ Some Dir →
  ∃ r w', install_missing env u w1 = (Ok r, w')
    ∧ (∀ q, q ∈ ancestors_and_self (joinpath (plugins_base_dir env) u) →
         fs w' !! q = Some Dir)
    ∧ ((r = Installed (plugin_id_of u) plugin_slug [module_id_of u the_module]
                      (str_path (user_plugin_dir env u))
        ∧ fs w' !! user_plugin_dir env u = Some Dir
        ∧ fs w' !! joinpath (user_plugin_dir env u) "package.json" = Some (File content)
        ∧ committed (db w') = with_records env u (pending (db w1))
        ∧ pending (db w') = with_records env u (pending (db w1)))
       ∨ (∃ err, r = InstallFailed ReturnCopyFailed err None
            ∧ absent (user_plugin_dir env u) (fs w') ∧ db w' = db w1)).
Proof.
  intros Hq Hp Hn1 Hn2 Hsrc Hdst. set (d := user_plugin_dir env u) in *.
  destruct (install_missing_reaches_copy env u w1 Hq Hp)
    as (w2 & cr & w3 & Hdir & Hcp & Hdb3 & Hd3 & Hanc3 & Hcopied).
  fold d in Hdir, Hcp, Hd3, Hcopied.
  destruct cr as [files|err].
  - destruct (Hcopied files eq_refl) as [Hman Hpkg]. specialize (Hpkg content Hsrc Hdst).
    destruct (create_records_run env u w3) as (w4 & Hrec);
      [apply Hq; discriminate|apply Hq; discriminate|by rewrite Hdb3|by rewrite Hdb3|].
    pose proof (create_records_Ok _ _ _ _ _ _ Hrec) as (_ & _ & _ & _ & Hfs4 & Hc4 & Hp4).
    assert (_validate_installation env u d w4 = (Ok Valid, w4)) as Hval.
    { apply validate_written_manifest.
      - by rewrite Hfs4.
      - rewrite joinpath_relative in Hpkg |- * by reflexivity. rewrite Hfs4.
        by eapply path_exists_file.
      - apply Hq; discriminate.
      - apply Hq; discriminate.
      - apply Hq; discriminate. }
    eexists _, _. split.
    { unfold install_missing. fold d.
      eapply bind_then; [exact Hdir|]. cbv beta iota.
      eapply bind_then; [exact Hcp|]. cbv beta iota.
      eapply bind_then; [exact Hrec|]. cbv beta iota.
      eapply bind_then; [exact Hval|]. cbv beta iota.
      unfold mbind, M_bind, bind, commit, call. rewrite (Hq AtCommit) by discriminate.
      rewrite logger_run. reflexivity. }
    cbn [fs db set_db committed pending]. rewrite Hfs4, Hp4, Hdb3.
    split; [exact Hanc3|]. left. done.
  - destruct (cleanup_removes env d w3) as (w4 & Hcl & Hfs4);
      [apply Hq; discriminate|apply Hq; discriminate|exact Hd3|].
    pose proof (cleanup_same_db _ _ _ _ _ Hcl) as Hdb4. unfold same_db in Hdb4.
    eexists _, _. split.
    { unfold install_missing. fold d.
      eapply bind_then; [exact Hdir|]. cbv beta iota.
      eapply bind_then; [exact Hcp|]. cbv beta iota.
      eapply bind_then; [exact Hcl|]. reflexivity. }
    split.
    + intros q Hin. rewrite Hfs4, remove_tree_elsewhere by by apply ancestor_not_under.
      by apply Hanc3.
    + right. exists err. split; [done|]. rewrite Hfs4, Hdb4, Hdb3.
      split; [apply remove_tree_absent|done].
Qed.

(** The same steps when the plugin id is taken: the copy step fails or the
    insert is refused, and either way the cleanup removes the directory. *)
Lemma install_missing_taken env u w1 row :
  fails_only_at (AtExecute SelectPlugin) env →
  directory_possible (fs w1) (user_plugin_dir env u) = true →
  plugin_table (pending (db w1)) !! plugin_id_of u = Some row →
  ∃ r w', install_missing env u w1 = (Ok r, w')
    ∧ (∀ q, q ∈ ancestors_and_self (joinpath (plugins_base_dir env) u) →
         fs w' !! q = Some Dir)
    ∧ absent (user_plugin_dir env u) (fs w') ∧ db w' = db w1
    ∧ ((∃ err, r = InstallFailed ReturnCopyFailed err None)
       ∨ r = InstallFailed ReturnRecordsFailed
               (str_exn (integrity_error env InsertPlugin)) None).
Proof.
  intros Hq Hp Hrow. set (d := user_plugin_dir env u) in *.
  destruct (install_missing_reaches_copy env u w1 Hq Hp)
    as (w2 & cr & w3 & Hdir & Hcp & Hdb3 & Hd3 & Hanc3 & _).
  fold d in Hdir, Hcp, Hd3.
  destruct cr as [files|err].
  - destruct (create_records_refused env u w3 row) as (w4 & Hrec & Hfs4 & Hdb4);
      [apply Hq; discriminate|by rewrite Hdb3|].
    destruct (cleanup_removes env d w4) as (w5 & Hcl & Hfs5);
      [apply Hq; discriminate|apply Hq; discriminate|by rewrite Hfs4|].
    pose proof (cleanup_same_db _ _ _ _ _ Hcl) as Hdb5. unfold same_db in Hdb5.
    eexists _, _. split.
    { unfold install_missing. fold d.
      eapply bind_then; [exact Hdir|]. cbv beta iota.
      eapply bind_then; [exact Hcp|]. cbv beta iota.
      eapply bind_then; [exact Hrec|]. cbv beta iota.
      eapply bind_then; [exact Hcl|]. reflexivity. }
    split.
    + intros q Hin. rewrite Hfs5, remove_tree_elsewhere by by apply ancestor_not_under.
      rewrite Hfs4. by apply Hanc3.
    + rewrite Hfs5, Hdb5, Hdb4, Hdb3. split; [apply remove_tree_absent|]. split; [done|].
      by right.
  - destruct (cleanup_removes env d w3) as (w4 & Hcl & Hfs4);
      [apply Hq; discriminate|apply Hq; discriminate|exact Hd3|].
    pose proof (cleanup_same_db _ _ _ _ _ Hcl) as Hdb4. unfold same_db in Hdb4.
    eexists _, _. split.
    { unfold install_missing. fold d.
      eapply bind_then; [exact Hdir|]. cbv beta iota.
      eapply bind_then; [exact Hcp|]. cbv beta iota.
      eapply bind_then; [exact Hcl|]. reflexivity. }
    split.
    + intros q Hin. rewrite Hfs4, remove_tree_elsewhere by by apply ancestor_not_under.
      by apply Hanc3.
    + rewrite Hfs4, Hdb4, Hdb3. split; [apply remove_tree_absent|]. split; [done|].
      left. eauto.
Qed.


